(** * IdeiaTech SmartLeader: assignment and rebalancing engine

  A shallow embedding of the workload model, the wellbeing trend analyser,
  the recommendation engine with its fallback, the assignment applier and
  the team rebalancer, followed by the properties proved about them.

  Conventions of the embedding.
  - Python [int] values are [Z]; Python [float] values are exact rationals
    [Q] (the rounding of binary floating point is not modelled, and equality
    of such values is [Qeq]).
  - Python [str] values are [string], read as UTF-8 bytes.
  - A table of the relational store is a list of rows in table order; a
    query without ORDER BY returns the matching rows in that order.
  - It is the in-memory unit of work of one request that is modelled:
    [commit] succeeds, except where a value cannot be stored in its column,
    and constraints other than column types are not enforced. The load of a
    person is the one column whose type is left open: it is an integer
    column that receives sums of floats, and only whole numbers are taken
    to be stored as they are (see [User.t]). *)

From Stdlib Require Import ZArith QArith Qminmax Qround Lqa Lia.
From Stdlib Require Import List String Ascii Bool Permutation Sorted.
Import ListNotations.

Local Open Scope Z_scope.
Local Open Scope Q_scope.
Local Open Scope string_scope.
Local Open Scope list_scope.

(* ================================================================= *)
(** ** Python built-ins used by the source *)

Module Py.

(** [a < b] on floats. *)
Definition Qlt_bool (a b : Q) : bool := negb (Qle_bool b a).

(** Truth value of an [Optional[int]]: [None] and [0] are falsy. *)
Definition truthy_int (o : option Z) : bool :=
  match o with
  | Some z => negb (z =? 0)%Z
  | None => false
  end.

(** Truth value of an [Optional[float]]: [None] and [0.0] are falsy. *)
Definition truthy_float (o : option Q) : bool :=
  match o with
  | Some q => negb (Qeq_bool q 0)
  | None => false
  end.

(** [max(0, x)]: the built-in keeps its first argument unless a later one
    is strictly greater. *)
Definition max0 (x : Q) : Q := if Qlt_bool 0 x then x else 0.

(** [sum(xs)] over integers and over floats. *)
Definition sumZ (l : list Z) : Z := fold_left Z.add l 0%Z.
Definition sumQ (l : list Q) : Q := fold_left Qplus l 0.

(** [len(xs)] as a number. *)
Definition len {A} (l : list A) : Q := inject_Z (Z.of_nat (List.length l)).

(** [xs[-n:]]. *)
Definition lastn {A} (n : nat) (l : list A) : list A :=
  skipn (List.length l - n) l.

(** [min(xs, key=k)]: the running best is replaced only by an element whose
    key is strictly smaller, so the first minimal element wins. The empty
    case (a [ValueError]) is [None]. *)
Fixpoint min_loop {A} (key : A -> Q) (best : A) (rest : list A) : A :=
  match rest with
  | [] => best
  | x :: r => if Qlt_bool (key x) (key best)
              then min_loop key x r
              else min_loop key best r
  end.

Definition min_by {A} (key : A -> Q) (l : list A) : option A :=
  match l with
  | [] => None
  | x :: r => Some (min_loop key x r)
  end.

(** Stable sorts by an integer key, ascending and descending (ORDER BY on
    one column; [list.sort(key=..., reverse=True)] keeps the original order
    of equal keys as well). *)
Section Sorting.
Context {A : Type} (key : A -> Z).

Fixpoint insert_asc (x : A) (l : list A) : list A :=
  match l with
  | [] => [x]
  | y :: r => if (key y <=? key x)%Z then y :: insert_asc x r else x :: l
  end.

Fixpoint insert_desc (x : A) (l : list A) : list A :=
  match l with
  | [] => [x]
  | y :: r => if (key x <=? key y)%Z then y :: insert_desc x r else x :: l
  end.

Definition sort_asc (l : list A) : list A :=
  fold_left (fun acc x => insert_asc x acc) l [].

Definition sort_desc (l : list A) : list A :=
  fold_left (fun acc x => insert_desc x acc) l [].
End Sorting.

End Py.

(* ================================================================= *)
(** ** models/user.py *)

Module UserRole.

Inductive t := COLABORADOR | GESTOR | ADMIN.

Definition eqb (a b : t) : bool :=
  match a, b with
  | COLABORADOR, COLABORADOR | GESTOR, GESTOR | ADMIN, ADMIN => true
  | _, _ => false
  end.

End UserRole.

Module User.

Record t := mk {
  id : Z;
  email : string;
  username : string;
  full_name : string;
  role : UserRole.t;
  is_active : bool;
  department : option string;
  position : option string;
  manager_id : option Z;
  workload_capacity : Z;      (* hours per week *)
  current_workload : Q        (* hours currently allocated *)
}.

(** [current_workload] is an integer column that the code feeds with sums
    and differences of the items' hours, which are floats. The field is the
    number the row object holds once the code has assigned it. A whole number
    is what the column keeps as it is; what the store makes of any other
    number when the unit of work is committed (rounding it, or refusing it)
    is not decided by the sources and is not modelled, and an update stamp
    that the store writes by itself on a changed row ([onupdate]) is not
    modelled either. Statements about the amount of a stored load are
    therefore made for whole hours and whole loads only. *)

Definition workload_percentage (self : t) : Q :=
  if (workload_capacity self =? 0)%Z then 0
  else (current_workload self / inject_Z (workload_capacity self)) * 100.

Definition is_overloaded (self : t) : bool :=
  Py.Qlt_bool 90 (workload_percentage self).

Definition available_hours (self : t) : Q :=
  Py.max0 (inject_Z (workload_capacity self) - current_workload self).

Definition set_current_workload (self : t) (w : Q) : t :=
  mk (id self) (email self) (username self) (full_name self) (role self)
     (is_active self) (department self) (position self) (manager_id self)
     (workload_capacity self) w.

End User.

(* ================================================================= *)
(** ** JSON values and the [json] / [str] library operations *)

Module Json.

(** What [json.loads] can return, and what the engine's result dictionaries
    hold. Numbers are kept by value, so [50] and [50.0] coincide as they do
    under Python's [==]; a [dict] is an association list in insertion order. *)
#[local] Set Warnings "-register-all".
Inductive value :=
| JNull
| JBool (b : bool)
| JNum (q : Q)
| JNaN
| JInf (negative : bool)
| JStr (s : string)
| JList (l : list value)
| JDict (d : list (string * value)).

Definition dict := list (string * value).

(** [d.get(k)] on the entries of a dict. *)
Fixpoint lookup (d : dict) (k : string) : option value :=
  match d with
  | [] => None
  | (k', v) :: r => if String.eqb k' k then Some v else lookup r k
  end.

(** [d[k] = v]: an existing key keeps its position, a new key goes last. *)
Fixpoint dict_set (d : dict) (k : string) (v : value) : dict :=
  match d with
  | [] => [(k, v)]
  | (k', v') :: r => if String.eqb k' k then (k', v) :: r
                     else (k', v') :: dict_set r k v
  end.

(** [x.get(k)] with the default [None]; only meaningful on a dict. *)
Definition get (x : value) (k : string) : value :=
  match x with
  | JDict d => match lookup d k with Some v => v | None => JNull end
  | _ => JNull
  end.

(** [x.get(k, dflt)]. *)
Definition get_default (x : value) (k : string) (dflt : value) : value :=
  match x with
  | JDict d => match lookup d k with Some v => v | None => dflt end
  | _ => dflt
  end.

Definition is_str (k : string) (v : value) : bool :=
  match v with
  | JStr s => String.eqb s k
  | _ => false
  end.

Fixpoint is_prefix (p s : list ascii) : bool :=
  match p, s with
  | [], _ => true
  | a :: p', b :: s' => Ascii.eqb a b && is_prefix p' s'
  | _ :: _, [] => false
  end.

Fixpoint is_infix (p s : list ascii) : bool :=
  is_prefix p s || match s with
                   | [] => false
                   | _ :: s' => is_infix p s'
                   end.

(** The operator [k in x] for a string [k]: key membership on a dict, element
    membership on a list, substring test on a string; [None] is the
    [TypeError] raised on a value that is not a container. *)
Definition contains (x : value) (k : string) : option bool :=
  match x with
  | JDict d => Some (match lookup d k with Some _ => true | None => false end)
  | JList l => Some (existsb (is_str k) l)
  | JStr s => Some (is_infix (list_ascii_of_string k) (list_ascii_of_string s))
  | _ => None
  end.

(** *** [str.strip], [startswith], [endswith] and slicing *)

Definition bytes (l : list N) : list ascii := map ascii_of_N l.

(** The characters for which [str.isspace] holds, as UTF-8 byte sequences. *)
Definition whitespace : list (list ascii) :=
  map bytes
    ([ [9]; [10]; [11]; [12]; [13]; [28]; [29]; [30]; [31]; [32];
       [194; 133]; [194; 160]; [225; 154; 128] ]
     ++ map (fun b => [226; 128; b])
            [128; 129; 130; 131; 132; 133; 134; 135; 136; 137; 138;
             168; 169; 175]
     ++ [ [226; 129; 159]; [227; 128; 128] ])%N.

(** Drops the first pattern of [pats] that starts [s], if any. *)
Fixpoint drop_one (pats : list (list ascii)) (s : list ascii)
  : option (list ascii) :=
  match pats with
  | [] => None
  | p :: ps => if is_prefix p s then Some (skipn (List.length p) s)
               else drop_one ps s
  end.

Fixpoint drop_all (fuel : nat) (pats : list (list ascii)) (s : list ascii)
  : list ascii :=
  match fuel with
  | O => s
  | S f => match drop_one pats s with
           | Some s' => drop_all f pats s'
           | None => s
           end
  end.

Definition lstrip (s : list ascii) : list ascii :=
  drop_all (List.length s) whitespace s.

Definition rstrip (s : list ascii) : list ascii :=
  rev (drop_all (List.length s) (map (@rev ascii) whitespace) (rev s)).

Definition strip (s : string) : string :=
  string_of_list_ascii (rstrip (lstrip (list_ascii_of_string s))).

Definition startswith (s p : string) : bool :=
  is_prefix (list_ascii_of_string p) (list_ascii_of_string s).

Definition endswith (s p : string) : bool :=
  is_prefix (rev (list_ascii_of_string p)) (rev (list_ascii_of_string s)).

(** [s[n:]] and [s[:-n]]. *)
Definition slice_from (n : nat) (s : string) : string :=
  string_of_list_ascii (skipn n (list_ascii_of_string s)).

Definition slice_to_minus (n : nat) (s : string) : string :=
  let l := list_ascii_of_string s in
  string_of_list_ascii (firstn (List.length l - n) l).

(** *** [json.loads]

    The decoder of the standard library (its C scanner): RFC 8259 texts plus
    the literals [NaN], [Infinity] and [-Infinity]; strings in strict mode
    (no raw control character). A number with a fraction or an exponent is
    kept as the exact rational it denotes.

    The decoder fails in three ways. A text outside the grammar raises
    [JSONDecodeError]. Every array and object, the empty ones too, is read
    in a nested call of the scanner, so a text nested deeper than the
    interpreter's recursion limit leaves room for raises [RecursionError].
    An integer literal is converted by [int], which raises a plain
    [ValueError] when it has more digits than the interpreter's limit on
    integer strings. The scanner reads left to right and the first failure
    met is the one raised. *)

Inductive error := JSONDecodeError | RecursionError | ValueError.

Inductive outcome :=
| Decoded (v : value)
| Raises (e : error).

(** The two limits of the interpreter the decoder can run into: the number
    of nested calls the recursion limit leaves to the scanner, and
    [sys.get_int_max_str_digits()], where 0 stands for no limit. *)
Record limits := mkLimits {
  recursion_room : nat;
  max_str_digits : nat
}.

(** An interpreter with its default settings: the recursion limit is 1000, so
    that at most 1000 nested calls are left to the scanner, and an integer
    string has at most 4300 digits. *)
Definition default_limits : limits := mkLimits 1000 4300.

Inductive scan :=
| Scanned (v : value) (rest : list ascii)
| Failed (e : error).

Definition is_json_ws (c : ascii) : bool :=
  let n := N_of_ascii c in
  ((n =? 32) || (n =? 9) || (n =? 10) || (n =? 13))%N.

Fixpoint skip_ws (s : list ascii) : list ascii :=
  match s with
  | c :: r => if is_json_ws c then skip_ws r else s
  | [] => []
  end.

Definition is_digit (c : ascii) : bool :=
  let n := N_of_ascii c in ((48 <=? n) && (n <=? 57))%N.

Definition digit_val (c : ascii) : Z := (Z.of_N (N_of_ascii c) - 48)%Z.

Definition hex_val (c : ascii) : option N :=
  let n := N_of_ascii c in
  if ((48 <=? n) && (n <=? 57))%N then Some (n - 48)%N
  else if ((97 <=? n) && (n <=? 102))%N then Some (n - 87)%N
  else if ((65 <=? n) && (n <=? 70))%N then Some (n - 55)%N
  else None.

Fixpoint span_digits (s : list ascii) : list ascii * list ascii :=
  match s with
  | c :: r => if is_digit c
              then let (ds, rest) := span_digits r in (c :: ds, rest)
              else ([], s)
  | [] => ([], [])
  end.

Definition digits_to_Z (ds : list ascii) : Z :=
  fold_left (fun acc c => (acc * 10 + digit_val c)%Z) ds 0%Z.

(** Four hexadecimal digits of a [\uXXXX] escape. *)
Definition hex4 (s : list ascii) : option (N * list ascii) :=
  match s with
  | a :: b :: c :: d :: r =>
      match hex_val a, hex_val b, hex_val c, hex_val d with
      | Some x, Some y, Some z, Some w =>
          Some ((((x * 16 + y) * 16 + z) * 16 + w)%N, r)
      | _, _, _, _ => None
      end
  | _ => None
  end.

(** UTF-8 bytes of a code point (a lone surrogate keeps its three-byte
    form). *)
Definition utf8 (n : N) : list ascii :=
  (if n <? 128 then bytes [n]
   else if n <? 2048 then bytes [192 + n / 64; 128 + n mod 64]
   else if n <? 65536
        then bytes [224 + n / 4096; 128 + (n / 64) mod 64; 128 + n mod 64]
        else bytes [240 + n / 262144; 128 + (n / 4096) mod 64;
                    128 + (n / 64) mod 64; 128 + n mod 64])%N.

Definition is_high_surrogate (n : N) : bool := ((55296 <=? n) && (n <=? 56319))%N.
Definition is_low_surrogate (n : N) : bool := ((56320 <=? n) && (n <=? 57343))%N.

(** The body of a string literal, after its opening quote. *)
Fixpoint scanstring (fuel : nat) (s : list ascii) (acc : list ascii)
  : option (string * list ascii) :=
  match fuel with
  | O => None
  | S f =>
      match s with
      | [] => None
      | c :: r =>
          if (N_of_ascii c =? 34)%N then
            Some (string_of_list_ascii (rev acc), r)
          else if (N_of_ascii c <? 32)%N then None
          else if (N_of_ascii c =? 92)%N then
            match r with
            | [] => None
            | e :: r' =>
                let n := N_of_ascii e in
                let simple (b : N) := scanstring f r' (ascii_of_N b :: acc) in
                if (n =? 34)%N then simple 34%N
                else if (n =? 92)%N then simple 92%N
                else if (n =? 47)%N then simple 47%N
                else if (n =? 98)%N then simple 8%N
                else if (n =? 102)%N then simple 12%N
                else if (n =? 110)%N then simple 10%N
                else if (n =? 114)%N then simple 13%N
                else if (n =? 116)%N then simple 9%N
                else if (n =? 117)%N then
                  match hex4 r' with
                  | None => None
                  | Some (u, r2) =>
                      let lone := scanstring f r2 (rev (utf8 u) ++ acc) in
                      if is_high_surrogate u then
                        match r2 with
                        | b1 :: b2 :: r3 =>
                            if ((N_of_ascii b1 =? 92) && (N_of_ascii b2 =? 117))%N
                            then match hex4 r3 with
                                 | Some (u2, r4) =>
                                     if is_low_surrogate u2 then
                                       scanstring f r4
                                         (rev (utf8 (65536 + (u - 55296) * 1024
                                                     + (u2 - 56320))%N) ++ acc)
                                     else lone
                                 | None => lone
                                 end
                            else lone
                        | _ => lone
                        end
                      else lone
                  end
                else None
            end
          else scanstring f r (c :: acc)
      end
  end.

(** A number at the head of [s], as the library's regular expression reads
    it: an optional minus sign, then a single zero or a digit string without
    leading zero, then optionally a dot with at least one digit, then
    optionally an exponent mark, a sign and at least one digit. The second
    component of the result is the length of the digit string handed to
    [int], for a literal with neither fraction nor exponent; a literal with
    one of them is converted by [float]. *)
Definition scan_number (s : list ascii)
  : option (value * option nat * list ascii) :=
  let '(neg, s1) := match s with
                    | c :: r => if (N_of_ascii c =? 45)%N then (true, r)
                                else (false, s)
                    | [] => (false, s)
                    end in
  let int_part :=
    match s1 with
    | c :: r => if (N_of_ascii c =? 48)%N then Some ([c], r)
                else if is_digit c then Some (span_digits s1)
                else None
    | [] => None
    end in
  match int_part with
  | None => None
  | Some (ids, s2) =>
      let '(frac, s3) :=
        match s2 with
        | c :: r => if (N_of_ascii c =? 46)%N
                    then match span_digits r with
                         | ([], _) => (None, s2)
                         | (ds, r') => (Some ds, r')
                         end
                    else (None, s2)
        | [] => (None, s2)
        end in
      let '(exp, s4) :=
        match s3 with
        | c :: r =>
            if ((N_of_ascii c =? 101) || (N_of_ascii c =? 69))%N then
              let '(eneg, r1) :=
                match r with
                | d :: r' => if (N_of_ascii d =? 45)%N then (true, r')
                             else if (N_of_ascii d =? 43)%N then (false, r')
                             else (false, r)
                | [] => (false, r)
                end in
              match span_digits r1 with
              | ([], _) => (None, s3)
              | (ds, r2) => (Some (if eneg then - digits_to_Z ds
                                   else digits_to_Z ds)%Z, r2)
              end
            else (None, s3)
        | [] => (None, s3)
        end in
      let fds := match frac with Some ds => ds | None => [] end in
      let ex := match exp with Some e => e | None => 0%Z end in
      let mant := inject_Z (digits_to_Z (ids ++ fds)) in
      let scale := (ex - Z.of_nat (List.length fds))%Z in
      let q := Qred (mant * Qpower 10 scale) in
      Some (JNum (if neg then Qred (- q) else q),
            match frac, exp with
            | None, None => Some (List.length ids)
            | _, _ => None
            end,
            s4)
  end.

Definition literal (w : string) (v : value) (s : list ascii)
  : option (value * list ascii) :=
  let p := list_ascii_of_string w in
  if is_prefix p s then Some (v, skipn (List.length p) s) else None.

Definition first_of {A} (a b : option A) : option A :=
  match a with
  | Some _ => a
  | None => b
  end.

Section Scanner.

Variable digits_limit : nat.

(** [int] refuses a digit string longer than the limit. *)
Definition too_many_digits (n : nat) : bool :=
  negb (digits_limit =? 0)%nat && (digits_limit <? n)%nat.

(** The value at the head of [s]; [room] is the number of nested calls the
    scanner can still make. *)
Fixpoint scan_once (fuel room : nat) (s : list ascii) {struct fuel} : scan :=
  match fuel with
  | O => Failed JSONDecodeError
  | S f =>
      match s with
      | [] => Failed JSONDecodeError
      | c :: r =>
          let n := N_of_ascii c in
          if (n =? 34)%N then
            match scanstring (S (List.length r)) r [] with
            | Some (str, r') => Scanned (JStr str) r'
            | None => Failed JSONDecodeError
            end
          else if (n =? 123)%N then
            match room with
            | O => Failed RecursionError
            | S room' =>
                match skip_ws r with
                | c1 :: r1 =>
                    if (N_of_ascii c1 =? 125)%N then Scanned (JDict []) r1
                    else scan_object f room' (c1 :: r1) []
                | [] => Failed JSONDecodeError
                end
            end
          else if (n =? 91)%N then
            match room with
            | O => Failed RecursionError
            | S room' =>
                match skip_ws r with
                | c1 :: r1 =>
                    if (N_of_ascii c1 =? 93)%N then Scanned (JList []) r1
                    else scan_array f room' (c1 :: r1) []
                | [] => Failed JSONDecodeError
                end
            end
          else
            match first_of (literal "null" JNull s)
                 (first_of (literal "true" (JBool true) s)
                           (literal "false" (JBool false) s)) with
            | Some (v, r') => Scanned v r'
            | None =>
                match scan_number s with
                | Some (v, Some digits, r') =>
                    if too_many_digits digits then Failed ValueError
                    else Scanned v r'
                | Some (v, None, r') => Scanned v r'
                | None =>
                    match first_of (literal "NaN" JNaN s)
                         (first_of (literal "Infinity" (JInf false) s)
                                   (literal "-Infinity" (JInf true) s)) with
                    | Some (v, r') => Scanned v r'
                    | None => Failed JSONDecodeError
                    end
                end
            end
      end
  end
with scan_array (fuel room : nat) (s : list ascii) (acc : list value)
    {struct fuel} : scan :=
  match fuel with
  | O => Failed JSONDecodeError
  | S f =>
      match scan_once f room s with
      | Failed e => Failed e
      | Scanned v r =>
          match skip_ws r with
          | c :: r' =>
              if (N_of_ascii c =? 93)%N then Scanned (JList (rev (v :: acc))) r'
              else if (N_of_ascii c =? 44)%N
                   then scan_array f room (skip_ws r') (v :: acc)
                   else Failed JSONDecodeError
          | [] => Failed JSONDecodeError
          end
      end
  end
with scan_object (fuel room : nat) (s : list ascii) (acc : dict)
    {struct fuel} : scan :=
  match fuel with
  | O => Failed JSONDecodeError
  | S f =>
      match s with
      | [] => Failed JSONDecodeError
      | q :: r =>
          if negb (N_of_ascii q =? 34)%N then Failed JSONDecodeError
          else
            match scanstring (S (List.length r)) r [] with
            | None => Failed JSONDecodeError
            | Some (k, r1) =>
                match skip_ws r1 with
                | c :: r2 =>
                    if negb (N_of_ascii c =? 58)%N then Failed JSONDecodeError
                    else
                      match scan_once f room (skip_ws r2) with
                      | Failed e => Failed e
                      | Scanned v r3 =>
                          match skip_ws r3 with
                          | e :: r4 =>
                              if (N_of_ascii e =? 125)%N
                              then Scanned (JDict (dict_set acc k v)) r4
                              else if (N_of_ascii e =? 44)%N
                                   then scan_object f room (skip_ws r4)
                                          (dict_set acc k v)
                                   else Failed JSONDecodeError
                          | [] => Failed JSONDecodeError
                          end
                      end
                | [] => Failed JSONDecodeError
                end
            end
      end
  end.

End Scanner.

(** [json.loads(s)] under the given limits. The scanner takes at most two
    steps for a character it reads, which bounds its recursion. *)
Definition loads (lim : limits) (s : string) : outcome :=
  let l := skip_ws (list_ascii_of_string s) in
  match scan_once (max_str_digits lim) (S (2 * List.length l))
          (recursion_room lim) l with
  | Scanned v rest => match skip_ws rest with
                      | [] => Decoded v
                      | _ :: _ => Raises JSONDecodeError
                      end
  | Failed e => Raises e
  end.

End Json.

(* ================================================================= *)
(** ** models/task.py *)

Module TaskStatus.

Inductive t := PENDING | IN_PROGRESS | COMPLETED | CANCELLED | BLOCKED.

Definition eqb (a b : t) : bool :=
  match a, b with
  | PENDING, PENDING | IN_PROGRESS, IN_PROGRESS | COMPLETED, COMPLETED
  | CANCELLED, CANCELLED | BLOCKED, BLOCKED => true
  | _, _ => false
  end.

Definition value (s : t) : string :=
  match s with
  | PENDING => "pending"
  | IN_PROGRESS => "in_progress"
  | COMPLETED => "completed"
  | CANCELLED => "cancelled"
  | BLOCKED => "blocked"
  end.

End TaskStatus.

Module TaskPriority.

Inductive t := LOW | MEDIUM | HIGH | URGENT.

Definition value (p : t) : string :=
  match p with
  | LOW => "low"
  | MEDIUM => "medium"
  | HIGH => "high"
  | URGENT => "urgent"
  end.

(** Modelled from the spec: the order in which the relational store sorts the
    [priority] column. The store is not part of the sources; the data model
    states the order as urgent > high > medium > low, which is also the order
    in which the enumeration declares its members (the order of a native
    enumerated column type). *)
Definition rank (p : t) : Z :=
  match p with
  | LOW => 0
  | MEDIUM => 1
  | HIGH => 2
  | URGENT => 3
  end.

End TaskPriority.

Module Task.

Record t := mk {
  id : Z;
  title : string;
  description : option string;
  status : TaskStatus.t;
  priority : TaskPriority.t;
  assigned_to : option Z;
  created_by : Z;
  estimated_hours : option Q;
  actual_hours : Q;
  required_skills : option string;          (* a JSON text *)
  due_date : option Z;
  started_at : option Z;
  completed_at : option Z;
  created_at : Z;
  updated_at : option Z;
  ai_match_score : option Json.value;
  ai_recommendation_reason : option Json.value
}.

(** [updated_at] is declared with [onupdate=func.now()]: the store stamps it
    by itself whenever a row of the table is updated. No code of the application
    assigns it, and the model carries it as the row had it when it was read;
    the stamp the store writes on a changed row is not modelled, so
    statements on what a write leaves unchanged do not speak of this
    column. *)

(** [task.assigned_to = v]. *)
Definition set_assigned_to (self : t) (v : option Z) : t :=
  mk (id self) (title self) (description self) (status self) (priority self)
     v (created_by self) (estimated_hours self) (actual_hours self)
     (required_skills self) (due_date self) (started_at self)
     (completed_at self) (created_at self) (updated_at self)
     (ai_match_score self) (ai_recommendation_reason self).

Definition set_title (self : t) (v : string) : t :=
  mk (id self) v (description self) (status self) (priority self)
     (assigned_to self) (created_by self) (estimated_hours self)
     (actual_hours self) (required_skills self) (due_date self)
     (started_at self) (completed_at self) (created_at self) (updated_at self)
     (ai_match_score self) (ai_recommendation_reason self).

Definition set_description (self : t) (v : option string) : t :=
  mk (id self) (title self) v (status self) (priority self)
     (assigned_to self) (created_by self) (estimated_hours self)
     (actual_hours self) (required_skills self) (due_date self)
     (started_at self) (completed_at self) (created_at self) (updated_at self)
     (ai_match_score self) (ai_recommendation_reason self).

Definition set_status (self : t) (v : TaskStatus.t) : t :=
  mk (id self) (title self) (description self) v (priority self)
     (assigned_to self) (created_by self) (estimated_hours self)
     (actual_hours self) (required_skills self) (due_date self)
     (started_at self) (completed_at self) (created_at self) (updated_at self)
     (ai_match_score self) (ai_recommendation_reason self).

Definition set_priority (self : t) (v : TaskPriority.t) : t :=
  mk (id self) (title self) (description self) (status self) v
     (assigned_to self) (created_by self) (estimated_hours self)
     (actual_hours self) (required_skills self) (due_date self)
     (started_at self) (completed_at self) (created_at self) (updated_at self)
     (ai_match_score self) (ai_recommendation_reason self).

Definition set_estimated_hours (self : t) (v : option Q) : t :=
  mk (id self) (title self) (description self) (status self) (priority self)
     (assigned_to self) (created_by self) v
     (actual_hours self) (required_skills self) (due_date self)
     (started_at self) (completed_at self) (created_at self) (updated_at self)
     (ai_match_score self) (ai_recommendation_reason self).

Definition set_actual_hours (self : t) (v : Q) : t :=
  mk (id self) (title self) (description self) (status self) (priority self)
     (assigned_to self) (created_by self) (estimated_hours self)
     v (required_skills self) (due_date self)
     (started_at self) (completed_at self) (created_at self) (updated_at self)
     (ai_match_score self) (ai_recommendation_reason self).

Definition set_started_at (self : t) (v : option Z) : t :=
  mk (id self) (title self) (description self) (status self) (priority self)
     (assigned_to self) (created_by self) (estimated_hours self)
     (actual_hours self) (required_skills self) (due_date self)
     v (completed_at self) (created_at self) (updated_at self)
     (ai_match_score self) (ai_recommendation_reason self).

Definition set_completed_at (self : t) (v : option Z) : t :=
  mk (id self) (title self) (description self) (status self) (priority self)
     (assigned_to self) (created_by self) (estimated_hours self)
     (actual_hours self) (required_skills self) (due_date self)
     (started_at self) v (created_at self) (updated_at self)
     (ai_match_score self) (ai_recommendation_reason self).

(** The four assignments of the assignment applier. *)
Definition assign (self : t) (user_id : option Z) (score reason : Json.value)
  : t :=
  mk (id self) (title self) (description self) TaskStatus.PENDING
     (priority self)
     user_id (created_by self) (estimated_hours self) (actual_hours self)
     (required_skills self) (due_date self) (started_at self)
     (completed_at self) (created_at self) (updated_at self)
     (Some score) (Some reason).

(** [task.is_overdue], read when the clock shows [now]. *)
Definition is_overdue (now : Z) (self : t) : bool :=
  match due_date self with
  | None => false
  | Some due =>
      (due <? now)%Z && negb (TaskStatus.eqb (status self) TaskStatus.COMPLETED)
  end.

(** [task.progress_percentage]; [min(100.0, p)] keeps [100.0] unless [p] is
    strictly smaller. *)
Definition progress_percentage (self : t) : Q :=
  match estimated_hours self with
  | None => 0
  | Some h =>
      if Qeq_bool h 0 then 0
      else
        let p := actual_hours self / h * 100 in
        if Py.Qlt_bool p 100 then p else 100
  end.

End Task.

(* ================================================================= *)
(** ** models/wellbeing.py and models/skill.py *)

Module MoodLevel.

Inductive t := VERY_BAD | BAD | NEUTRAL | GOOD | VERY_GOOD.

Definition value (m : t) : string :=
  match m with
  | VERY_BAD => "very_bad"
  | BAD => "bad"
  | NEUTRAL => "neutral"
  | GOOD => "good"
  | VERY_GOOD => "very_good"
  end.

End MoodLevel.

Module EnergyLevel.

Inductive t := EXHAUSTED | LOW | MEDIUM | HIGH | VERY_HIGH.

Definition value (e : t) : string :=
  match e with
  | EXHAUSTED => "exhausted"
  | LOW => "low"
  | MEDIUM => "medium"
  | HIGH => "high"
  | VERY_HIGH => "very_high"
  end.

End EnergyLevel.

Module WellbeingCheck.

Record t := mk {
  id : Z;
  user_id : Z;
  mood : MoodLevel.t;
  energy : EnergyLevel.t;
  notes : option string;
  ai_sentiment_score : option Z;
  ai_burnout_risk : option Z;
  ai_recommendations : option string;
  created_at : Z
}.

Definition mood_emoji (self : t) : string :=
  match mood self with
  | MoodLevel.VERY_BAD => "😞"
  | MoodLevel.BAD => "😟"
  | MoodLevel.NEUTRAL => "😐"
  | MoodLevel.GOOD => "🙂"
  | MoodLevel.VERY_GOOD => "😄"
  end.

Definition energy_bars (self : t) : string :=
  match energy self with
  | EnergyLevel.EXHAUSTED => "🔋"
  | EnergyLevel.LOW => "🔋🔋"
  | EnergyLevel.MEDIUM => "🔋🔋🔋"
  | EnergyLevel.HIGH => "🔋🔋🔋🔋"
  | EnergyLevel.VERY_HIGH => "🔋🔋🔋🔋🔋"
  end.

Definition is_concerning (self : t) : bool :=
  match mood self with
  | MoodLevel.VERY_BAD | MoodLevel.BAD => true
  | _ => match energy self with
         | EnergyLevel.EXHAUSTED | EnergyLevel.LOW => true
         | _ => false
         end
  end.

End WellbeingCheck.

Module Skill.
Record t := mk { id : Z; name : string }.
End Skill.

Module UserSkill.
Record t := mk { id : Z; user_id : Z; skill_id : Z }.
End UserSkill.

(* ================================================================= *)
(** ** The relational store seen by one request *)

Module DB.

Record t := mk {
  users : list User.t;
  tasks : list Task.t;
  skills : list Skill.t;
  user_skills : list UserSkill.t;
  wellbeing_checks : list WellbeingCheck.t
}.

(** [query(...).filter(...).first()]. *)
Definition first {A} (p : A -> bool) (l : list A) : option A := find p l.

Definition task_by_id (db : t) (task_id : Z) : option Task.t :=
  first (fun k => (Task.id k =? task_id)%Z) (tasks db).

Definition user_by_id (db : t) (user_id : Z) : option User.t :=
  first (fun u => (User.id u =? user_id)%Z) (users db).

Definition user_by_username (db : t) (name : string) : option User.t :=
  first (fun u => String.eqb (User.username u) name) (users db).

(** [User.id == v] for a value that came out of a JSON reply: a number selects
    the row whose key has that value; a value of another type selects no
    row. *)
Definition user_by_json_id (db : t) (v : Json.value) : option User.t :=
  match v with
  | Json.JNum q => first (fun u => Qeq_bool (inject_Z (User.id u)) q) (users db)
  | _ => None
  end.

(** Writing back a modified row object (rows are identified by primary
    key). *)
Definition update_user (db : t) (u : User.t) : t :=
  mk (map (fun x => if (User.id x =? User.id u)%Z then u else x) (users db))
     (tasks db) (skills db) (user_skills db) (wellbeing_checks db).

Definition update_task (db : t) (k : Task.t) : t :=
  mk (users db)
     (map (fun x => if (Task.id x =? Task.id k)%Z then k else x) (tasks db))
     (skills db) (user_skills db) (wellbeing_checks db).

Definition delete_task (db : t) (k : Task.t) : t :=
  mk (users db)
     (filter (fun x => negb (Task.id x =? Task.id k)%Z) (tasks db))
     (skills db) (user_skills db) (wellbeing_checks db).

(** [manager_id == team_id] on a nullable column. *)
Definition in_team (team_id : Z) (u : User.t) : bool :=
  match User.manager_id u with
  | Some m => (m =? team_id)%Z
  | None => false
  end.

End DB.

(* ================================================================= *)
(** ** services/gemini_service.py *)

(** A candidate snapshot: the dictionary built per recommendation call. A key
    that the service reads with [.get] may be absent ([None]). *)
Module Candidate.

Record t := mk {
  id : option Z;
  name : option string;
  username : string;
  position : option string;
  skills : list string;
  workload : option Q;
  available_hours : Q;
  energy : option string;
  mood : option string
}.

End Candidate.

Module TaskData.

Record t := mk {
  id : Z;
  title : string;
  description : option string;
  priority : string;
  estimated_hours : Q;
  required_skills : Json.value;
  due_date : option Z
}.

End TaskData.

Module TeamContext.

Record t := mk {
  team_size : nat;
  average_workload : Q;
  overloaded_count : nat
}.

End TeamContext.

Module Gemini.

(** What the prompt text is built from. The oracle sees the text only, so
    its reply is a function of these three parts. *)
Record Prompt := mkPrompt {
  prompt_task : TaskData.t;
  prompt_candidates : list Candidate.t;
  prompt_context : option TeamContext.t
}.

(** [', '.join(x)] accepts an iterable of strings: a list of strings, a
    string (its characters) or a dict (its keys). *)
Definition joinable (x : Json.value) : bool :=
  match x with
  | Json.JList l => forallb (fun v => match v with
                                      | Json.JStr _ => true
                                      | _ => false
                                      end) l
  | Json.JStr _ => true
  | Json.JDict _ => true
  | _ => false
  end.

Definition has_name (c : Candidate.t) : bool :=
  match Candidate.name c with
  | Some _ => true
  | None => false
  end.

(** [None] when building the text raises: [c['name']] on a candidate without
    a name, or a skill list that cannot be joined. *)
Definition _build_task_recommendation_prompt
    (task : TaskData.t) (candidates : list Candidate.t)
    (team_context : option TeamContext.t) : option Prompt :=
  if forallb has_name candidates && joinable (TaskData.required_skills task)
  then Some (mkPrompt task candidates team_context)
  else None.

Definition opt_int (o : option Z) : Json.value :=
  match o with
  | Some z => Json.JNum (inject_Z z)
  | None => Json.JNull
  end.

Definition opt_str (o : option string) : Json.value :=
  match o with
  | Some s => Json.JStr s
  | None => Json.JNull
  end.

(** The key of the fallback's [min]: [c.get('workload', 100)]. *)
Definition workload_key (c : Candidate.t) : Q :=
  match Candidate.workload c with
  | Some w => w
  | None => 100
  end.

Definition fallback_of (best_candidate : Candidate.t) : Json.value :=
  Json.JDict
    [ ("recommended_user_id", opt_int (Candidate.id best_candidate));
      ("recommended_user_name", opt_str (Candidate.name best_candidate));
      ("match_score", Json.JNum 50);
      ("reasoning",
       Json.JStr "Seleção automática baseada em menor carga de trabalho (IA indisponível)");
      ("pros", Json.JList [Json.JStr "Menor carga atual"]);
      ("cons", Json.JList [Json.JStr "Recomendação sem análise completa de IA"]);
      ("warnings",
       Json.JList [Json.JStr "Sistema de IA temporariamente indisponível"]) ].

Definition _fallback_recommendation (candidates : list Candidate.t)
  : Json.value :=
  match Py.min_by workload_key candidates with
  | None => Json.JDict [("error", Json.JStr "Nenhum candidato disponível")]
  | Some best_candidate => fallback_of best_candidate
  end.

Section Service.

(** The oracle: [self.model.generate_content(prompt).text], [None] when the
    call or the access to the text raises. *)
Variable generate_content : Prompt -> option string.

(** [json.loads]. *)
Variable json_loads : string -> Json.outcome.

Definition clean_response (response_text : string) : string :=
  let cleaned_text := Json.strip response_text in
  let cleaned_text := if Json.startswith cleaned_text "```json"
                      then Json.slice_from 7 cleaned_text else cleaned_text in
  let cleaned_text := if Json.startswith cleaned_text "```"
                      then Json.slice_from 3 cleaned_text else cleaned_text in
  let cleaned_text := if Json.endswith cleaned_text "```"
                      then Json.slice_to_minus 3 cleaned_text
                      else cleaned_text in
  Json.strip cleaned_text.

Definition parse_error (response_text : string) : Json.value :=
  Json.JDict [ ("error", Json.JStr "Erro ao processar resposta da IA");
               ("raw_response", Json.JStr response_text) ].

(** The method catches [JSONDecodeError] only: any other exception of the
    decoder leaves the method, which is [None] here. *)
Definition _parse_json_response (response_text : string)
  : option Json.value :=
  match json_loads (clean_response response_text) with
  | Json.Decoded v => Some v
  | Json.Raises Json.JSONDecodeError => Some (parse_error response_text)
  | Json.Raises _ => None
  end.

Definition generate_task_recommendation
    (task : TaskData.t) (candidates : list Candidate.t)
    (team_context : option TeamContext.t) : Json.value :=
  match _build_task_recommendation_prompt task candidates team_context with
  | None => _fallback_recommendation candidates
  | Some prompt =>
      match generate_content prompt with
      | None => _fallback_recommendation candidates
      | Some text =>
          match _parse_json_response text with
          | Some result => result
          | None => _fallback_recommendation candidates
          end
      end
  end.

End Service.

(** *** The wellbeing analysis

    The dictionaries the analysis is given: one per check-in and one per
    recent work item. *)
Record WellbeingEntry := mkWellbeingEntry {
  entry_date : Z;                         (* the day of the check-in *)
  entry_mood : string;
  entry_energy : string;
  entry_notes : string
}.

Record TaskEntry := mkTaskEntry {
  entry_title : string;
  entry_status : string;
  entry_priority : string;
  entry_estimated_hours : Q;
  entry_actual_hours : Q;
  entry_is_overdue : bool
}.

(** What the text of the wellbeing prompt is built from: the name, the last
    ten entries of the history and the last five of the work items. *)
Record WellbeingPrompt := mkWellbeingPrompt {
  wp_user_name : string;
  wp_history : list WellbeingEntry;
  wp_tasks : list TaskEntry
}.

Definition _build_wellbeing_analysis_prompt
    (user_name : string) (wellbeing_history : list WellbeingEntry)
    (recent_tasks : list TaskEntry) : WellbeingPrompt :=
  mkWellbeingPrompt user_name (Py.lastn 10 wellbeing_history)
    (Py.lastn 5 recent_tasks).

Definition _fallback_wellbeing_analysis : Json.value :=
  Json.JDict
    [ ("sentiment_score", Json.JNum 0);
      ("burnout_risk", Json.JNum 0);
      ("trend", Json.JStr "stable");
      ("main_concerns", Json.JList [Json.JStr "Análise de IA indisponível"]);
      ("positive_aspects", Json.JList []);
      ("recommendations", Json.JList []);
      ("manager_alert", Json.JNull);
      ("motivational_message",
       Json.JStr "Continue se cuidando! Sua saúde é importante.") ].

Section Wellbeing.

(** The oracle asked with a wellbeing prompt, and [json.loads]. *)
Variable generate_wellbeing : WellbeingPrompt -> option string.
Variable json_loads : string -> Json.outcome.

Definition analyze_wellbeing_trend
    (user_name : string) (wellbeing_history : list WellbeingEntry)
    (recent_tasks : list TaskEntry) : Json.value :=
  match generate_wellbeing
          (_build_wellbeing_analysis_prompt user_name wellbeing_history
             recent_tasks) with
  | None => _fallback_wellbeing_analysis
  | Some text =>
      match _parse_json_response json_loads text with
      | Some result => result
      | None => _fallback_wellbeing_analysis
      end
  end.

End Wellbeing.

End Gemini.

(* ================================================================= *)
(** ** services/task_distribution.py *)

Module Distribution.

(** One entry of the proposed-move list. *)
Record Move := mkMove {
  task_id : Z;
  task_title : string;
  from_user : string;
  to_user : Json.value;
  to_user_id : Json.value;
  reason : Json.value;
  match_score : Json.value
}.

Record Report := mkReport {
  overloaded_count : nat;
  underloaded_count : nat;
  recommendations : list Move;
  applied : bool;
  summary : nat     (* the number shown in the summary sentence *)
}.

Inductive RebalanceResult :=
| RebalanceError (message : string)
| RebalanceReport (report : Report).

Definition error (message : string) : Json.value :=
  Json.JDict [("error", Json.JStr message)].

(** [str(e)] of an exception caught by a service method; only the class of
    the exception is rendered. *)
Definition type_error : string := "TypeError".
Definition data_error : string := "DataError".

(** Python's [v != n] for a JSON value and an integer. *)
Definition ne_int (v : Json.value) (n : Z) : bool :=
  match v with
  | Json.JNum q => negb (Qeq_bool q (inject_Z n))
  | Json.JBool b => negb (Qeq_bool (if b then 1 else 0) (inject_Z n))
  | _ => true
  end.

(** The value an integer column takes from a JSON value: an integral number
    or null; [None] when the store rejects the value. *)
Definition column_int (v : Json.value) : option (option Z) :=
  match v with
  | Json.JNull => Some None
  | Json.JNum q => if Qeq_bool q (inject_Z (Qfloor q))
                   then Some (Some (Qfloor q)) else None
  | _ => None
  end.

(** Whether a float column takes a JSON value: a number or null. *)
Definition column_float (v : Json.value) : bool :=
  match v with
  | Json.JNull | Json.JNum _ => true
  | _ => false
  end.

(** Whether a text column takes a JSON value: a string or null. *)
Definition column_text (v : Json.value) : bool :=
  match v with
  | Json.JNull | Json.JStr _ => true
  | _ => false
  end.

Section Service.

Variable generate_content : Gemini.Prompt -> option string.
Variable json_loads : string -> Json.outcome.

(** [round(x, 1)] on floats. *)
Variable round1 : Q -> Q.

Definition _get_eligible_candidates
    (db : DB.t) (task : Task.t) (team_id : option Z) : list User.t :=
  let query :=
    filter (fun u => UserRole.eqb (User.role u) UserRole.COLABORADOR
                     && User.is_active u) (DB.users db) in
  let query :=
    match team_id with
    | Some t => if Py.truthy_int team_id
                then filter (DB.in_team t) query else query
    | None => query
    end in
  filter (fun u => Py.Qlt_bool 0 (User.available_hours u)) query.

Definition _parse_required_skills (skills_json : option string)
  : Json.value :=
  match skills_json with
  | None => Json.JList []
  | Some s => if String.eqb s EmptyString then Json.JList []
              else match json_loads s with
                   | Json.Decoded v => v
                   | Json.Raises _ => Json.JList []
                   end
  end.

Definition _prepare_task_data (task : Task.t) : TaskData.t :=
  TaskData.mk (Task.id task) (Task.title task) (Task.description task)
    (TaskPriority.value (Task.priority task))
    (match Task.estimated_hours task with
     | Some h => if Qeq_bool h 0 then 0 else h
     | None => 0
     end)
    (_parse_required_skills (Task.required_skills task))
    (Task.due_date task).

Definition skill_names (db : DB.t) (user : User.t) : list string :=
  flat_map
    (fun us =>
       match DB.first (fun s => (Skill.id s =? UserSkill.skill_id us)%Z)
                      (DB.skills db) with
       | Some s => [Skill.name s]
       | None => []
       end)
    (filter (fun us => (UserSkill.user_id us =? User.id user)%Z)
            (DB.user_skills db)).

Definition last_wellbeing (db : DB.t) (user : User.t)
  : option WellbeingCheck.t :=
  hd_error
    (Py.sort_desc WellbeingCheck.created_at
       (filter (fun w => (WellbeingCheck.user_id w =? User.id user)%Z)
               (DB.wellbeing_checks db))).

Definition _prepare_candidate_data (db : DB.t) (user : User.t)
  : Candidate.t :=
  let last := last_wellbeing db user in
  Candidate.mk
    (Some (User.id user))
    (Some (User.full_name user))
    (User.username user)
    (User.position user)
    (skill_names db user)
    (Some (round1 (User.workload_percentage user)))
    (User.available_hours user)
    (Some (match last with
           | Some w => EnergyLevel.value (WellbeingCheck.energy w)
           | None => "medium"
           end))
    (Some (match last with
           | Some w => MoodLevel.value (WellbeingCheck.mood w)
           | None => "neutral"
           end)).

Definition _get_team_context (db : DB.t) (team_id : option Z)
  : option TeamContext.t :=
  match team_id with
  | None => None
  | Some t =>
      if negb (Py.truthy_int team_id) then None
      else
        let team_members := filter (DB.in_team t) (DB.users db) in
        match team_members with
        | [] => None
        | _ :: _ =>
            Some (TeamContext.mk
                    (List.length team_members)
                    (Py.sumQ (map User.workload_percentage team_members)
                     / Py.len team_members)
                    (List.length (filter User.is_overloaded team_members)))
        end
  end.

Definition user_details (user : User.t) : Json.value :=
  Json.JDict [ ("email", Json.JStr (User.email user));
               ("position", Gemini.opt_str (User.position user));
               ("department", Gemini.opt_str (User.department user)) ].

Definition recommend_assignee
    (db : DB.t) (task_id : Z) (team_id : option Z) : Json.value :=
  match DB.task_by_id db task_id with
  | None => error "Tarefa não encontrada"
  | Some task =>
      let candidates := _get_eligible_candidates db task team_id in
      match candidates with
      | [] => error "Nenhum colaborador disponível"
      | _ :: _ =>
          let task_data := _prepare_task_data task in
          let candidates_data :=
            map (_prepare_candidate_data db) candidates in
          let team_context := _get_team_context db team_id in
          let recommendation :=
            Gemini.generate_task_recommendation generate_content json_loads
              task_data candidates_data team_context in
          match Json.contains recommendation "recommended_user_id" with
          | None => error type_error
          | Some false => recommendation
          | Some true =>
              match recommendation with
              | Json.JDict d =>
                  match DB.user_by_json_id db
                          (Json.get recommendation "recommended_user_id") with
                  | Some user =>
                      Json.JDict
                        (Json.dict_set d "user_details" (user_details user))
                  | None => recommendation
                  end
              | _ => error type_error
              end
          end
      end
  end.

(** The assignment applier inside [auto_distribute_task]: the writes between
    the look-up of the item and the commit. [None] is a commit that the store
    refuses because one of the three values taken from the recommendation
    cannot be stored in its column: the recommended id in the integer column,
    the match score in the float column, the reasoning in the text column
    (the unit of work is then rolled back). *)
Definition apply_assignment
    (db : DB.t) (task : Task.t) (recommendation : Json.value)
  : option DB.t :=
  let user_id := Json.get recommendation "recommended_user_id" in
  let score := Json.get_default recommendation "match_score" (Json.JNum 0) in
  let reasoning :=
    Json.get_default recommendation "reasoning" (Json.JStr EmptyString) in
  match column_int user_id with
  | None => None
  | Some assignee =>
      if negb (column_float score && column_text reasoning) then None
      else
      let task' := Task.assign task assignee score reasoning in
      let db1 := DB.update_task db task' in
      match DB.user_by_json_id db user_id with
      | Some user =>
          if Py.truthy_float (Task.estimated_hours task) then
            match Task.estimated_hours task with
            | Some h =>
                Some (DB.update_user db1
                        (User.set_current_workload user
                           (User.current_workload user + h)))
            | None => Some db1
            end
          else Some db1
      | None => Some db1
      end
  end.

Definition auto_distribute_task
    (db : DB.t) (task_id : Z) (auto_assign : bool) : Json.value * DB.t :=
  let recommendation := recommend_assignee db task_id None in
  match Json.contains recommendation "error" with
  | None => (error type_error, db)
  | Some true => (recommendation, db)
  | Some false =>
      if auto_assign then
        match Json.contains recommendation "recommended_user_id" with
        | None => (error type_error, db)
        | Some false => (recommendation, db)
        | Some true =>
            match recommendation, DB.task_by_id db task_id with
            | Json.JDict d, Some task =>
                match apply_assignment db task recommendation with
                | Some db' =>
                    (Json.JDict
                       (Json.dict_set
                          (Json.dict_set d "assigned" (Json.JBool true))
                          "message" (Json.JStr "Tarefa atribuída com sucesso")),
                     db')
                | None => (error data_error, db)
                end
            | _, _ => (error type_error, db)
            end
        end
      else (recommendation, db)
  end.

(** The pending items of a member, by descending priority. *)
Definition pending_tasks (db : DB.t) (user : User.t) : list Task.t :=
  Py.sort_desc (fun k => TaskPriority.rank (Task.priority k))
    (filter (fun k => match Task.assigned_to k with
                      | Some a => (a =? User.id user)%Z
                      | None => false
                      end
                      && TaskStatus.eqb (Task.status k) TaskStatus.PENDING)
            (DB.tasks db)).

(** The items considered for one overloaded member: [pending_tasks[:3]]. *)
Definition considered_tasks (db : DB.t) (user : User.t) : list Task.t :=
  firstn 3 (pending_tasks db user).

(** The inner loop over the considered items of one overloaded member;
    [None] when an operation on the recommendation raises. *)
Fixpoint moves_of_tasks
    (db : DB.t) (team_id : Z) (overloaded_user : User.t)
    (tasks : list Task.t) : option (list Move) :=
  match tasks with
  | [] => Some []
  | task :: rest =>
      let rec := recommend_assignee db (Task.id task) (Some team_id) in
      match Json.contains rec "recommended_user_id" with
      | None => None
      | Some false => moves_of_tasks db team_id overloaded_user rest
      | Some true =>
          match rec with
          | Json.JDict _ =>
              let rid := Json.get rec "recommended_user_id" in
              if ne_int rid (User.id overloaded_user) then
                option_map
                  (cons (mkMove (Task.id task) (Task.title task)
                           (User.username overloaded_user)
                           (Json.get rec "recommended_user_name")
                           rid
                           (Json.get rec "reasoning")
                           (Json.get rec "match_score")))
                  (moves_of_tasks db team_id overloaded_user rest)
              else moves_of_tasks db team_id overloaded_user rest
          | _ => None
          end
      end
  end.

(** The outer loop over the overloaded members. *)
Fixpoint moves_of_users
    (db : DB.t) (team_id : Z) (overloaded : list User.t)
  : option (list Move) :=
  match overloaded with
  | [] => Some []
  | overloaded_user :: rest =>
      match moves_of_tasks db team_id overloaded_user
              (considered_tasks db overloaded_user) with
      | None => None
      | Some ms =>
          option_map (app ms) (moves_of_users db team_id rest)
      end
  end.

(** One iteration of the apply loop. The destination row is read again after
    the source row was written: both names may denote the same row object. *)
Definition apply_move (db : DB.t) (rec : Move) : DB.t :=
  match DB.task_by_id db (task_id rec),
        DB.user_by_username db (from_user rec),
        DB.user_by_json_id db (to_user_id rec) with
  | Some task, Some old_user, Some new_user =>
      let db1 :=
        DB.update_task db (Task.set_assigned_to task (Some (User.id new_user))) in
      if Py.truthy_float (Task.estimated_hours task) then
        match Task.estimated_hours task with
        | Some h =>
            let db2 :=
              DB.update_user db1
                (User.set_current_workload old_user
                   (User.current_workload old_user - h)) in
            let new_user :=
              match DB.user_by_id db2 (User.id new_user) with
              | Some u => u
              | None => new_user
              end in
            DB.update_user db2
              (User.set_current_workload new_user
                 (User.current_workload new_user + h))
        | None => db1
        end
      else db1
  | _, _, _ => db
  end.

Definition team_members (db : DB.t) (team_id : Z) : list User.t :=
  filter (fun u => DB.in_team team_id u && User.is_active u) (DB.users db).

Definition rebalance_team_workload
    (db : DB.t) (team_id : Z) (dry_run : bool) : RebalanceResult * DB.t :=
  match team_members db team_id with
  | [] => (RebalanceError "Equipe não encontrada", db)
  | _ :: _ =>
      let members := team_members db team_id in
      let overloaded := filter User.is_overloaded members in
      let underloaded :=
        filter (fun u => Py.Qlt_bool (User.workload_percentage u) 70)
               members in
      match moves_of_users db team_id overloaded with
      | None => (RebalanceError type_error, db)
      | Some recommendations =>
          let db' :=
            if negb dry_run
               && negb (match recommendations with [] => true | _ => false end)
            then fold_left apply_move recommendations db
            else db in
          (RebalanceReport
             (mkReport (List.length overloaded) (List.length underloaded)
                recommendations (negb dry_run)
                (List.length recommendations)),
           db')
      end
  end.

End Service.

End Distribution.

(* ================================================================= *)
(** ** routes/tasks.py *)

Module Routes.

Record TaskUpdate := mkTaskUpdate {
  upd_title : option string;
  upd_description : option string;
  upd_status : option TaskStatus.t;
  upd_priority : option TaskPriority.t;
  upd_estimated_hours : option Q;
  upd_actual_hours : option Q;
  upd_assigned_to : option Z
}.

Inductive Response (A : Type) :=
| HTTPException (status_code : Z) (detail : string)
| Ok (body : A).

Arguments HTTPException {A} status_code detail.
Arguments Ok {A} body.

Definition set_if {A B} (o : option A) (f : B -> A -> B) (x : B) : B :=
  match o with
  | Some v => f x v
  | None => x
  end.

Definition is_status (o : option TaskStatus.t) (s : TaskStatus.t) : bool :=
  match o with
  | Some s' => TaskStatus.eqb s' s
  | None => false
  end.

Definition is_none {A} (o : option A) : bool :=
  match o with
  | Some _ => false
  | None => true
  end.

(** [PUT /{task_id}]; [now] is the clock reading of the request. *)
Definition update_task
    (db : DB.t) (now : Z) (task_id : Z) (task_data : TaskUpdate)
    (current_user : User.t) : Response Task.t * DB.t :=
  match DB.task_by_id db task_id with
  | None => (HTTPException 404 "Tarefa não encontrada", db)
  | Some task =>
      let is_assigned :=
        match Task.assigned_to task with
        | Some a => (a =? User.id current_user)%Z
        | None => false
        end in
      let is_manager :=
        UserRole.eqb (User.role current_user) UserRole.GESTOR
        || UserRole.eqb (User.role current_user) UserRole.ADMIN in
      if negb (is_assigned || is_manager) then
        (HTTPException 403 "Sem permissão para atualizar esta tarefa", db)
      else
        let task :=
          if is_assigned && negb is_manager then
            set_if (upd_actual_hours task_data) Task.set_actual_hours
              (set_if (upd_status task_data) Task.set_status task)
          else task in
        let task :=
          if is_manager then
            set_if (upd_assigned_to task_data)
              (fun k v => Task.set_assigned_to k (Some v))
           (set_if (upd_actual_hours task_data) Task.set_actual_hours
           (set_if (upd_estimated_hours task_data)
              (fun k v => Task.set_estimated_hours k (Some v))
           (set_if (upd_priority task_data) Task.set_priority
           (set_if (upd_status task_data) Task.set_status
           (set_if (upd_description task_data)
              (fun k v => Task.set_description k (Some v))
           (set_if (upd_title task_data)
              (fun k v => if String.eqb v EmptyString then k else Task.set_title k v)
              task))))))
          else task in
        let task :=
          if is_status (upd_status task_data) TaskStatus.IN_PROGRESS
             && is_none (Task.started_at task)
          then Task.set_started_at task (Some now) else task in
        let task :=
          if is_status (upd_status task_data) TaskStatus.COMPLETED
             && is_none (Task.completed_at task)
          then Task.set_completed_at task (Some now) else task in
        (Ok task, DB.update_task db task)
  end.

(** [DELETE /{task_id}]. *)
Definition delete_task (db : DB.t) (task_id : Z) : Response Z * DB.t :=
  match DB.task_by_id db task_id with
  | None => (HTTPException 404 "Tarefa não encontrada", db)
  | Some task =>
      let db1 :=
        if Py.truthy_int (Task.assigned_to task)
           && Py.truthy_float (Task.estimated_hours task) then
          match Task.assigned_to task, Task.estimated_hours task with
          | Some a, Some h =>
              match DB.user_by_id db a with
              | Some assigned_user =>
                  DB.update_user db
                    (User.set_current_workload assigned_user
                       (Py.max0 (User.current_workload assigned_user - h)))
              | None => db
              end
          | _, _ => db
          end
        else db in
      (Ok task_id, DB.delete_task db1 task)
  end.

(** [GET /{task_id}]. *)
Definition get_task_by_id (db : DB.t) (task_id : Z) (current_user : User.t)
  : Response Task.t :=
  match DB.task_by_id db task_id with
  | None => HTTPException 404 "Tarefa não encontrada"
  | Some task =>
      let is_assigned :=
        match Task.assigned_to task with
        | Some a => (a =? User.id current_user)%Z
        | None => false
        end in
      let is_creator := (Task.created_by task =? User.id current_user)%Z in
      let is_manager :=
        UserRole.eqb (User.role current_user) UserRole.GESTOR
        || UserRole.eqb (User.role current_user) UserRole.ADMIN in
      if negb (is_assigned || is_creator || is_manager) then
        HTTPException 403 "Acesso negado a esta tarefa"
      else Ok task
  end.

Record TaskCreate := mkTaskCreate {
  crt_title : string;
  crt_description : option string;
  crt_priority : TaskPriority.t;
  crt_estimated_hours : option Q;
  crt_required_skills : option (list string);
  crt_due_date : option Z;
  crt_assigned_to : option Z
}.

(** [db.add(new_task)]: the new row goes last. *)
Definition add_task (db : DB.t) (k : Task.t) : DB.t :=
  DB.mk (DB.users db) (DB.tasks db ++ [k]) (DB.skills db) (DB.user_skills db)
    (DB.wellbeing_checks db).

Section Create.

(** [json.dumps(skills, ensure_ascii=False)] on a list of strings. *)
Variable json_dumps : list string -> string.

(** [POST /]; [now] is the clock reading of the request and [new_id] the key
    the store gives the new row. *)
Definition create_task
    (db : DB.t) (now new_id : Z) (task_data : TaskCreate)
    (current_user : User.t) : Response Task.t * DB.t :=
  let required_skills_json :=
    match crt_required_skills task_data with
    | Some (s :: l) => Some (json_dumps (s :: l))
    | _ => None
    end in
  let refusal :=
    if Py.truthy_int (crt_assigned_to task_data) then
      match crt_assigned_to task_data with
      | Some a =>
          match DB.user_by_id db a with
          | None =>
              Some (HTTPException 404 "Usuário para atribuição não encontrado")
          | Some assigned_user =>
              if UserRole.eqb (User.role current_user) UserRole.GESTOR
                 && negb (DB.in_team (User.id current_user) assigned_user)
              then Some (HTTPException 403
                           "Você só pode atribuir tarefas para membros da sua equipe")
              else None
          end
      | None => None
      end
    else None in
  match refusal with
  | Some e => (e, db)
  | None =>
      let new_task :=
        Task.mk new_id (crt_title task_data) (crt_description task_data)
          TaskStatus.PENDING (crt_priority task_data)
          (crt_assigned_to task_data) (User.id current_user)
          (crt_estimated_hours task_data) 0 required_skills_json
          (crt_due_date task_data) None None now None None None in
      let db1 := add_task db new_task in
      let db2 :=
        if Py.truthy_int (crt_assigned_to task_data)
           && Py.truthy_float (crt_estimated_hours task_data) then
          match crt_assigned_to task_data, crt_estimated_hours task_data with
          | Some a, Some h =>
              match DB.user_by_id db1 a with
              | Some assigned_user =>
                  DB.update_user db1
                    (User.set_current_workload assigned_user
                       (User.current_workload assigned_user + h))
              | None => db1
              end
          | _, _ => db1
          end
        else db1 in
      (Ok new_task, db2)
  end.

End Create.

End Routes.

(* ================================================================= *)
(** ** services/sentiment_analysis.py *)

Module Sentiment.

Definition _mood_to_score (mood : MoodLevel.t) : Z :=
  match mood with
  | MoodLevel.VERY_BAD => 1
  | MoodLevel.BAD => 2
  | MoodLevel.NEUTRAL => 3
  | MoodLevel.GOOD => 4
  | MoodLevel.VERY_GOOD => 5
  end.

Definition _energy_to_score (energy : EnergyLevel.t) : Z :=
  match energy with
  | EnergyLevel.EXHAUSTED => 1
  | EnergyLevel.LOW => 2
  | EnergyLevel.MEDIUM => 3
  | EnergyLevel.HIGH => 4
  | EnergyLevel.VERY_HIGH => 5
  end.

(** [sum(xs) / len(xs)]. *)
Definition mean (xs : list Z) : Q := inject_Z (Py.sumZ xs) / Py.len xs.

Definition _check_declining_trend (scores : list Z) : bool :=
  if (List.length scores <? 3)%nat then false
  else
    let recent := Py.lastn 3 scores in
    let older := firstn 3 scores in
    let avg_recent := mean recent in
    let avg_older := mean older in
    Py.Qlt_bool avg_recent (avg_older - (1 # 2)).

Record Patterns := mkPatterns {
  declining_mood : bool;
  declining_energy : bool;
  consistent_low_mood : bool;
  consistent_low_energy : bool
}.

Definition _get_burnout_recommendations (risk_score : Z) (patterns : Patterns)
  : list string :=
  let recommendations :=
    (if (70 <=? risk_score)%Z
     then [ "Atenção urgente necessária - considere conversa individual";
            "Sugira redução de carga ou redistribuição de tarefas";
            "Considere encaminhamento para suporte profissional" ]
     else [])
    ++ (if declining_mood patterns
        then ["Humor em declínio - ofereça suporte emocional"] else [])
    ++ (if declining_energy patterns
        then ["Energia em queda - verifique possível sobrecarga"] else [])
    ++ (if consistent_low_energy patterns
        then ["Baixa energia consistente - sugira pausas e descanso"] else [])
  in
  match recommendations with
  | [] => ["Continue monitorando regularmente"]
  | _ :: _ => recommendations
  end.

Record BurnoutAnalysis := mkBurnoutAnalysis {
  has_pattern : bool;
  risk_score : Z;
  patterns : Patterns;
  severity : string;
  burnout_recommendations : list string
}.

Inductive BurnoutResult :=
| InsufficientData (has_pattern : bool) (message : string)
| Analysis (a : BurnoutAnalysis).

Definition seconds_per_day : Z := 86400.

(** The check-ins of a user created at or after [since_date]. *)
Definition checks_since (db : DB.t) (user_id since_date : Z)
  : list WellbeingCheck.t :=
  filter (fun w => (WellbeingCheck.user_id w =? user_id)%Z
                   && (since_date <=? WellbeingCheck.created_at w)%Z)
         (DB.wellbeing_checks db).

(** [sum(1 for c in checks if score(c) <= 2) / len(checks) > 0.5]. *)
Definition mostly_low {A} (score : A -> Z) (checks : list A) : bool :=
  Py.Qlt_bool (1 # 2)
    (inject_Z (Z.of_nat (List.length
                           (filter (fun c => (score c <=? 2)%Z) checks)))
     / Py.len checks).

Definition detect_burnout_patterns
    (db : DB.t) (now : Z) (user_id : Z) (threshold : Z) : BurnoutResult :=
  let since_date := (now - 30 * seconds_per_day)%Z in
  let checks :=
    Py.sort_asc WellbeingCheck.created_at (checks_since db user_id since_date) in
  if (List.length checks <? 3)%nat then
    InsufficientData false "Dados insuficientes para análise de padrões"
  else
    let mood_of c := _mood_to_score (WellbeingCheck.mood c) in
    let energy_of c := _energy_to_score (WellbeingCheck.energy c) in
    let patterns :=
      mkPatterns
        (_check_declining_trend (map mood_of checks))
        (_check_declining_trend (map energy_of checks))
        (mostly_low mood_of checks)
        (mostly_low energy_of checks) in
    let risk_score :=
      ((if declining_mood patterns then 30 else 0)
       + (if declining_energy patterns then 30 else 0)
       + (if consistent_low_mood patterns then 20 else 0)
       + (if consistent_low_energy patterns then 20 else 0))%Z in
    Analysis
      (mkBurnoutAnalysis
         (threshold <=? risk_score)%Z
         risk_score
         patterns
         (if (80 <=? risk_score)%Z then "high"
          else if (50 <=? risk_score)%Z then "medium" else "low")
         (_get_burnout_recommendations risk_score patterns)).

(** *** The team summary *)

Record MemberData := mkMemberData {
  md_user_id : Z;
  md_name : string;
  md_mood : string;
  md_mood_emoji : string;
  md_energy : string;
  md_energy_bars : string;
  md_workload : Q;
  md_is_concerning : bool;
  md_burnout_risk : option Z
}.

(** The arguments of an alert's message template. *)
Inductive AlertMessage :=
| BurnoutRiskMessage (full_name : string) (risk : Z)
| OverloadMessage (full_name : string) (workload_percentage : Q)
| LowWellbeingMessage (full_name : string).

Record Alert := mkAlert {
  alert_severity : string;
  alert_user : string;
  alert_type : string;
  alert_message : AlertMessage
}.

Record AverageScores := mkAverageScores {
  avg_mood : option Q;
  avg_energy : option Q;
  avg_burnout_risk : option Q
}.

Record TeamSummary := mkTeamSummary {
  team_size : nat;
  period_days : Z;
  members_analysis : list MemberData;
  alerts : list Alert;
  average_scores : AverageScores;
  trend : string
}.

Inductive SummaryResult :=
| SummaryError (message : string)
| Summary (s : TeamSummary).

(** The lists the loop over the members appends to. *)
Record Acc := mkAcc {
  acc_mood_scores : list Z;
  acc_energy_scores : list Z;
  acc_burnout_risks : list Z;
  acc_members : list MemberData;
  acc_alerts : list Alert
}.

Definition empty_acc : Acc := mkAcc [] [] [] [] [].

Definition severity_rank (a : Alert) : Z :=
  let s := alert_severity a in
  if String.eqb s "high" then 3
  else if String.eqb s "medium" then 2
  else if String.eqb s "low" then 1
  else 0.

Section Service.

(** [round(x, 1)] on floats. *)
Variable round1 : Q -> Q.

(** The member's most recent check-in of the window, if any. *)
Definition last_check_since (db : DB.t) (member : User.t) (since_date : Z)
  : option WellbeingCheck.t :=
  hd_error
    (Py.sort_desc WellbeingCheck.created_at
       (checks_since db (User.id member) since_date)).

(** The body of the loop over the team members. *)
Definition member_step (db : DB.t) (since_date : Z) (acc : Acc)
    (member : User.t) : Acc :=
  match last_check_since db member since_date with
  | None => acc
  | Some last_check =>
      let mood_score := _mood_to_score (WellbeingCheck.mood last_check) in
      let energy_score := _energy_to_score (WellbeingCheck.energy last_check) in
      let risk := WellbeingCheck.ai_burnout_risk last_check in
      let has_risk := Py.truthy_int risk in
      let member_data :=
        mkMemberData (User.id member) (User.full_name member)
          (MoodLevel.value (WellbeingCheck.mood last_check))
          (WellbeingCheck.mood_emoji last_check)
          (EnergyLevel.value (WellbeingCheck.energy last_check))
          (WellbeingCheck.energy_bars last_check)
          (round1 (User.workload_percentage member))
          (WellbeingCheck.is_concerning last_check)
          (if has_risk then risk else None) in
      let risk_alert :=
        match risk with
        | Some r =>
            if has_risk && (70 <? r)%Z
            then [mkAlert "high" (User.full_name member) "burnout_risk"
                    (BurnoutRiskMessage (User.full_name member) r)]
            else []
        | None => []
        end in
      let overload_alert :=
        if User.is_overloaded member
        then [mkAlert "medium" (User.full_name member) "overload"
                (OverloadMessage (User.full_name member)
                   (User.workload_percentage member))]
        else [] in
      let wellbeing_alert :=
        if WellbeingCheck.is_concerning last_check
        then [mkAlert "medium" (User.full_name member) "wellbeing"
                (LowWellbeingMessage (User.full_name member))]
        else [] in
      mkAcc
        (acc_mood_scores acc ++ [mood_score])
        (acc_energy_scores acc ++ [energy_score])
        (acc_burnout_risks acc
         ++ match risk with
            | Some r => if has_risk then [r] else []
            | None => []
            end)
        (acc_members acc ++ [member_data])
        (acc_alerts acc ++ risk_alert ++ overload_alert ++ wellbeing_alert)
  end.

Definition rounded_mean (xs : list Z) : option Q :=
  match xs with
  | [] => None
  | _ :: _ => Some (round1 (mean xs))
  end.

Definition trend_of (mood_scores : list Z) : string :=
  match mood_scores with
  | [] => "stable"
  | _ :: _ =>
      let avg_mood := mean mood_scores in
      if Qle_bool 4 avg_mood then "positive"
      else if Qle_bool avg_mood 2 then "concerning"
      else "stable"
  end.

Definition summarize (team_size : nat) (days : Z) (acc : Acc) : TeamSummary :=
  mkTeamSummary team_size days
    (acc_members acc)
    (Py.sort_desc severity_rank (acc_alerts acc))
    (mkAverageScores
       (rounded_mean (acc_mood_scores acc))
       (rounded_mean (acc_energy_scores acc))
       (rounded_mean (acc_burnout_risks acc)))
    (trend_of (acc_mood_scores acc)).

Definition get_team_wellbeing_summary
    (db : DB.t) (now : Z) (team_id : Z) (days : Z) : SummaryResult :=
  let team_members := Distribution.team_members db team_id in
  match team_members with
  | [] => SummaryError "Equipe não encontrada"
  | _ :: _ =>
      let since_date := (now - days * seconds_per_day)%Z in
      Summary
        (summarize (List.length team_members) days
           (fold_left (member_step db since_date) team_members empty_acc))
  end.

End Service.

(** *** The analysis of one person *)

(** Writing back a modified check-in row. *)
Definition update_check (db : DB.t) (c : WellbeingCheck.t) : DB.t :=
  DB.mk (DB.users db) (DB.tasks db) (DB.skills db) (DB.user_skills db)
    (map (fun x => if (WellbeingCheck.id x =? WellbeingCheck.id c)%Z
                   then c else x)
         (DB.wellbeing_checks db)).

(** The day of a time stamp, as [strftime] with year, month and day shows
    it. *)
Definition _prepare_wellbeing_data (check : WellbeingCheck.t)
  : Gemini.WellbeingEntry :=
  Gemini.mkWellbeingEntry
    (WellbeingCheck.created_at check / seconds_per_day)%Z
    (MoodLevel.value (WellbeingCheck.mood check))
    (EnergyLevel.value (WellbeingCheck.energy check))
    (match WellbeingCheck.notes check with
     | Some s => s
     | None => EmptyString
     end).

Definition _prepare_task_data (now : Z) (task : Task.t) : Gemini.TaskEntry :=
  Gemini.mkTaskEntry
    (Task.title task)
    (TaskStatus.value (Task.status task))
    (TaskPriority.value (Task.priority task))
    (match Task.estimated_hours task with
     | Some h => if Qeq_bool h 0 then 0 else h
     | None => 0
     end)
    (if Qeq_bool (Task.actual_hours task) 0 then 0 else Task.actual_hours task)
    (Task.is_overdue now task).

(** The items of a person that were updated inside the window; an item that
    was never updated has no update stamp and is not selected. *)
Definition recent_tasks (db : DB.t) (user_id since_date : Z) : list Task.t :=
  filter (fun k =>
            match Task.assigned_to k, Task.updated_at k with
            | Some a, Some u => (a =? user_id)%Z && (since_date <=? u)%Z
            | _, _ => false
            end)
         (DB.tasks db).

(** The outcomes of the analysis. Of the combined result the part that comes
    from the oracle and the number of check-ins are kept; the locally
    computed averages and distributions and the time of the analysis are
    not modelled. *)
Inductive AnalysisOutcome :=
| AnalysisError (message : string)
| NoWellbeingData (user_id : Z) (user_name : string)
| Combined (ai_analysis : Json.dict) (user_id : Z) (user_name : string)
    (period_days : Z) (check_ins_count : nat).

(** The check-in with the three insight columns written. *)
Definition with_insights (c : WellbeingCheck.t)
    (sentiment risk : option Z) (recommendations : option string)
  : WellbeingCheck.t :=
  WellbeingCheck.mk (WellbeingCheck.id c) (WellbeingCheck.user_id c)
    (WellbeingCheck.mood c) (WellbeingCheck.energy c) (WellbeingCheck.notes c)
    sentiment risk recommendations (WellbeingCheck.created_at c).

Section Analysis.

Variable generate_wellbeing : Gemini.WellbeingPrompt -> option string.
Variable json_loads : string -> Json.outcome.

(** [json.dumps(v, ensure_ascii=False)]. *)
Variable json_dumps : Json.value -> string.

(** A reply that is not a JSON object cannot be merged into the combined
    result, and a score that cannot be stored in its integer column makes the
    commit fail: both end in the error result, with nothing written. *)
Definition analyze_user_wellbeing
    (db : DB.t) (now : Z) (user_id : Z) (days : Z)
  : AnalysisOutcome * DB.t :=
  match DB.user_by_id db user_id with
  | None => (AnalysisError "Usuário não encontrado", db)
  | Some user =>
      let since_date := (now - days * seconds_per_day)%Z in
      let wellbeing_history :=
        Py.sort_desc WellbeingCheck.created_at
          (checks_since db user_id since_date) in
      match wellbeing_history with
      | [] => (NoWellbeingData user_id (User.full_name user), db)
      | latest_check :: _ =>
          let wellbeing_data := map _prepare_wellbeing_data wellbeing_history in
          let tasks_data :=
            map (_prepare_task_data now) (recent_tasks db user_id since_date) in
          let ai_analysis :=
            Gemini.analyze_wellbeing_trend generate_wellbeing json_loads
              (User.full_name user) wellbeing_data tasks_data in
          match ai_analysis with
          | Json.JDict d =>
              let combined :=
                Combined d user_id (User.full_name user) days
                  (List.length wellbeing_history) in
              match Json.lookup d "sentiment_score" with
              | None => (combined, db)
              | Some _ =>
                  match Distribution.column_int
                          (Json.get ai_analysis "sentiment_score"),
                        Distribution.column_int
                          (Json.get ai_analysis "burnout_risk") with
                  | Some sentiment, Some risk =>
                      (combined,
                       update_check db
                         (with_insights latest_check sentiment risk
                            (match Json.lookup d "recommendations" with
                             | Some v => Some (json_dumps v)
                             | None =>
                                 WellbeingCheck.ai_recommendations latest_check
                             end)))
                  | _, _ => (AnalysisError Distribution.data_error, db)
                  end
              end
          | _ => (AnalysisError Distribution.type_error, db)
          end
      end
  end.

End Analysis.

End Sentiment.

(* ================================================================= *)
(** ** Notions used to state the properties *)

(** The chronological check-ins that [detect_burnout_patterns] analyses. *)
Definition burnout_window (db : DB.t) (now user_id : Z)
  : list WellbeingCheck.t :=
  Py.sort_asc WellbeingCheck.created_at
    (Sentiment.checks_since db user_id (now - 30 * Sentiment.seconds_per_day)%Z).

Definition mood_scores (checks : list WellbeingCheck.t) : list Z :=
  map (fun c => Sentiment._mood_to_score (WellbeingCheck.mood c)) checks.

Definition energy_scores (checks : list WellbeingCheck.t) : list Z :=
  map (fun c => Sentiment._energy_to_score (WellbeingCheck.energy c)) checks.


(** [m] is the first element of [l] with the least key. *)
Definition first_min {A} (key : A -> Q) (m : A) (l : list A) : Prop :=
  exists before after,
    l = before ++ m :: after /\
    (forall c, In c before -> key m < key c) /\
    (forall c, In c after -> key m <= key c).

(** Modelled from the spec: the load percentage of a candidate, which the
    fallback is to minimise. It is the entry [workload] the candidate
    carries; the service gives every candidate one, and a candidate without
    it is ranked as fully loaded. *)
Definition spec_load_percentage (c : Candidate.t) : Q :=
  match Candidate.workload c with
  | Some percentage => percentage
  | None => 100
  end.

(** A JSON text is built without quoting the quote character. *)
Definition dq : string := String (ascii_of_N 34) EmptyString.

Definition quoted (s : string) : string := dq ++ s ++ dq.

(** Sample candidates and a sample work item. *)
Definition sample_candidate (id : Z) (name : string) (workload : Q)
  : Candidate.t :=
  Candidate.mk (Some id) (Some name) name None [] (Some workload)
    (40 - workload * (2 # 5)) (Some "medium") (Some "neutral").

Definition ana : Candidate.t := sample_candidate 1 "Ana" 95.
Definition bruno : Candidate.t := sample_candidate 2 "Bruno" 25.
Definition carla : Candidate.t := sample_candidate 3 "Carla" 25.

Definition sample_task_data : TaskData.t :=
  TaskData.mk 7 "Relatorio" None "urgent" 4 (Json.JList []) None.

(** An oracle that is down, and one that always answers with [text]. *)
Definition oracle_down : Gemini.Prompt -> option string := fun _ => None.

Definition oracle_says (text : string) : Gemini.Prompt -> option string :=
  fun _ => Some text.

(** The decoder of an interpreter run with its default limits. *)
Definition loads_default : string -> Json.outcome :=
  Json.loads Json.default_limits.

(** Descending order of an integer key. *)
Definition sorted_desc {A} (key : A -> Z) (l : list A) : Prop :=
  StronglySorted (fun a b => (key b <= key a)%Z) l.

Definition sorted_asc {A} (key : A -> Z) (l : list A) : Prop :=
  StronglySorted (fun a b => (key a <= key b)%Z) l.

Definition task_rank (k : Task.t) : Z := TaskPriority.rank (Task.priority k).

(** A pending item held by [user]. *)
Definition is_pending_of (db : DB.t) (user : User.t) (k : Task.t) : Prop :=
  In k (DB.tasks db) /\
  Task.assigned_to k = Some (User.id user) /\
  Task.status k = TaskStatus.PENDING.

Definition opt_Z_eqb (a b : option Z) : bool :=
  match a, b with
  | Some x, Some y => (x =? y)%Z
  | None, None => true
  | _, _ => false
  end.

(** The pending items a person holds, in the order of the store. *)
Definition pending_items (db : DB.t) (user : User.t) : list Task.t :=
  filter (fun k => opt_Z_eqb (Task.assigned_to k) (Some (User.id user))
                   && TaskStatus.eqb (Task.status k) TaskStatus.PENDING)
         (DB.tasks db).

(** Modelled from the spec: the mean of three scores. *)
Definition spec_mean3 (a b c : Z) : Q := inject_Z (a + b + c) / 3.

(** Whether a member has a check-in inside the window. *)
Definition has_recent_check (db : DB.t) (since_date : Z) (member : User.t)
  : bool :=
  match Sentiment.checks_since db (User.id member) since_date with
  | [] => false
  | _ :: _ => true
  end.

Definition overload_alert (member : User.t) : Sentiment.Alert :=
  Sentiment.mkAlert "medium" (User.full_name member) "overload"
    (Sentiment.OverloadMessage (User.full_name member)
       (User.workload_percentage member)).

(** What a proposed move records about the item and its holder. *)
Definition move_of (db : DB.t) (user : User.t) (m : Distribution.Move)
  : Prop :=
  exists k,
    In k (Distribution.considered_tasks db user) /\
    Distribution.task_id m = Task.id k /\
    Distribution.task_title m = Task.title k /\
    Distribution.from_user m = User.username user /\
    Distribution.ne_int (Distribution.to_user_id m) (User.id user) = true.


(** The store is well formed when its keys are: primary keys and user names
    are unique. *)
Definition well_formed (db : DB.t) : Prop :=
  NoDup (map User.id (DB.users db)) /\
  NoDup (map User.username (DB.users db)) /\
  NoDup (map Task.id (DB.tasks db)).

(** The sum of all persons' current loads. *)
Definition total_load (db : DB.t) : Q :=
  Py.sumQ (map User.current_workload (DB.users db)).

Definition all_loads_nonneg (db : DB.t) : Prop :=
  forall u, In u (DB.users db) -> 0 <= User.current_workload u.

(** A whole number: what the integer column of the load keeps as it is. The
    test is the one [column_int] makes. *)
Definition whole (q : Q) : bool := Qeq_bool q (inject_Z (Qfloor q)).

(** Every load, and every estimate of hours, of the store is whole. *)
Definition whole_loads (db : DB.t) : bool :=
  forallb (fun u => whole (User.current_workload u)) (DB.users db).

Definition whole_hours (db : DB.t) : bool :=
  forallb (fun k => match Task.estimated_hours k with
                    | Some h => whole h
                    | None => true
                    end)
          (DB.tasks db).

(** The number of work items whose assignee differs between two states of
    the store (rows are compared position by position). *)
Definition assignee_changes (before after : DB.t) : nat :=
  List.length
    (filter (fun p => negb (opt_Z_eqb (Task.assigned_to (fst p))
                                      (Task.assigned_to (snd p))))
            (combine (DB.tasks before) (DB.tasks after))).

(** The guard of the apply loop: item, source and destination are found. *)
Definition applied (db : DB.t) (m : Distribution.Move) : bool :=
  match DB.task_by_id db (Distribution.task_id m),
        DB.user_by_username db (Distribution.from_user m),
        DB.user_by_json_id db (Distribution.to_user_id m) with
  | Some _, Some _, Some _ => true
  | _, _, _ => false
  end.

(** The hours a move transfers: the item's estimate, nothing without one. *)
Definition hours_of (k : Task.t) : Q :=
  match Task.estimated_hours k with
  | Some h => if Py.truthy_float (Some h) then h else 0
  | None => 0
  end.

Definition move_hours (db : DB.t) (m : Distribution.Move) : Q :=
  match DB.task_by_id db (Distribution.task_id m) with
  | Some k => hours_of k
  | None => 0
  end.

Definition moves_from (db : DB.t) (u : User.t) (m : Distribution.Move)
  : bool :=
  applied db m && String.eqb (Distribution.from_user m) (User.username u).

Definition moves_to (db : DB.t) (u : User.t) (m : Distribution.Move) : bool :=
  applied db m &&
  match DB.user_by_json_id db (Distribution.to_user_id m) with
  | Some new_user => (User.id new_user =? User.id u)%Z
  | None => false
  end.

(** Hours leaving and reaching a person over a list of moves. *)
Definition outflow (db : DB.t) (ms : list Distribution.Move) (u : User.t) : Q :=
  Py.sumQ (map (move_hours db) (filter (moves_from db u) ms)).

Definition inflow (db : DB.t) (ms : list Distribution.Move) (u : User.t) : Q :=
  Py.sumQ (map (move_hours db) (filter (moves_to db u) ms)).

(** Row-wise updates. *)
Definition adjust (i : Z) (f : Q -> Q) (us : list User.t) : list User.t :=
  map (fun x => if (User.id x =? i)%Z
                then User.set_current_workload x (f (User.current_workload x))
                else x) us.

Definition reassign (i : Z) (a : option Z) (ks : list Task.t) : list Task.t :=
  map (fun x => if (Task.id x =? i)%Z then Task.set_assigned_to x a else x) ks.

(** The effect of one iteration of the apply loop, row by row. *)
Definition move_effect (db : DB.t) (m : Distribution.Move) : DB.t :=
  match DB.task_by_id db (Distribution.task_id m),
        DB.user_by_username db (Distribution.from_user m),
        DB.user_by_json_id db (Distribution.to_user_id m) with
  | Some k, Some old_user, Some new_user =>
      DB.mk
        (match Task.estimated_hours k with
         | Some h =>
             if Py.truthy_float (Some h)
             then adjust (User.id new_user) (fun l => l + h)
                    (adjust (User.id old_user) (fun l => l - h) (DB.users db))
             else DB.users db
         | None => DB.users db
         end)
        (reassign (Task.id k) (Some (User.id new_user)) (DB.tasks db))
        (DB.skills db) (DB.user_skills db) (DB.wellbeing_checks db)
  | _, _, _ => db
  end.

(** Two states of the store with the same rows up to loads and assignees. *)
Definition same_user (u u' : User.t) : Prop :=
  User.id u' = User.id u /\ User.username u' = User.username u /\
  User.workload_capacity u' = User.workload_capacity u.

Definition same_task (k k' : Task.t) : Prop :=
  Task.id k' = Task.id k /\ Task.estimated_hours k' = Task.estimated_hours k /\
  Task.status k' = Task.status k.

Definition same_rows (db db' : DB.t) : Prop :=
  Forall2 same_user (DB.users db) (DB.users db') /\
  Forall2 same_task (DB.tasks db) (DB.tasks db').

(** Assignee differences between two lists of item rows. *)
Definition changes (l l' : list Task.t) : nat :=
  List.length
    (filter (fun p => negb (opt_Z_eqb (Task.assigned_to (fst p))
                                      (Task.assigned_to (snd p))))
            (combine l l')).

(** The share of one move in a person's load. *)
Definition out_of (db : DB.t) (u : User.t) (m : Distribution.Move) : Q :=
  if moves_from db u m then move_hours db m else 0.

Definition in_to (db : DB.t) (u : User.t) (m : Distribution.Move) : Q :=
  if moves_to db u m then move_hours db m else 0.

(** A list of moves really reassigns: distinct items, and no move sends an
    item to the person who holds it. *)
Definition effective (db : DB.t) (ms : list Distribution.Move) : Prop :=
  NoDup (map Distribution.task_id ms) /\
  forall m k new,
    In m ms ->
    DB.task_by_id db (Distribution.task_id m) = Some k ->
    DB.user_by_json_id db (Distribution.to_user_id m) = Some new ->
    Task.assigned_to k <> Some (User.id new).

(** The exact-arithmetic reading of [round(x, 1)]: the nearest tenth, a tie
    going to the even one. *)
Definition round1_model (x : Q) : Q :=
  let t := x * 10 in
  let f := Qfloor t in
  let r := t - inject_Z f in
  let n := if Py.Qlt_bool r (1 # 2) then f
           else if Py.Qlt_bool (1 # 2) r then (f + 1)%Z
           else if Z.even f then f else (f + 1)%Z in
  Qred (inject_Z n / 10).

(** A small team: a manager, Ana with load [load_ana] and Bruno with load 10,
    both of capacity 40, and one pending urgent item of [hours] hours held by
    Ana. *)
Definition sample_user (id : Z) (name : string) (role : UserRole.t)
    (manager : option Z) (load : Q) : User.t :=
  User.mk id (name ++ "@ideiatech.com") name name role true None None
    manager 40 load.

Definition sample_item (hours : option Q) : Task.t :=
  Task.mk 7 "Relatorio" None TaskStatus.PENDING TaskPriority.URGENT (Some 2%Z)
    1 hours 0 None None None None 0 None None None.

Definition team_db (load_ana : Q) (hours : option Q) : DB.t :=
  DB.mk [ sample_user 1 "gestor" UserRole.GESTOR None 0;
          sample_user 2 "ana" UserRole.COLABORADOR (Some 1%Z) load_ana;
          sample_user 3 "bruno" UserRole.COLABORADOR (Some 1%Z) 10 ]
        [ sample_item hours ] [] [] [].

(** A well-formed reply naming a person that does not exist. *)
Definition reply_unknown_person : string :=
  "{" ++ quoted "recommended_user_id" ++ ": 999, "
      ++ quoted "recommended_user_name" ++ ": " ++ quoted "Zed" ++ ", "
      ++ quoted "match_score" ++ ": 90, "
      ++ quoted "reasoning" ++ ": " ++ quoted "fit" ++ "}".

(** A well-formed reply naming Bruno. *)
Definition reply_bruno : string :=
  "{" ++ quoted "recommended_user_id" ++ ": 3, "
      ++ quoted "recommended_user_name" ++ ": " ++ quoted "bruno" ++ ", "
      ++ quoted "match_score" ++ ": 90, "
      ++ quoted "reasoning" ++ ": " ++ quoted "fit" ++ "}".

(** A well-formed reply naming Ana. *)
Definition reply_ana : string :=
  "{" ++ quoted "recommended_user_id" ++ ": 2, "
      ++ quoted "recommended_user_name" ++ ": " ++ quoted "ana" ++ ", "
      ++ quoted "match_score" ++ ": 80, "
      ++ quoted "reasoning" ++ ": " ++ quoted "fit" ++ "}".

(** The move of the sample item from Ana to Bruno. *)
Definition move_to_bruno : Distribution.Move :=
  Distribution.mkMove 7 "Relatorio" "ana" (Json.JStr "bruno") (Json.JNum 3)
    (Json.JStr "fit") (Json.JNum 90).

Definition load_of (db : DB.t) (user_id : Z) : option Q :=
  option_map (fun u => Qred (User.current_workload u))
             (DB.user_by_id db user_id).

(** The sample team with one check-in of Ana, taken at time [at]. *)
Definition team_db_checked (at_time : Z) : DB.t :=
  DB.mk (DB.users (team_db 38 (Some 4))) (DB.tasks (team_db 38 (Some 4)))
    [] []
    [ WellbeingCheck.mk 1 2 MoodLevel.GOOD EnergyLevel.HIGH None None None
        None at_time ].

Definition summary_alert_types (r : Sentiment.SummaryResult) : list string :=
  match r with
  | Sentiment.Summary s => map Sentiment.alert_type (Sentiment.alerts s)
  | Sentiment.SummaryError _ => []
  end.

Definition summary_member_ids (r : Sentiment.SummaryResult) : list Z :=
  match r with
  | Sentiment.Summary s => map Sentiment.md_user_id (Sentiment.members_analysis s)
  | Sentiment.SummaryError _ => []
  end.

Definition summary_team_size (r : Sentiment.SummaryResult) : nat :=
  match r with
  | Sentiment.Summary s => Sentiment.team_size s
  | Sentiment.SummaryError _ => 0
  end.

(** The entries of the fallback recommendation built for one candidate. *)
Definition fallback_entries (c : Candidate.t) : Json.dict :=
  match Gemini.fallback_of c with
  | Json.JDict d => d
  | _ => []
  end.

(** The number of entries whose score is 2 or less. *)
Definition low_count {A} (score : A -> Z) (checks : list A) : nat :=
  List.length (filter (fun c => (score c <=? 2)%Z) checks).

(** Three check-ins of one person, all inside the window of the burnout
    detection run at time 100. *)
Definition three_checkins (m1 m2 m3 : MoodLevel.t) (e1 e2 e3 : EnergyLevel.t)
  : DB.t :=
  DB.mk [] [] [] []
    [ WellbeingCheck.mk 1 2 m1 e1 None None None None 10;
      WellbeingCheck.mk 2 2 m2 e2 None None None None 20;
      WellbeingCheck.mk 3 2 m3 e3 None None None None 30 ].

(** The three kinds of alert of the team summary. *)
Definition alert_kind (a : Sentiment.Alert) : Prop :=
  Sentiment.alert_severity a = "high" /\ Sentiment.alert_type a = "burnout_risk"
  \/ Sentiment.alert_severity a = "medium" /\
     (Sentiment.alert_type a = "overload" \/ Sentiment.alert_type a = "wellbeing").

(** What the loop over the members keeps true of its lists. *)
Definition acc_inv (acc : Sentiment.Acc) : Prop :=
  let n := List.length (Sentiment.acc_members acc) in
  Forall alert_kind (Sentiment.acc_alerts acc) /\
  (List.length (Sentiment.acc_alerts acc) <= 3 * n)%nat /\
  List.length (Sentiment.acc_mood_scores acc) = n /\
  List.length (Sentiment.acc_energy_scores acc) = n /\
  (List.length (Sentiment.acc_burnout_risks acc) <= n)%nat.

(** Two states of the store that differ at most in the loads of the persons
    and in the assignees of the work items. The update stamp of an item,
    which the store writes by itself on a changed row, is left out of the
    comparison: the second row may carry any stamp. *)
Definition only_load_differs (u u' : User.t) : Prop :=
  u' = User.set_current_workload u (User.current_workload u').

Definition only_assignee_differs (k k' : Task.t) : Prop :=
  Task.id k' = Task.id k /\
  Task.title k' = Task.title k /\
  Task.description k' = Task.description k /\
  Task.status k' = Task.status k /\
  Task.priority k' = Task.priority k /\
  Task.created_by k' = Task.created_by k /\
  Task.estimated_hours k' = Task.estimated_hours k /\
  Task.actual_hours k' = Task.actual_hours k /\
  Task.required_skills k' = Task.required_skills k /\
  Task.due_date k' = Task.due_date k /\
  Task.started_at k' = Task.started_at k /\
  Task.completed_at k' = Task.completed_at k /\
  Task.created_at k' = Task.created_at k /\
  Task.ai_match_score k' = Task.ai_match_score k /\
  Task.ai_recommendation_reason k' = Task.ai_recommendation_reason k.

Definition frame (db db' : DB.t) : Prop :=
  Forall2 only_load_differs (DB.users db) (DB.users db') /\
  Forall2 only_assignee_differs (DB.tasks db) (DB.tasks db') /\
  DB.skills db' = DB.skills db /\
  DB.user_skills db' = DB.user_skills db /\
  DB.wellbeing_checks db' = DB.wellbeing_checks db.

(** The sample team with one check-in of Ana that carries a stored burnout
    risk. *)
Definition risky_checkin (risk : Z) : DB.t :=
  DB.mk (DB.users (team_db 38 (Some 4))) (DB.tasks (team_db 38 (Some 4)))
    [] []
    [ WellbeingCheck.mk 1 2 MoodLevel.BAD EnergyLevel.LOW None (Some 40%Z)
        (Some risk) None 50 ].

(** Proof steps for the update request. *)
Ltac field_kept_by keeps :=
  repeat (rewrite keeps;
          [|intros; cbn; try match goal with
                             | |- context [String.eqb ?a ?b] =>
                                 destruct (String.eqb a b)
                             end; reflexivity]).

Ltac split_if :=
  match goal with
  | |- context [if ?c then _ else _] => destruct c eqn:?
  end.
(* ================================================================= *)
(** * Properties *)

(** ** Facts about the built-ins *)

Lemma Qlt_bool_iff (a b : Q) : Py.Qlt_bool a b = true <-> a < b.
Proof.
  unfold Py.Qlt_bool. rewrite negb_true_iff.
  split; intro H.
  - apply Qnot_le_lt. intro Hle. apply Qle_bool_iff in Hle. congruence.
  - destruct (Qle_bool b a) eqn:E; [|reflexivity].
    apply Qle_bool_iff in E. exfalso. apply (Qlt_not_le _ _ H E).
Qed.

Lemma Qlt_bool_false_iff (a b : Q) : Py.Qlt_bool a b = false <-> b <= a.
Proof.
  unfold Py.Qlt_bool. rewrite negb_false_iff. apply Qle_bool_iff.
Qed.

Lemma Qlt_bool_compat (a a' b b' : Q) :
  a == a' -> b == b' -> Py.Qlt_bool a b = Py.Qlt_bool a' b'.
Proof.
  intros Ha Hb. unfold Py.Qlt_bool. now rewrite Ha, Hb.
Qed.

Lemma max0_Qmax (x : Q) : Py.max0 x == Qmax 0 x.
Proof.
  unfold Py.max0. destruct (Py.Qlt_bool 0 x) eqn:E.
  - apply Qlt_bool_iff in E. symmetry. apply Q.max_r. lra.
  - apply Qlt_bool_false_iff in E. symmetry. apply Q.max_l. exact E.
Qed.

Lemma max0_nonneg (x : Q) : 0 <= Py.max0 x.
Proof. rewrite max0_Qmax. apply Q.le_max_l. Qed.

Lemma max0_compat (x y : Q) : x == y -> Py.max0 x == Py.max0 y.
Proof. intro H. rewrite !max0_Qmax. now rewrite H. Qed.

(** ** Workload model *)

Lemma workload_percentage_compat (u v : User.t) :
  User.workload_capacity u = User.workload_capacity v ->
  User.current_workload u == User.current_workload v ->
  User.workload_percentage u == User.workload_percentage v.
Proof.
  intros Hc Hl. unfold User.workload_percentage. rewrite Hc.
  destruct (User.workload_capacity v =? 0)%Z; [reflexivity|].
  now rewrite Hl.
Qed.

(** C9. For every capacity/load pair the load percentage is
    [current load / capacity * 100], and [0] when the capacity is [0]; the
    overload flag holds exactly when the load percentage exceeds [90]; the
    available hours are [max(0, capacity - current load)]; and the three
    metrics are functions of the capacity and the load alone. *)
Theorem workload_metrics_spec (u : User.t) :
  (User.workload_capacity u = 0%Z -> User.workload_percentage u = 0) /\
  (User.workload_capacity u <> 0%Z ->
   User.workload_percentage u
   == User.current_workload u / inject_Z (User.workload_capacity u) * 100) /\
  (User.is_overloaded u = true <-> 90 < User.workload_percentage u) /\
  User.available_hours u
  == Qmax 0 (inject_Z (User.workload_capacity u) - User.current_workload u) /\
  (forall v : User.t,
      User.workload_capacity v = User.workload_capacity u ->
      User.current_workload v == User.current_workload u ->
      User.workload_percentage v == User.workload_percentage u /\
      User.is_overloaded v = User.is_overloaded u /\
      User.available_hours v == User.available_hours u).
Proof.
  repeat split.
  - intro H. unfold User.workload_percentage. now rewrite H.
  - intro H. unfold User.workload_percentage.
    apply Z.eqb_neq in H. now rewrite H.
  - apply Qlt_bool_iff.
  - apply Qlt_bool_iff.
  - apply max0_Qmax.
  - now apply workload_percentage_compat.
  - unfold User.is_overloaded. apply Qlt_bool_compat; [reflexivity|].
    now apply workload_percentage_compat.
  - unfold User.available_hours. apply max0_compat. rewrite H, H0. reflexivity.
Qed.

(** The overload flag in integer terms, for a positive capacity. *)
Lemma is_overloaded_positive_capacity (u : User.t) :
  (0 < User.workload_capacity u)%Z ->
  (User.is_overloaded u = true
   <-> 9 * inject_Z (User.workload_capacity u) < 10 * User.current_workload u).
Proof.
  intro Hc. unfold User.is_overloaded. rewrite Qlt_bool_iff.
  unfold User.workload_percentage.
  destruct (User.workload_capacity u =? 0)%Z eqn:E; [lia|].
  assert (Hq : 0 < inject_Z (User.workload_capacity u)).
  { change 0 with (inject_Z 0). rewrite <- Zlt_Qlt. exact Hc. }
  set (c := inject_Z (User.workload_capacity u)) in *.
  set (l := User.current_workload u).
  split; intro H.
  - assert (H1 : 90 * c < l / c * 100 * c) by (apply Qmult_lt_compat_r; assumption).
    assert (H2 : l / c * 100 * c == 100 * l) by (field; lra).
    rewrite H2 in H1. lra.
  - assert (H2 : l / c * 100 == 100 * l / c) by (field; lra).
    rewrite H2. apply Qlt_shift_div_l; [assumption|]. lra.
Qed.

(** ** Wellbeing trend analyser *)

Lemma sumZ_from (l : list Z) (a : Z) : fold_left Z.add l a = (a + Py.sumZ l)%Z.
Proof.
  unfold Py.sumZ. revert a.
  induction l as [|x l IH]; intro a; simpl; [lia|].
  rewrite IH, (IH x). lia.
Qed.

Lemma length_lastn {A} (n : nat) (l : list A) :
  (n <= List.length l)%nat -> List.length (Py.lastn n l) = n.
Proof.
  intro H. unfold Py.lastn. rewrite length_skipn. lia.
Qed.

(** Between two means of three integers, below by more than one half and
    below by at least one half are the same. *)
Lemma thirds_lt_iff_le (x y : Z) :
  inject_Z x / 3 < inject_Z y / 3 - (1 # 2)
  <-> inject_Z x / 3 <= inject_Z y / 3 - (1 # 2).
Proof.
  unfold Qlt, Qle, Qdiv, Qminus, Qplus, Qmult, Qinv, Qopp, inject_Z.
  simpl. lia.
Qed.

(** A drop of exactly one half between the two means cannot occur. *)
Lemma thirds_never_half (x y : Z) :
  ~ inject_Z x / 3 == inject_Z y / 3 - (1 # 2).
Proof.
  unfold Qeq, Qdiv, Qminus, Qplus, Qmult, Qinv, Qopp, inject_Z.
  simpl. lia.
Qed.

Lemma mean_of_three (a b c : Z) : Sentiment.mean [a; b; c] == spec_mean3 a b c.
Proof.
  unfold Sentiment.mean, spec_mean3, Py.sumZ, Py.len.
  cbn [fold_left List.length]. rewrite Z.add_0_l. reflexivity.
Qed.

Lemma lastn_of_append {A} (front recent : list A) :
  Py.lastn (List.length recent) (front ++ recent) = recent.
Proof.
  unfold Py.lastn. rewrite length_app.
  replace (List.length front + List.length recent - List.length recent)%nat
    with (List.length front + 0)%nat by lia.
  rewrite skipn_app, Nat.add_0_r, skipn_all.
  replace (List.length front - List.length front)%nat with 0%nat by lia.
  reflexivity.
Qed.

(** The earliest three and the most recent three scores of a sequence of at
    least three. *)
Lemma three_at_each_end (scores : list Z) :
  (3 <= List.length scores)%nat ->
  exists a b c later earlier x y z,
    scores = a :: b :: c :: later /\ scores = earlier ++ [x; y; z].
Proof.
  intro H.
  destruct scores as [|a [|b [|c later]]]; simpl in H; try lia.
  exists a, b, c, later.
  set (scores := a :: b :: c :: later) in *.
  pose proof (length_lastn 3 scores) as Hl.
  assert (H3 : (3 <= List.length scores)%nat) by (unfold scores; simpl; lia).
  specialize (Hl H3).
  destruct (Py.lastn 3 scores) as [|x [|y [|z [|w r]]]] eqn:E;
    simpl in Hl; try lia.
  exists (firstn (List.length scores - 3) scores), x, y, z.
  split; [reflexivity|].
  rewrite <- E. unfold Py.lastn. symmetry. apply firstn_skipn.
Qed.

Lemma check_declining_trend_ends (scores later earlier : list Z)
    (a b c x y z : Z) :
  scores = a :: b :: c :: later -> scores = earlier ++ [x; y; z] ->
  (Sentiment._check_declining_trend scores = true
   <-> spec_mean3 x y z < spec_mean3 a b c - (1 # 2)).
Proof.
  intros Hfirst Hlast. unfold Sentiment._check_declining_trend.
  assert (Hlen : (List.length scores <? 3)%nat = false).
  { apply Nat.ltb_ge. rewrite Hfirst. simpl. lia. }
  rewrite Hlen, Qlt_bool_iff.
  assert (Hr : Py.lastn 3 scores = [x; y; z]).
  { rewrite Hlast. apply (lastn_of_append earlier [x; y; z]). }
  assert (Ho : firstn 3 scores = [a; b; c]) by (rewrite Hfirst; reflexivity).
  rewrite Hr, Ho, !mean_of_three. reflexivity.
Qed.

(** C4. On a chronological sequence of at least three scores, whose earliest
    three are a, b, c and whose most recent three are x, y, z, the
    declining-trend test answers true exactly when the mean of x, y, z is at
    least 0.5 below the mean of a, b, c. The means are taken on the scores
    themselves, not through the code. The code's comparison is the strict
    one (more than 0.5 below); on scores, which are whole numbers, the two
    readings agree, because two means of three whole numbers never differ by
    exactly 0.5, so that the case of a difference of exactly 0.5 does not
    arise. With fewer than three scores the test answers false, and with
    fewer than three check-ins in the window the burnout detection makes no
    pattern judgment and returns the insufficient-data result, while with
    three or more it reports the two trend tests on the mood and energy
    scores. *)
Theorem declining_trend_spec :
  (forall scores : list Z,
      (3 <= List.length scores)%nat ->
      exists a b c later earlier x y z,
        scores = a :: b :: c :: later /\
        scores = earlier ++ [x; y; z] /\
        (Sentiment._check_declining_trend scores = true
         <-> spec_mean3 x y z <= spec_mean3 a b c - (1 # 2)) /\
        (Sentiment._check_declining_trend scores = true
         <-> spec_mean3 x y z < spec_mean3 a b c - (1 # 2)) /\
        ~ spec_mean3 x y z == spec_mean3 a b c - (1 # 2)) /\
  (forall scores : list Z,
      (List.length scores < 3)%nat ->
      Sentiment._check_declining_trend scores = false) /\
  (forall (db : DB.t) (now user_id threshold : Z),
      (List.length (burnout_window db now user_id) < 3)%nat ->
      Sentiment.detect_burnout_patterns db now user_id threshold
      = Sentiment.InsufficientData false
          "Dados insuficientes para análise de padrões") /\
  (forall (db : DB.t) (now user_id threshold : Z),
      (3 <= List.length (burnout_window db now user_id))%nat ->
      exists a,
        Sentiment.detect_burnout_patterns db now user_id threshold
        = Sentiment.Analysis a /\
        Sentiment.declining_mood (Sentiment.patterns a)
        = Sentiment._check_declining_trend
            (mood_scores (burnout_window db now user_id)) /\
        Sentiment.declining_energy (Sentiment.patterns a)
        = Sentiment._check_declining_trend
            (energy_scores (burnout_window db now user_id))).
Proof.
  split.
  { intros scores Hlen.
    destruct (three_at_each_end scores Hlen)
      as (a & b & c & later & earlier & x & y & z & Hfirst & Hlast).
    exists a, b, c, later, earlier, x, y, z.
    split; [exact Hfirst|]. split; [exact Hlast|].
    pose proof (check_declining_trend_ends scores later earlier a b c x y z
                  Hfirst Hlast) as Hstrict.
    split; [|split; [exact Hstrict|apply thirds_never_half]].
    rewrite Hstrict. unfold spec_mean3. apply thirds_lt_iff_le. }
  split.
  { intros scores H. unfold Sentiment._check_declining_trend.
    apply Nat.ltb_lt in H. now rewrite H. }
  split.
  - intros db now user_id threshold H.
    unfold Sentiment.detect_burnout_patterns.
    fold (burnout_window db now user_id).
    apply Nat.ltb_lt in H. now rewrite H.
  - intros db now user_id threshold H.
    unfold Sentiment.detect_burnout_patterns.
    fold (burnout_window db now user_id).
    destruct (List.length (burnout_window db now user_id) <? 3)%nat eqn:E.
    + apply Nat.ltb_lt in E. lia.
    + eexists. split; [reflexivity|]. split; reflexivity.
Qed.

(** The two sequences of the specification's test: [5,5,5,1,1,1] declines,
    the flat [3,3,3,3,3,3] does not; a drop of one third of a point does
    not count, a drop of two thirds does; and in a longer sequence only the
    two ends are compared. *)
Example declining_trend_examples :
  Sentiment._check_declining_trend [5; 5; 5; 1; 1; 1]%Z = true /\
  Sentiment._check_declining_trend [3; 3; 3; 3; 3; 3]%Z = false /\
  Sentiment._check_declining_trend [3; 3; 3; 3; 3; 2]%Z = false /\
  Sentiment._check_declining_trend [3; 3; 3; 3; 2; 2]%Z = true /\
  Sentiment._check_declining_trend [5; 5; 5; 1; 1; 5; 5; 5]%Z = false.
Proof. repeat split; reflexivity. Qed.

(** ** Recommendation engine *)

Lemma first_min_singleton {A} (key : A -> Q) (x : A) : first_min key x [x].
Proof.
  exists [], []. repeat split; simpl; intros c H; contradiction.
Qed.

Lemma first_min_snoc_keep {A} (key : A -> Q) (m x : A) (seen : list A) :
  first_min key m seen -> key m <= key x -> first_min key m (seen ++ [x]).
Proof.
  intros (before & after & -> & Hb & Ha) Hx.
  exists before, (after ++ [x]). split.
  - now rewrite <- app_assoc.
  - split; [exact Hb|]. intros c Hc.
    apply in_app_or in Hc. destruct Hc as [Hc|[<-|[]]]; auto.
Qed.

Lemma first_min_snoc_replace {A} (key : A -> Q) (m x : A) (seen : list A) :
  first_min key m seen -> key x < key m -> first_min key x (seen ++ [x]).
Proof.
  intros (before & after & -> & Hb & Ha) Hx.
  exists (before ++ m :: after), []. split; [reflexivity|].
  split; [|intros c []].
  intros c Hc. apply in_app_or in Hc. destruct Hc as [Hc|[<-|Hc]].
  - specialize (Hb c Hc). lra.
  - exact Hx.
  - specialize (Ha c Hc). lra.
Qed.

Lemma min_loop_first_min {A} (key : A -> Q) (rest seen : list A) (best : A) :
  first_min key best seen ->
  first_min key (Py.min_loop key best rest) (seen ++ rest).
Proof.
  revert seen best.
  induction rest as [|x rest IH]; intros seen best H; simpl.
  - now rewrite app_nil_r.
  - replace (seen ++ x :: rest) with ((seen ++ [x]) ++ rest)
      by now rewrite <- app_assoc.
    destruct (Py.Qlt_bool (key x) (key best)) eqn:E.
    + apply IH. apply Qlt_bool_iff in E.
      now apply first_min_snoc_replace with (m := best).
    + apply IH. apply Qlt_bool_false_iff in E.
      now apply first_min_snoc_keep.
Qed.

Lemma min_by_first_min {A} (key : A -> Q) (x : A) (l : list A) :
  exists best, Py.min_by key (x :: l) = Some best
               /\ first_min key best (x :: l).
Proof.
  exists (Py.min_loop key x l). split; [reflexivity|].
  apply (min_loop_first_min key l [x] x). apply first_min_singleton.
Qed.

(** C1. On a non-empty candidate list the fallback returns a recommendation,
    never an error: it names a candidate of least load percentage, the first
    such candidate of the list (every candidate before it is strictly more
    loaded, none after it is less loaded), with match score 50 and a
    non-empty list of warnings. The load percentage is read from the
    candidates themselves, not through the key function of the code; among
    candidates that carry a load entry the comparison is between the entries
    as they stand. On the empty list the fallback returns the explicit
    no-candidates error. *)
Theorem fallback_recommendation_spec (candidates : list Candidate.t) :
  match candidates with
  | [] =>
      Gemini._fallback_recommendation candidates
      = Json.JDict [("error", Json.JStr "Nenhum candidato disponível")]
  | _ :: _ =>
      exists before best after,
        candidates = before ++ best :: after /\
        (forall c, In c before ->
                   spec_load_percentage best < spec_load_percentage c) /\
        (forall c, In c after ->
                   spec_load_percentage best <= spec_load_percentage c) /\
        (forall c, In c candidates ->
                   spec_load_percentage best <= spec_load_percentage c) /\
        (forall c w wb,
            Candidate.workload best = Some wb ->
            Candidate.workload c = Some w ->
            (In c before -> wb < w) /\ (In c candidates -> wb <= w)) /\
        let r := Gemini._fallback_recommendation candidates in
        Json.contains r "error" = Some false /\
        Json.get r "recommended_user_id" = Gemini.opt_int (Candidate.id best) /\
        Json.get r "recommended_user_name"
        = Gemini.opt_str (Candidate.name best) /\
        Json.get r "match_score" = Json.JNum 50 /\
        exists w ws, Json.get r "warnings" = Json.JList (w :: ws)
  end.
Proof.
  destruct candidates as [|x l]; [reflexivity|].
  destruct (min_by_first_min Gemini.workload_key x l) as (best & Hmin & Hfirst).
  destruct Hfirst as (before & after & Heq & Hb & Ha).
  change (forall c, In c before ->
                    spec_load_percentage best < spec_load_percentage c) in Hb.
  change (forall c, In c after ->
                    spec_load_percentage best <= spec_load_percentage c) in Ha.
  exists before, best, after.
  split; [exact Heq|]. split; [exact Hb|]. split; [exact Ha|].
  assert (Hall : forall c, In c (x :: l) ->
                   spec_load_percentage best <= spec_load_percentage c).
  { intros c Hc. rewrite Heq in Hc. apply in_app_or in Hc.
    destruct Hc as [Hc|[<-|Hc]].
    - specialize (Hb c Hc). lra.
    - lra.
    - now apply Ha. }
  split; [exact Hall|].
  split.
  { intros c w wb Ebest Ec. split; intro Hc.
    - specialize (Hb c Hc). unfold spec_load_percentage in Hb.
      now rewrite Ebest, Ec in Hb.
    - specialize (Hall c Hc). unfold spec_load_percentage in Hall.
      now rewrite Ebest, Ec in Hall. }
  unfold Gemini._fallback_recommendation. rewrite Hmin.
  cbn. repeat split; try reflexivity.
  eexists. eexists. reflexivity.
Qed.

(** On the sample candidates the first of the two least loaded is chosen,
    wherever the most loaded one stands. *)
Example fallback_picks_first_least_loaded :
  Gemini._fallback_recommendation [ana; bruno; carla]
  = Gemini.fallback_of bruno /\
  Gemini._fallback_recommendation [carla; ana; bruno]
  = Gemini.fallback_of carla.
Proof. split; reflexivity. Qed.

Lemma parse_error_not_fallback (text : string) (candidates : list Candidate.t) :
  Gemini.parse_error text <> Gemini._fallback_recommendation candidates.
Proof.
  unfold Gemini._fallback_recommendation, Gemini.parse_error, Gemini.fallback_of.
  destruct (Py.min_by Gemini.workload_key candidates); discriminate.
Qed.

(** C2, as amended. What [generate_task_recommendation] returns, case by
    case. When the prompt cannot be built or the oracle call raises, it is
    the fallback recommendation. When the oracle replies, the reply is
    stripped of its code-fence markers and decoded: a text that decodes is
    returned as decoded; a text that is not valid JSON, which the decoder
    rejects with a decode error, gives the error result that holds the
    entries [error] and [raw_response] (the reply as received) and names no
    person, and this result is not the fallback recommendation; only a
    decoder that fails otherwise (on a text nested beyond the recursion
    limit, or on an integer literal of too many digits) leads to the
    fallback recommendation again. *)
Theorem malformed_reply_is_error_result
    (generate_content : Gemini.Prompt -> option string)
    (json_loads : string -> Json.outcome)
    (task : TaskData.t) (candidates : list Candidate.t)
    (team_context : option TeamContext.t) :
  let r := Gemini.generate_task_recommendation generate_content json_loads
             task candidates team_context in
  match Gemini._build_task_recommendation_prompt task candidates
          team_context with
  | None => r = Gemini._fallback_recommendation candidates
  | Some prompt =>
      match generate_content prompt with
      | None => r = Gemini._fallback_recommendation candidates
      | Some text =>
          match json_loads (Gemini.clean_response text) with
          | Json.Decoded v => r = v
          | Json.Raises Json.JSONDecodeError =>
              r = Json.JDict
                    [ ("error", Json.JStr "Erro ao processar resposta da IA");
                      ("raw_response", Json.JStr text) ] /\
              Json.contains r "recommended_user_id" = Some false /\
              r <> Gemini._fallback_recommendation candidates
          | Json.Raises Json.RecursionError
          | Json.Raises Json.ValueError =>
              r = Gemini._fallback_recommendation candidates
          end
      end
  end.
Proof.
  cbv zeta. unfold Gemini.generate_task_recommendation.
  destruct (Gemini._build_task_recommendation_prompt task candidates
              team_context) as [prompt|]; [|reflexivity].
  destruct (generate_content prompt) as [text|]; [|reflexivity].
  unfold Gemini._parse_json_response.
  destruct (json_loads (Gemini.clean_response text)) as [v|[| |]];
    try reflexivity.
  repeat split. apply parse_error_not_fallback.
Qed.

(** A text of 2000 opening brackets is nested deeper than the default
    recursion limit allows: the decoder raises before it reaches the end of
    the text, and the reply ends in the fallback recommendation. *)
Example deep_reply_ends_in_fallback :
  let text := string_of_list_ascii (repeat "["%char 2000) in
  loads_default (Gemini.clean_response text)
  = Json.Raises Json.RecursionError /\
  Gemini.generate_task_recommendation (oracle_says text) loads_default
    sample_task_data [ana; bruno] None
  = Gemini._fallback_recommendation [ana; bruno].
Proof. split; vm_compute; reflexivity. Qed.

(** C2 as stated fails: the oracle answers [not json] inside a code fence;
    the text left after stripping is rejected by the decoder with a decode
    error, and the result is the error result that carries the reply, not
    the fallback recommendation returned when the oracle raises. *)
Lemma malformed_reply_counterexample :
  let text := "```json not json ```" in
  loads_default (Gemini.clean_response text)
  = Json.Raises Json.JSONDecodeError /\
  Gemini.generate_task_recommendation (oracle_says text) loads_default
    sample_task_data [ana; bruno] None
  = Json.JDict [ ("error", Json.JStr "Erro ao processar resposta da IA");
                 ("raw_response", Json.JStr text) ] /\
  Gemini.generate_task_recommendation (oracle_says text) loads_default
    sample_task_data [ana; bruno] None
  <> Gemini.generate_task_recommendation oracle_down loads_default
       sample_task_data [ana; bruno] None.
Proof.
  split; [reflexivity|]. split; [reflexivity|]. vm_compute. discriminate.
Qed.

(** ** Lists *)

Lemma In_firstn {A} (n : nat) (l : list A) (x : A) :
  In x (firstn n l) -> In x l.
Proof.
  intro H. rewrite <- (firstn_skipn n l). apply in_or_app. now left.
Qed.

Lemma In_skipn {A} (n : nat) (l : list A) (x : A) :
  In x (skipn n l) -> In x l.
Proof.
  intro H. rewrite <- (firstn_skipn n l). apply in_or_app. now right.
Qed.

(** ** Sorting *)

Section SortingFacts.

Context {A : Type} (key : A -> Z).

Lemma insert_desc_perm (x : A) (l : list A) :
  Permutation (Py.insert_desc key x l) (x :: l).
Proof.
  induction l as [|y l IH]; simpl; [reflexivity|].
  destruct (key x <=? key y)%Z; [|reflexivity].
  rewrite IH. apply perm_swap.
Qed.

Lemma insert_asc_perm (x : A) (l : list A) :
  Permutation (Py.insert_asc key x l) (x :: l).
Proof.
  induction l as [|y l IH]; simpl; [reflexivity|].
  destruct (key y <=? key x)%Z; [|reflexivity].
  rewrite IH. apply perm_swap.
Qed.

Lemma fold_insert_desc_perm (l acc : list A) :
  Permutation (fold_left (fun a x => Py.insert_desc key x a) l acc) (acc ++ l).
Proof.
  revert acc. induction l as [|x l IH]; intro acc; simpl.
  - now rewrite app_nil_r.
  - rewrite IH, insert_desc_perm. apply Permutation_middle.
Qed.

Lemma fold_insert_asc_perm (l acc : list A) :
  Permutation (fold_left (fun a x => Py.insert_asc key x a) l acc) (acc ++ l).
Proof.
  revert acc. induction l as [|x l IH]; intro acc; simpl.
  - now rewrite app_nil_r.
  - rewrite IH, insert_asc_perm. apply Permutation_middle.
Qed.

Lemma sort_desc_perm (l : list A) : Permutation (Py.sort_desc key l) l.
Proof. apply (fold_insert_desc_perm l []). Qed.

Lemma sort_asc_perm (l : list A) : Permutation (Py.sort_asc key l) l.
Proof. apply (fold_insert_asc_perm l []). Qed.

Lemma insert_desc_sorted (x : A) (l : list A) :
  sorted_desc key l -> sorted_desc key (Py.insert_desc key x l).
Proof.
  unfold sorted_desc. induction 1 as [|y l Hs IH Hy]; simpl.
  - constructor; constructor.
  - destruct (key x <=? key y)%Z eqn:E.
    + constructor; [exact IH|].
      apply Forall_forall. intros z Hz.
      apply (Permutation_in _ (insert_desc_perm x l)) in Hz.
      destruct Hz as [<-|Hz]; [lia|].
      rewrite Forall_forall in Hy. now apply Hy.
    + constructor; [now constructor|].
      constructor; [lia|].
      rewrite Forall_forall in Hy |- *. intros z Hz.
      specialize (Hy z Hz). lia.
Qed.

Lemma fold_insert_desc_sorted (l acc : list A) :
  sorted_desc key acc ->
  sorted_desc key (fold_left (fun a x => Py.insert_desc key x a) l acc).
Proof.
  revert acc. induction l as [|x l IH]; intros acc H; simpl; [exact H|].
  apply IH. now apply insert_desc_sorted.
Qed.

Lemma sort_desc_sorted (l : list A) : sorted_desc key (Py.sort_desc key l).
Proof. apply fold_insert_desc_sorted. constructor. Qed.

Lemma sort_desc_In (x : A) (l : list A) : In x (Py.sort_desc key l) <-> In x l.
Proof.
  split; apply Permutation_in; [|symmetry]; apply sort_desc_perm.
Qed.

Lemma sort_desc_nil (l : list A) : Py.sort_desc key l = [] -> l = [].
Proof.
  intro H. apply Permutation_nil. rewrite <- H. apply sort_desc_perm.
Qed.

Lemma sorted_desc_firstn (n : nat) (l : list A) :
  sorted_desc key l -> sorted_desc key (firstn n l).
Proof.
  unfold sorted_desc. intro H. revert n.
  induction H as [|x l Hs IH Hx]; intro n; destruct n; simpl;
    try constructor.
  - apply IH.
  - rewrite Forall_forall in Hx |- *. intros z Hz.
    apply Hx. now apply In_firstn in Hz.
Qed.

Lemma sorted_desc_split (n : nat) (l : list A) (a b : A) :
  sorted_desc key l -> In a (firstn n l) -> In b (skipn n l) ->
  (key b <= key a)%Z.
Proof.
  unfold sorted_desc. intro H. revert n.
  induction H as [|x l Hs IH Hx]; intros n Ha Hb.
  - destruct n; simpl in Ha; contradiction.
  - destruct n; simpl in Ha, Hb; [contradiction|].
    destruct Ha as [<-|Ha].
    + rewrite Forall_forall in Hx. apply Hx.
      now apply In_skipn in Hb.
    + eapply IH; eauto.
Qed.

(** Whatever order the store gives to items of equal key, the first [n]
    rows of a descending list dominate the rows left out. *)
Lemma top_rows_dominate (n : nat) (l : list A) (a b : A) :
  sorted_desc key l -> In a (firstn n l) -> In b l -> ~ In b (firstn n l) ->
  (key b <= key a)%Z.
Proof.
  intros Hs Ha Hb Hout.
  rewrite <- (firstn_skipn n l) in Hb.
  apply in_app_or in Hb. destruct Hb as [Hb|Hb]; [contradiction|].
  now apply (sorted_desc_split n l).
Qed.

End SortingFacts.

(** ** Team rebalancer: the proposed moves *)

Section RebalanceFacts.

Variable generate_content : Gemini.Prompt -> option string.
Variable json_loads : string -> Json.outcome.
Variable round1 : Q -> Q.

Local Abbreviation recommend_assignee :=
  (Distribution.recommend_assignee generate_content json_loads round1).
Local Abbreviation moves_of_tasks :=
  (Distribution.moves_of_tasks generate_content json_loads round1).
Local Abbreviation moves_of_users :=
  (Distribution.moves_of_users generate_content json_loads round1).
Local Abbreviation rebalance_team_workload :=
  (Distribution.rebalance_team_workload generate_content json_loads round1).

Lemma moves_of_tasks_sound (db : DB.t) (team_id : Z) (user : User.t)
    (tasks : list Task.t) (ms : list Distribution.Move) :
  moves_of_tasks db team_id user tasks = Some ms ->
  forall m, In m ms ->
    exists k,
      In k tasks /\
      Distribution.task_id m = Task.id k /\
      Distribution.task_title m = Task.title k /\
      Distribution.from_user m = User.username user /\
      Distribution.ne_int (Distribution.to_user_id m) (User.id user) = true.
Proof.
  revert ms. induction tasks as [|k tasks IH]; intros ms H m Hm; simpl in H.
  - injection H as <-. contradiction.
  - assert (Hrest : forall ms', moves_of_tasks db team_id user tasks = Some ms' ->
                                In m ms' ->
                                exists k0, In k0 (k :: tasks) /\
                                  Distribution.task_id m = Task.id k0 /\
                                  Distribution.task_title m = Task.title k0 /\
                                  Distribution.from_user m = User.username user /\
                                  Distribution.ne_int (Distribution.to_user_id m)
                                    (User.id user) = true).
    { intros ms' H' Hm'. destruct (IH ms' H' m Hm') as (k0 & Hk0 & Hr).
      exists k0. split; [now right|exact Hr]. }
    destruct (Json.contains (recommend_assignee db (Task.id k) (Some team_id))
                "recommended_user_id") as [[|]|]; [| |discriminate].
    + destruct (recommend_assignee db (Task.id k) (Some team_id));
        try discriminate.
      match type of H with
      | (if ?c then _ else _) = _ => destruct c eqn:Hne
      end.
      * destruct (moves_of_tasks db team_id user tasks) as [ms'|] eqn:E;
          [|discriminate].
        simpl in H. injection H as <-.
        destruct Hm as [<-|Hm].
        -- exists k. simpl. repeat split; auto.
        -- now apply (Hrest ms').
      * now apply (Hrest ms).
    + now apply (Hrest ms).
Qed.

Lemma moves_of_users_sound (db : DB.t) (team_id : Z)
    (overloaded : list User.t) (ms : list Distribution.Move) :
  moves_of_users db team_id overloaded = Some ms ->
  forall m, In m ms -> exists user, In user overloaded /\ move_of db user m.
Proof.
  revert ms. induction overloaded as [|u us IH]; intros ms H m Hm; simpl in H.
  - injection H as <-. contradiction.
  - destruct (moves_of_tasks db team_id u (Distribution.considered_tasks db u))
      as [ms1|] eqn:E1; [|discriminate].
    destruct (moves_of_users db team_id us) as [ms2|] eqn:E2; [|discriminate].
    simpl in H. injection H as <-.
    apply in_app_or in Hm. destruct Hm as [Hm|Hm].
    + exists u. split; [now left|].
      apply (moves_of_tasks_sound _ _ _ _ _ E1 m Hm).
    + destruct (IH ms2 eq_refl m Hm) as (user & Hu & Hmove).
      exists user. split; [now right|exact Hmove].
Qed.

(** The shape of a rebalance run: an error with the store untouched, or a
    report over the proposed moves. *)
Lemma rebalance_cases (db : DB.t) (team_id : Z) (dry_run : bool) :
  (exists msg,
      rebalance_team_workload db team_id dry_run
      = (Distribution.RebalanceError msg, db)) \/
  (exists ms,
      moves_of_users db team_id
        (filter User.is_overloaded (Distribution.team_members db team_id))
      = Some ms /\
      rebalance_team_workload db team_id dry_run
      = (Distribution.RebalanceReport
           (Distribution.mkReport
              (List.length (filter User.is_overloaded
                              (Distribution.team_members db team_id)))
              (List.length
                 (filter (fun u => Py.Qlt_bool (User.workload_percentage u) 70)
                         (Distribution.team_members db team_id)))
              ms (negb dry_run) (List.length ms)),
         if dry_run then db
         else fold_left Distribution.apply_move ms db)).
Proof.
  unfold Distribution.rebalance_team_workload.
  destruct (Distribution.team_members db team_id) as [|u us] eqn:Et.
  - left. eexists. reflexivity.
  - destruct (moves_of_users db team_id (filter User.is_overloaded (u :: us)))
      as [ms|] eqn:Em.
    + right. exists ms. split; [reflexivity|].
      f_equal. destruct dry_run; simpl; [reflexivity|].
      destruct ms; reflexivity.
    + left. eexists. reflexivity.
Qed.

End RebalanceFacts.

Lemma pending_tasks_In (db : DB.t) (user : User.t) (k : Task.t) :
  In k (Distribution.pending_tasks db user) <-> is_pending_of db user k.
Proof.
  unfold Distribution.pending_tasks, is_pending_of.
  rewrite sort_desc_In, filter_In, andb_true_iff.
  split.
  - intros (Hin & Ha & Hs). split; [exact Hin|].
    destruct (Task.assigned_to k) as [a|]; [|discriminate].
    apply Z.eqb_eq in Ha. subst a. split; [reflexivity|].
    destruct (Task.status k); simpl in Hs; congruence.
  - intros (Hin & Ha & Hs). rewrite Ha, Hs, Z.eqb_refl. auto.
Qed.

(** C5. A rebalance invoked as a dry run returns the store it was given:
    every person's current load and every work item (assignee, status and
    AI-provenance fields included) are unchanged, whatever the number of
    proposed moves; the report is marked as not applied and lists the same
    moves as the report of the run that applies them. *)
Theorem dry_run_mutates_nothing
    (generate_content : Gemini.Prompt -> option string)
    (json_loads : string -> Json.outcome) (round1 : Q -> Q)
    (db : DB.t) (team_id : Z) :
  let run := Distribution.rebalance_team_workload
               generate_content json_loads round1 db team_id in
  snd (run true) = db /\
  DB.users (snd (run true)) = DB.users db /\
  DB.tasks (snd (run true)) = DB.tasks db /\
  match fst (run true), fst (run false) with
  | Distribution.RebalanceReport dry, Distribution.RebalanceReport wet =>
      Distribution.applied dry = false /\
      Distribution.recommendations dry = Distribution.recommendations wet
  | Distribution.RebalanceError a, Distribution.RebalanceError b => a = b
  | _, _ => False
  end.
Proof.
  cbv zeta.
  unfold Distribution.rebalance_team_workload.
  destruct (Distribution.team_members db team_id) as [|u us];
    [simpl; auto|].
  destruct (Distribution.moves_of_users _ _ _ _ _ _) as [ms|];
    simpl; auto.
Qed.

Lemma pending_items_In (db : DB.t) (user : User.t) (k : Task.t) :
  In k (pending_items db user) <-> is_pending_of db user k.
Proof.
  unfold pending_items, is_pending_of.
  rewrite filter_In, andb_true_iff.
  split.
  - intros (Hin & Ha & Hs). split; [exact Hin|].
    destruct (Task.assigned_to k) as [a|]; [|discriminate].
    simpl in Ha. apply Z.eqb_eq in Ha. subst a. split; [reflexivity|].
    destruct (Task.status k); simpl in Hs; congruence.
  - intros (Hin & Ha & Hs). rewrite Ha, Hs. simpl. rewrite Z.eqb_refl. auto.
Qed.

Lemma pending_tasks_perm (db : DB.t) (user : User.t) :
  Permutation (Distribution.pending_tasks db user) (pending_items db user).
Proof.
  unfold Distribution.pending_tasks, pending_items.
  rewrite (sort_desc_perm (fun k => TaskPriority.rank (Task.priority k))).
  erewrite filter_ext; [reflexivity|].
  intro k. cbv beta. destruct (Task.assigned_to k); reflexivity.
Qed.

(** C3. For every member, the items considered for movement are the top
    three of the member's pending items under urgent > high > medium > low,
    or all of them when the member has fewer than three: the considered
    items together with the items left out are exactly the member's pending
    items, the number of considered items is the smaller of 3 and the number
    of pending items, the considered items are listed by descending
    priority, and none of them has a strictly lower priority than a pending
    item of the member that is left out. And every move that a rebalance run
    proposes is about an item considered for an overloaded member of the
    team. *)
Theorem considered_items_by_priority
    (generate_content : Gemini.Prompt -> option string)
    (json_loads : string -> Json.outcome) (round1 : Q -> Q)
    (db : DB.t) (team_id : Z) (dry_run : bool) :
  (TaskPriority.rank TaskPriority.LOW < TaskPriority.rank TaskPriority.MEDIUM
   < TaskPriority.rank TaskPriority.HIGH)%Z /\
  (TaskPriority.rank TaskPriority.HIGH
   < TaskPriority.rank TaskPriority.URGENT)%Z /\
  (forall user : User.t,
      let considered := Distribution.considered_tasks db user in
      (exists left_out,
          Permutation (considered ++ left_out) (pending_items db user) /\
          forall k k', In k considered -> In k' left_out ->
                       (task_rank k' <= task_rank k)%Z) /\
      List.length considered
      = Nat.min 3 (List.length (pending_items db user)) /\
      (forall k, In k (pending_items db user) <-> is_pending_of db user k) /\
      (List.length considered <= 3)%nat /\
      (forall k, In k considered -> is_pending_of db user k) /\
      sorted_desc task_rank considered /\
      (forall k k',
          In k considered -> is_pending_of db user k' -> ~ In k' considered ->
          (task_rank k' <= task_rank k)%Z)) /\
  match fst (Distribution.rebalance_team_workload
               generate_content json_loads round1 db team_id dry_run) with
  | Distribution.RebalanceReport report =>
      forall m, In m (Distribution.recommendations report) ->
        exists user k,
          In user (Distribution.team_members db team_id) /\
          User.is_overloaded user = true /\
          In k (Distribution.considered_tasks db user) /\
          Distribution.task_id m = Task.id k /\
          Distribution.from_user m = User.username user
  | Distribution.RebalanceError _ => True
  end.
Proof.
  split; [simpl; lia|]. split; [simpl; lia|]. split.
  - intro user. cbv zeta. unfold Distribution.considered_tasks.
    split.
    { exists (skipn 3 (Distribution.pending_tasks db user)). split.
      - rewrite firstn_skipn. apply pending_tasks_perm.
      - intros k k' Hk Hk'.
        apply (sorted_desc_split task_rank 3
                 (Distribution.pending_tasks db user)); auto.
        apply (sort_desc_sorted task_rank). }
    split.
    { rewrite length_firstn.
      now rewrite (Permutation_length (pending_tasks_perm db user)). }
    split; [intro k; apply pending_items_In|].
    split; [apply firstn_le_length|].
    split.
    { intros k Hk. apply pending_tasks_In. now apply In_firstn in Hk. }
    split.
    { apply sorted_desc_firstn. apply (sort_desc_sorted task_rank). }
    intros k k' Hk Hk' Hout.
    apply pending_tasks_In in Hk'.
    rewrite <- (firstn_skipn 3 (Distribution.pending_tasks db user)) in Hk'.
    apply in_app_or in Hk'. destruct Hk' as [Hk'|Hk']; [contradiction|].
    apply (sorted_desc_split task_rank 3 (Distribution.pending_tasks db user));
      auto.
    apply (sort_desc_sorted task_rank).
  - destruct (rebalance_cases generate_content json_loads round1
                db team_id dry_run) as [(msg & ->)|(ms & Hms & ->)];
      simpl; [exact I|].
    intros m Hm.
    destruct (moves_of_users_sound _ _ _ _ _ _ _ Hms m Hm)
      as (user & Hu & k & Hk & Hid & _ & Hfrom & _).
    apply filter_In in Hu. destruct Hu as [Hu Ho].
    exists user, k. auto.
Qed.

(** ** Team wellbeing summary *)

Section SummaryFacts.

Variable round1 : Q -> Q.
Variable db : DB.t.
Variable since_date : Z.

Local Abbreviation step := (Sentiment.member_step round1 db since_date).

Lemma last_check_since_none (member : User.t) :
  has_recent_check db since_date member = false ->
  Sentiment.last_check_since db member since_date = None.
Proof.
  unfold has_recent_check, Sentiment.last_check_since.
  destruct (Sentiment.checks_since db (User.id member) since_date);
    [reflexivity|discriminate].
Qed.

Lemma last_check_since_some (member : User.t) :
  has_recent_check db since_date member = true ->
  exists c, Sentiment.last_check_since db member since_date = Some c.
Proof.
  unfold has_recent_check, Sentiment.last_check_since.
  destruct (Sentiment.checks_since db (User.id member) since_date)
    as [|c cs] eqn:E; [discriminate|]. intros _.
  destruct (Py.sort_desc WellbeingCheck.created_at (c :: cs)) as [|c' cs'] eqn:Es.
  - apply sort_desc_nil in Es. discriminate.
  - exists c'. reflexivity.
Qed.

Lemma step_silent (acc : Sentiment.Acc) (member : User.t) :
  has_recent_check db since_date member = false -> step acc member = acc.
Proof.
  intro H. unfold Sentiment.member_step.
  now rewrite (last_check_since_none member H).
Qed.

Lemma fold_step_filter (members : list User.t) (acc : Sentiment.Acc) :
  fold_left step members acc
  = fold_left step (filter (has_recent_check db since_date) members) acc.
Proof.
  revert acc. induction members as [|m ms IH]; intro acc; simpl;
    [reflexivity|].
  destruct (has_recent_check db since_date m) eqn:E; simpl.
  - apply IH.
  - rewrite (step_silent acc m E). apply IH.
Qed.

Lemma step_members (acc : Sentiment.Acc) (member : User.t) :
  (has_recent_check db since_date member = false /\ step acc member = acc) \/
  (has_recent_check db since_date member = true /\
   exists md, Sentiment.md_user_id md = User.id member /\
              Sentiment.acc_members (step acc member)
              = Sentiment.acc_members acc ++ [md]).
Proof.
  destruct (has_recent_check db since_date member) eqn:E.
  - right. split; [reflexivity|].
    destruct (last_check_since_some member E) as (c & Hc).
    unfold Sentiment.member_step. rewrite Hc. simpl.
    eexists. split; [|reflexivity]. reflexivity.
  - left. split; [reflexivity|]. now apply step_silent.
Qed.

Lemma step_alerts_grow (acc : Sentiment.Acc) (member : User.t) (a : Sentiment.Alert) :
  In a (Sentiment.acc_alerts acc) -> In a (Sentiment.acc_alerts (step acc member)).
Proof.
  intro H. unfold Sentiment.member_step.
  destruct (Sentiment.last_check_since db member since_date); [|exact H].
  simpl. apply in_or_app. now left.
Qed.

Lemma fold_alerts_grow (members : list User.t) (acc : Sentiment.Acc)
    (a : Sentiment.Alert) :
  In a (Sentiment.acc_alerts acc) ->
  In a (Sentiment.acc_alerts (fold_left step members acc)).
Proof.
  revert acc. induction members as [|m ms IH]; intros acc H; simpl;
    [exact H|].
  apply IH. now apply step_alerts_grow.
Qed.

Lemma step_overload_alert (acc : Sentiment.Acc) (member : User.t) :
  has_recent_check db since_date member = true ->
  User.is_overloaded member = true ->
  In (overload_alert member) (Sentiment.acc_alerts (step acc member)).
Proof.
  intros Hc Ho. destruct (last_check_since_some member Hc) as (c & Hl).
  unfold Sentiment.member_step. rewrite Hl, Ho. simpl.
  apply in_or_app. right. apply in_or_app. right. now left.
Qed.

Lemma fold_overload_alert (members : list User.t) (acc : Sentiment.Acc)
    (member : User.t) :
  In member members ->
  has_recent_check db since_date member = true ->
  User.is_overloaded member = true ->
  In (overload_alert member)
     (Sentiment.acc_alerts (fold_left step members acc)).
Proof.
  revert acc. induction members as [|m ms IH]; intros acc Hin Hc Ho;
    [contradiction|].
  simpl. destruct Hin as [->|Hin].
  - apply fold_alerts_grow. now apply step_overload_alert.
  - now apply IH.
Qed.

Lemma fold_members_ids (members : list User.t) (acc : Sentiment.Acc) :
  map Sentiment.md_user_id (Sentiment.acc_members (fold_left step members acc))
  = map Sentiment.md_user_id (Sentiment.acc_members acc)
    ++ map User.id (filter (has_recent_check db since_date) members).
Proof.
  revert acc. induction members as [|m ms IH]; intro acc; simpl.
  - now rewrite app_nil_r.
  - rewrite IH.
    destruct (step_members acc m) as [(E & ->)|(E & md & Hid & ->)];
      rewrite E; [reflexivity|].
    rewrite map_app. simpl. rewrite Hid, <- app_assoc. reflexivity.
Qed.

Lemma fold_scores_length (members : list User.t) (acc : Sentiment.Acc) :
  List.length (Sentiment.acc_mood_scores (fold_left step members acc))
  = (List.length (Sentiment.acc_mood_scores acc)
     + List.length (filter (has_recent_check db since_date) members))%nat /\
  List.length (Sentiment.acc_energy_scores (fold_left step members acc))
  = (List.length (Sentiment.acc_energy_scores acc)
     + List.length (filter (has_recent_check db since_date) members))%nat.
Proof.
  revert acc. induction members as [|m ms IH]; intro acc; simpl; [lia|].
  destruct (IH (step acc m)) as [-> ->].
  destruct (has_recent_check db since_date m) eqn:E.
  - destruct (last_check_since_some m E) as (c & Hc).
    unfold Sentiment.member_step. rewrite Hc. simpl.
    rewrite !length_app. simpl. lia.
  - rewrite (step_silent acc m E). lia.
Qed.

Lemma step_alerts_origin (acc : Sentiment.Acc) (member : User.t)
    (a : Sentiment.Alert) :
  In a (Sentiment.acc_alerts (step acc member)) ->
  In a (Sentiment.acc_alerts acc) \/
  (has_recent_check db since_date member = true /\
   Sentiment.alert_user a = User.full_name member).
Proof.
  destruct (has_recent_check db since_date member) eqn:E.
  - destruct (last_check_since_some member E) as (c & Hc).
    unfold Sentiment.member_step. rewrite Hc. cbn [Sentiment.acc_alerts].
    intro H. apply in_app_or in H. destruct H as [H|H]; [now left|].
    right. split; [reflexivity|].
    apply in_app_or in H. destruct H as [H|H].
    + destruct (WellbeingCheck.ai_burnout_risk c) as [r|]; [|contradiction].
      destruct (Py.truthy_int (Some r) && (70 <? r)%Z); [|contradiction].
      destruct H as [<-|[]]. reflexivity.
    + apply in_app_or in H. destruct H as [H|H].
      * destruct (User.is_overloaded member); [|contradiction].
        destruct H as [<-|[]]. reflexivity.
      * destruct (WellbeingCheck.is_concerning c); [|contradiction].
        destruct H as [<-|[]]. reflexivity.
  - rewrite (step_silent acc member E). now left.
Qed.

Lemma fold_alerts_origin (members : list User.t) (acc : Sentiment.Acc)
    (a : Sentiment.Alert) :
  In a (Sentiment.acc_alerts (fold_left step members acc)) ->
  In a (Sentiment.acc_alerts acc) \/
  exists member,
    In member members /\
    has_recent_check db since_date member = true /\
    Sentiment.alert_user a = User.full_name member.
Proof.
  revert acc. induction members as [|m ms IH]; intros acc H; simpl in H;
    [now left|].
  destruct (IH _ H) as [H'|(member & Hin & Hc & Hu)].
  - destruct (step_alerts_origin acc m a H') as [H0|[Hc Hu]]; [now left|].
    right. exists m. split; [now left|]. split; assumption.
  - right. exists member. split; [now right|]. split; assumption.
Qed.

End SummaryFacts.

Lemma has_recent_check_by_id (db : DB.t) (since_date : Z) (a b : User.t) :
  User.id a = User.id b ->
  has_recent_check db since_date a = has_recent_check db since_date b.
Proof. intro H. unfold has_recent_check. now rewrite H. Qed.

(** C10. In the team wellbeing summary a member without a check-in inside
    the window counts in the team size and nowhere else: the summary is the
    one computed from the members that have such a check-in, the silent member
    has no entry in the members analysis, and the mood and energy averages are
    taken over the members with a check-in only. An overloaded member with a
    check-in in the window raises an overload alert; without one the member
    raises no alert at all: every alert of the summary is about a member with
    a check-in in the window. *)
Theorem silent_member_is_invisible
    (round1 : Q -> Q) (db : DB.t) (now team_id days : Z) :
  let since_date := (now - days * Sentiment.seconds_per_day)%Z in
  let members := Distribution.team_members db team_id in
  let heard := filter (has_recent_check db since_date) members in
  let acc := fold_left (Sentiment.member_step round1 db since_date)
               heard Sentiment.empty_acc in
  match Sentiment.get_team_wellbeing_summary round1 db now team_id days with
  | Sentiment.SummaryError _ => members = []
  | Sentiment.Summary s =>
      Sentiment.team_size s = List.length members /\
      s = Sentiment.summarize round1 (List.length members) days acc /\
      map Sentiment.md_user_id (Sentiment.members_analysis s)
      = map User.id heard /\
      List.length (Sentiment.acc_mood_scores acc) = List.length heard /\
      List.length (Sentiment.acc_energy_scores acc) = List.length heard /\
      (forall member,
          In member members ->
          has_recent_check db since_date member = false ->
          ~ In (User.id member)
               (map Sentiment.md_user_id (Sentiment.members_analysis s)) /\
          forall acc0,
            Sentiment.member_step round1 db since_date acc0 member = acc0) /\
      (forall member,
          In member members ->
          has_recent_check db since_date member = true ->
          User.is_overloaded member = true ->
          In (overload_alert member) (Sentiment.alerts s)) /\
      (forall a,
          In a (Sentiment.alerts s) ->
          exists member,
            In member heard /\
            Sentiment.alert_user a = User.full_name member)
  end.
Proof.
  cbv zeta. unfold Sentiment.get_team_wellbeing_summary.
  destruct (Distribution.team_members db team_id) as [|u us] eqn:Et;
    [reflexivity|].
  set (since_date := (now - days * Sentiment.seconds_per_day)%Z).
  set (members := u :: us).
  rewrite (fold_step_filter round1 db since_date members).
  set (heard := filter (has_recent_check db since_date) members).
  split; [reflexivity|]. split; [reflexivity|].
  assert (Hids : map Sentiment.md_user_id
                   (Sentiment.acc_members
                      (fold_left (Sentiment.member_step round1 db since_date)
                         heard Sentiment.empty_acc))
                 = map User.id heard).
  { rewrite fold_members_ids. simpl. f_equal.
    unfold heard. clear. induction members as [|m ms IH]; simpl; [reflexivity|].
    destruct (has_recent_check db since_date m) eqn:E; simpl.
    - rewrite E. now rewrite IH.
    - exact IH. }
  split; [exact Hids|].
  destruct (fold_scores_length round1 db since_date heard Sentiment.empty_acc)
    as [Hm He].
  assert (Hh : filter (has_recent_check db since_date) heard = heard).
  { unfold heard. clear. induction members as [|m ms IH]; simpl; [reflexivity|].
    destruct (has_recent_check db since_date m) eqn:E; simpl.
    - rewrite E. now rewrite IH.
    - exact IH. }
  rewrite Hh in Hm, He. simpl in Hm, He.
  split; [exact Hm|]. split; [exact He|].
  split.
  - intros member Hin Hsilent. split.
    + simpl. rewrite Hids. intro Hid. apply in_map_iff in Hid.
      destruct Hid as (m' & Heq & Hm').
      apply filter_In in Hm'. destruct Hm' as [_ Hc].
      rewrite (has_recent_check_by_id db since_date m' member Heq) in Hc.
      congruence.
    + intro acc0. now apply step_silent.
  - split.
    { intros member Hin Hc Ho. simpl.
      apply (sort_desc_In Sentiment.severity_rank).
      apply fold_overload_alert; auto.
      apply filter_In. split; assumption. }
    intros a Ha. cbn [Sentiment.alerts Sentiment.summarize] in Ha.
    apply (proj1 (sort_desc_In Sentiment.severity_rank a _)) in Ha.
    destruct (fold_alerts_origin round1 db since_date heard
                Sentiment.empty_acc a Ha)
      as [H0|(member & Hin & _ & Hu)]; [contradiction|].
    exists member. split; assumption.
Qed.

(** ** Row look-ups and row-wise updates *)

Lemma find_map_stable {A} (p : A -> bool) (g : A -> A) (l : list A) :
  (forall x, p (g x) = p x) ->
  find p (map g l) = option_map g (find p l).
Proof.
  intro H. induction l as [|x l IH]; simpl; [reflexivity|].
  rewrite H. destruct (p x); [reflexivity|exact IH].
Qed.

Lemma find_In {A} (p : A -> bool) (l : list A) (x : A) :
  find p l = Some x -> In x l /\ p x = true.
Proof. apply find_some. Qed.

Lemma NoDup_map_inj {A B} (f : A -> B) (l : list A) (a b : A) :
  NoDup (map f l) -> In a l -> In b l -> f a = f b -> a = b.
Proof.
  induction l as [|x l IH]; intros Hnd Ha Hb Hf; [contradiction|].
  simpl in Hnd. inversion Hnd as [|? ? Hx Hnd']; subst.
  destruct Ha as [->|Ha], Hb as [->|Hb].
  - reflexivity.
  - exfalso. apply Hx. rewrite Hf. now apply in_map.
  - exfalso. apply Hx. rewrite <- Hf. now apply in_map.
  - now apply IH.
Qed.

Lemma sumQ_from (l : list Q) (a : Q) : fold_left Qplus l a == a + Py.sumQ l.
Proof.
  unfold Py.sumQ. revert a.
  induction l as [|x l IH]; intro a; simpl; [lra|].
  rewrite IH, (IH (0 + x)). lra.
Qed.

Lemma sumQ_cons (x : Q) (l : list Q) : Py.sumQ (x :: l) == x + Py.sumQ l.
Proof. unfold Py.sumQ at 1. simpl. rewrite sumQ_from. lra. Qed.

Lemma sumQ_nil : Py.sumQ [] == 0.
Proof. reflexivity. Qed.

Lemma set_current_workload_same (u : User.t) :
  User.set_current_workload u (User.current_workload u) = u.
Proof. now destruct u. Qed.

Lemma users_update_pointwise (us : list User.t) (u0 : User.t) (w : Q) :
  NoDup (map User.id us) -> In u0 us ->
  map (fun x => if (User.id x =? User.id (User.set_current_workload u0 w))%Z
                then User.set_current_workload u0 w else x) us
  = adjust (User.id u0) (fun _ => w) us.
Proof.
  intros Hnd Hin. unfold adjust. apply map_ext_in. intros x Hx. simpl.
  destruct (User.id x =? User.id u0)%Z eqn:E; [|reflexivity].
  apply Z.eqb_eq in E.
  now rewrite (NoDup_map_inj User.id us x u0 Hnd Hx Hin E).
Qed.

Lemma tasks_update_pointwise (ks : list Task.t) (k0 : Task.t) (a : option Z) :
  NoDup (map Task.id ks) -> In k0 ks ->
  map (fun x => if (Task.id x =? Task.id (Task.set_assigned_to k0 a))%Z
                then Task.set_assigned_to k0 a else x) ks
  = reassign (Task.id k0) a ks.
Proof.
  intros Hnd Hin. unfold reassign. apply map_ext_in. intros x Hx. simpl.
  destruct (Task.id x =? Task.id k0)%Z eqn:E; [|reflexivity].
  apply Z.eqb_eq in E.
  now rewrite (NoDup_map_inj Task.id ks x k0 Hnd Hx Hin E).
Qed.

Lemma adjust_ids (i : Z) (f : Q -> Q) (us : list User.t) :
  map User.id (adjust i f us) = map User.id us.
Proof.
  unfold adjust. rewrite map_map. apply map_ext. intro x.
  now destruct (User.id x =? i)%Z.
Qed.

Lemma adjust_usernames (i : Z) (f : Q -> Q) (us : list User.t) :
  map User.username (adjust i f us) = map User.username us.
Proof.
  unfold adjust. rewrite map_map. apply map_ext. intro x.
  now destruct (User.id x =? i)%Z.
Qed.

Lemma reassign_ids (i : Z) (a : option Z) (ks : list Task.t) :
  map Task.id (reassign i a ks) = map Task.id ks.
Proof.
  unfold reassign. rewrite map_map. apply map_ext. intro x.
  now destruct (Task.id x =? i)%Z.
Qed.

Lemma adjust_total (i : Z) (f : Q -> Q) (us : list User.t) (u0 : User.t) :
  NoDup (map User.id us) ->
  find (fun u => (User.id u =? i)%Z) us = Some u0 ->
  Py.sumQ (map User.current_workload (adjust i f us))
  == Py.sumQ (map User.current_workload us)
     - User.current_workload u0 + f (User.current_workload u0).
Proof.
  induction us as [|x us IH]; intros Hnd Hf; [discriminate|].
  simpl in Hnd. inversion Hnd as [|? ? Hx Hnd']; subst.
  simpl in Hf |- *. rewrite !sumQ_cons.
  destruct (User.id x =? i)%Z eqn:E.
  - injection Hf as <-. simpl.
    assert (Hrest : adjust i f us = us).
    { unfold adjust. rewrite <- (map_id us) at 2. apply map_ext_in.
      intros y Hy. destruct (User.id y =? i)%Z eqn:Ey; [|reflexivity].
      exfalso. apply Hx. apply Z.eqb_eq in E, Ey. rewrite E, <- Ey.
      now apply in_map. }
    rewrite Hrest. lra.
  - rewrite (IH Hnd' Hf). lra.
Qed.

Lemma adjust_total_absent (i : Z) (f : Q -> Q) (us : list User.t) :
  find (fun u => (User.id u =? i)%Z) us = None -> adjust i f us = us.
Proof.
  intro H. unfold adjust. rewrite <- (map_id us) at 2. apply map_ext_in.
  intros y Hy. destruct (User.id y =? i)%Z eqn:Ey; [|reflexivity].
  now rewrite (find_none _ _ H y Hy) in Ey.
Qed.

Lemma find_adjust (p : User.t -> bool) (i : Z) (f : Q -> Q) (us : list User.t) :
  (forall x w, p (User.set_current_workload x w) = p x) ->
  find p (adjust i f us)
  = option_map (fun x => if (User.id x =? i)%Z
                         then User.set_current_workload x
                                (f (User.current_workload x))
                         else x)
               (find p us).
Proof.
  intro H. unfold adjust. apply find_map_stable.
  intro x. destruct (User.id x =? i)%Z; [apply H|reflexivity].
Qed.

Lemma find_reassign (p : Task.t -> bool) (i : Z) (a : option Z)
    (ks : list Task.t) :
  (forall x v, p (Task.set_assigned_to x v) = p x) ->
  find p (reassign i a ks)
  = option_map (fun x => if (Task.id x =? i)%Z
                         then Task.set_assigned_to x a else x)
               (find p ks).
Proof.
  intro H. unfold reassign. apply find_map_stable.
  intro x. destruct (Task.id x =? i)%Z; [apply H|reflexivity].
Qed.

(** ** One iteration of the apply loop *)

Lemma find_by_id_In (us : list User.t) (u : User.t) :
  NoDup (map User.id us) -> In u us ->
  find (fun x => (User.id x =? User.id u)%Z) us = Some u.
Proof.
  intros Hnd Hin.
  destruct (find (fun x => (User.id x =? User.id u)%Z) us) as [u'|] eqn:E.
  - apply find_some in E. destruct E as [Hin' He]. apply Z.eqb_eq in He.
    now rewrite (NoDup_map_inj User.id us u' u Hnd Hin' Hin He).
  - exfalso. pose proof (find_none _ _ E u Hin) as H. simpl in H.
    now rewrite Z.eqb_refl in H.
Qed.

Lemma update_user_adjust (db : DB.t) (u0 : User.t) (g : Q -> Q) :
  NoDup (map User.id (DB.users db)) -> In u0 (DB.users db) ->
  DB.update_user db (User.set_current_workload u0 (g (User.current_workload u0)))
  = DB.mk (adjust (User.id u0) g (DB.users db)) (DB.tasks db) (DB.skills db)
      (DB.user_skills db) (DB.wellbeing_checks db).
Proof.
  intros Hnd Hin. unfold DB.update_user. f_equal.
  unfold adjust. apply map_ext_in. intros x Hx. simpl.
  destruct (User.id x =? User.id u0)%Z eqn:E; [|reflexivity].
  apply Z.eqb_eq in E.
  now rewrite (NoDup_map_inj User.id _ x u0 Hnd Hx Hin E).
Qed.

Lemma update_task_reassign (db : DB.t) (k0 : Task.t) (a : option Z) :
  NoDup (map Task.id (DB.tasks db)) -> In k0 (DB.tasks db) ->
  DB.update_task db (Task.set_assigned_to k0 a)
  = DB.mk (DB.users db) (reassign (Task.id k0) a (DB.tasks db)) (DB.skills db)
      (DB.user_skills db) (DB.wellbeing_checks db).
Proof.
  intros Hnd Hin. unfold DB.update_task. f_equal.
  now apply tasks_update_pointwise.
Qed.

Lemma apply_move_effect (db : DB.t) (m : Distribution.Move) :
  well_formed db -> Distribution.apply_move db m = move_effect db m.
Proof.
  intros (Hu & _ & Hk).
  unfold Distribution.apply_move, move_effect.
  destruct (DB.task_by_id db (Distribution.task_id m)) as [k|] eqn:Ek;
    [|reflexivity].
  destruct (DB.user_by_username db (Distribution.from_user m)) as [old|] eqn:Eo;
    [|reflexivity].
  destruct (DB.user_by_json_id db (Distribution.to_user_id m)) as [new|] eqn:En;
    [|reflexivity].
  apply find_some in Ek. destruct Ek as [Hkin _].
  apply find_some in Eo. destruct Eo as [Hoin _].
  assert (Hnin : In new (DB.users db)).
  { unfold DB.user_by_json_id in En.
    destruct (Distribution.to_user_id m); try discriminate.
    apply find_some in En. tauto. }
  rewrite (update_task_reassign db k _ Hk Hkin).
  destruct (Task.estimated_hours k) as [h|] eqn:Eh; [|reflexivity].
  destruct (Py.truthy_float (Some h)); [|reflexivity].
  set (db1 := DB.mk (DB.users db) _ _ _ _).
  rewrite (update_user_adjust db1 old (fun l => l - h) Hu Hoin).
  set (db2 := DB.mk (adjust (User.id old) _ _) _ _ _ _).
  assert (Hu2 : NoDup (map User.id (DB.users db2))).
  { simpl. now rewrite adjust_ids. }
  destruct (DB.user_by_id db2 (User.id new)) as [new'|] eqn:En'.
  - pose proof En' as Hfind.
    apply find_some in En'. destruct En' as [Hin' Hid']. apply Z.eqb_eq in Hid'.
    rewrite (update_user_adjust db2 new' (fun l => l + h) Hu2 Hin').
    rewrite Hid'. reflexivity.
  - exfalso. unfold DB.user_by_id, DB.first in En'. simpl in En'.
    rewrite find_adjust in En' by reflexivity.
    now rewrite (find_by_id_In _ new Hu Hnin) in En'.
Qed.

Lemma Forall2_map_r {A} (R : A -> A -> Prop) (g : A -> A) (l : list A) :
  (forall x, R x (g x)) -> Forall2 R l (map g l).
Proof.
  intro H. induction l; simpl; constructor; auto.
Qed.

Lemma same_user_refl (u : User.t) : same_user u u.
Proof. repeat split. Qed.

Lemma same_task_refl (k : Task.t) : same_task k k.
Proof. repeat split. Qed.

Lemma Forall2_refl {A} (R : A -> A -> Prop) (l : list A) :
  (forall x, R x x) -> Forall2 R l l.
Proof. intro H. induction l; constructor; auto. Qed.

Lemma adjust_same_rows (i : Z) (f : Q -> Q) (us : list User.t) :
  Forall2 same_user us (adjust i f us).
Proof.
  apply Forall2_map_r. intro x.
  destruct (User.id x =? i)%Z; repeat split.
Qed.

Lemma reassign_same_rows (i : Z) (a : option Z) (ks : list Task.t) :
  Forall2 same_task ks (reassign i a ks).
Proof.
  apply Forall2_map_r. intro x.
  destruct (Task.id x =? i)%Z; repeat split.
Qed.

Lemma Forall2_trans {A} (R : A -> A -> Prop) (l1 l2 l3 : list A) :
  (forall x y z, R x y -> R y z -> R x z) ->
  Forall2 R l1 l2 -> Forall2 R l2 l3 -> Forall2 R l1 l3.
Proof.
  intros Ht H12. revert l3.
  induction H12; intros l3 H23; inversion H23; subst; constructor; eauto.
Qed.

Lemma same_user_trans (x y z : User.t) :
  same_user x y -> same_user y z -> same_user x z.
Proof. unfold same_user. intuition congruence. Qed.

Lemma same_task_trans (x y z : Task.t) :
  same_task x y -> same_task y z -> same_task x z.
Proof. unfold same_task. intuition congruence. Qed.

Lemma same_rows_refl (db : DB.t) : same_rows db db.
Proof.
  split; apply Forall2_refl; [apply same_user_refl|apply same_task_refl].
Qed.

Lemma same_rows_trans (a b c : DB.t) :
  same_rows a b -> same_rows b c -> same_rows a c.
Proof.
  intros [Hu1 Hk1] [Hu2 Hk2]. split.
  - eapply Forall2_trans; eauto using same_user_trans.
  - eapply Forall2_trans; eauto using same_task_trans.
Qed.

Lemma move_effect_same_rows (db : DB.t) (m : Distribution.Move) :
  same_rows db (move_effect db m).
Proof.
  unfold move_effect.
  destruct (DB.task_by_id db _) as [k|]; [|apply same_rows_refl].
  destruct (DB.user_by_username db _) as [old|]; [|apply same_rows_refl].
  destruct (DB.user_by_json_id db _) as [new|]; [|apply same_rows_refl].
  destruct (Task.estimated_hours k) as [h|];
    [destruct (Py.truthy_float (Some h))|];
    (split; cbn [DB.users DB.tasks]; [|apply reassign_same_rows]);
    try apply Forall2_refl, same_user_refl.
  eapply Forall2_trans; [exact same_user_trans| |]; apply adjust_same_rows.
Qed.

Lemma Forall2_map_eq {A B} (R : A -> A -> Prop) (f : A -> B) (l l' : list A) :
  (forall x y, R x y -> f y = f x) -> Forall2 R l l' -> map f l' = map f l.
Proof.
  intros H HF. induction HF; simpl; [reflexivity|].
  f_equal; auto.
Qed.

Lemma same_rows_well_formed (db db' : DB.t) :
  same_rows db db' -> well_formed db -> well_formed db'.
Proof.
  intros [Hu Hk] (H1 & H2 & H3). unfold well_formed.
  rewrite (Forall2_map_eq same_user User.id _ _ (fun x y H => proj1 H) Hu).
  rewrite (Forall2_map_eq same_user User.username _ _
             (fun x y H => proj1 (proj2 H)) Hu).
  rewrite (Forall2_map_eq same_task Task.id _ _ (fun x y H => proj1 H) Hk).
  auto.
Qed.

(** Look-ups by a key find corresponding rows in corresponding states. *)
Lemma Forall2_find {A} (R : A -> A -> Prop) (p : A -> bool) (l l' : list A) :
  (forall x y, R x y -> p y = p x) -> Forall2 R l l' ->
  match find p l, find p l' with
  | Some x, Some y => R x y
  | None, None => True
  | _, _ => False
  end.
Proof.
  intros H HF. induction HF as [|x y l l' Hxy HF IH]; simpl; [exact I|].
  rewrite (H x y Hxy). destruct (p x); [exact Hxy|exact IH].
Qed.

Lemma same_rows_task_by_id (db db' : DB.t) (t : Z) :
  same_rows db db' ->
  match DB.task_by_id db t, DB.task_by_id db' t with
  | Some x, Some y => same_task x y
  | None, None => True
  | _, _ => False
  end.
Proof.
  intros [_ Hk]. apply Forall2_find; [|exact Hk].
  intros x y (Hid & _). now rewrite Hid.
Qed.

Lemma same_rows_user_by_id (db db' : DB.t) (i : Z) :
  same_rows db db' ->
  match DB.user_by_id db i, DB.user_by_id db' i with
  | Some x, Some y => same_user x y
  | None, None => True
  | _, _ => False
  end.
Proof.
  intros [Hu _]. apply Forall2_find; [|exact Hu].
  intros x y (Hid & _). now rewrite Hid.
Qed.

Lemma same_rows_user_by_username (db db' : DB.t) (n : string) :
  same_rows db db' ->
  match DB.user_by_username db n, DB.user_by_username db' n with
  | Some x, Some y => same_user x y
  | None, None => True
  | _, _ => False
  end.
Proof.
  intros [Hu _]. apply Forall2_find; [|exact Hu].
  intros x y (_ & Hn & _). now rewrite Hn.
Qed.

Lemma same_rows_user_by_json_id (db db' : DB.t) (v : Json.value) :
  same_rows db db' ->
  match DB.user_by_json_id db v, DB.user_by_json_id db' v with
  | Some x, Some y => same_user x y
  | None, None => True
  | _, _ => False
  end.
Proof.
  intros [Hu _]. unfold DB.user_by_json_id.
  destruct v; try exact I.
  apply Forall2_find; [|exact Hu].
  intros x y (Hid & _). now rewrite Hid.
Qed.

Lemma move_effect_total (db : DB.t) (m : Distribution.Move) :
  well_formed db -> total_load (move_effect db m) == total_load db.
Proof.
  intros (Hu & _ & _). unfold move_effect.
  destruct (DB.task_by_id db _) as [k|]; [|reflexivity].
  destruct (DB.user_by_username db _) as [old|] eqn:Eo; [|reflexivity].
  destruct (DB.user_by_json_id db _) as [new|] eqn:En; [|reflexivity].
  unfold total_load. cbn [DB.users].
  destruct (Task.estimated_hours k) as [h|]; [|reflexivity].
  destruct (Py.truthy_float (Some h)); [|reflexivity].
  apply find_some in Eo. destruct Eo as [Hoin _].
  assert (Hnin : In new (DB.users db)).
  { unfold DB.user_by_json_id in En.
    destruct (Distribution.to_user_id m); try discriminate.
    apply find_some in En. tauto. }
  pose proof (find_by_id_In _ old Hu Hoin) as Hfo.
  pose proof (find_by_id_In _ new Hu Hnin) as Hfn.
  set (us2 := adjust (User.id old) (fun l => l - h) (DB.users db)).
  assert (Hfn2 : find (fun x => (User.id x =? User.id new)%Z) us2
                 = Some (if (User.id new =? User.id old)%Z
                         then User.set_current_workload new
                                (User.current_workload new - h)
                         else new)).
  { unfold us2. rewrite find_adjust by reflexivity. now rewrite Hfn. }
  rewrite (adjust_total (User.id new) _ us2 _
             ltac:(unfold us2; now rewrite adjust_ids) Hfn2).
  unfold us2. rewrite (adjust_total (User.id old) _ _ old Hu Hfo).
  destruct (User.id new =? User.id old)%Z; simpl; lra.
Qed.

(** ** The apply loop as a whole *)

Lemma fold_apply_effect (ms : list Distribution.Move) (db : DB.t) :
  well_formed db ->
  fold_left Distribution.apply_move ms db = fold_left move_effect ms db.
Proof.
  revert db. induction ms as [|m ms IH]; intros db Hwf; simpl; [reflexivity|].
  rewrite (apply_move_effect db m Hwf). apply IH.
  apply (same_rows_well_formed db); [apply move_effect_same_rows|exact Hwf].
Qed.

Lemma fold_same_rows (ms : list Distribution.Move) (db : DB.t) :
  same_rows db (fold_left move_effect ms db).
Proof.
  revert db. induction ms as [|m ms IH]; intro db; simpl;
    [apply same_rows_refl|].
  eapply same_rows_trans; [apply move_effect_same_rows|apply IH].
Qed.

Lemma fold_total (ms : list Distribution.Move) (db : DB.t) :
  well_formed db -> total_load (fold_left move_effect ms db) == total_load db.
Proof.
  revert db. induction ms as [|m ms IH]; intros db Hwf; simpl; [reflexivity|].
  rewrite IH.
  - now apply move_effect_total.
  - apply (same_rows_well_formed db); [apply move_effect_same_rows|exact Hwf].
Qed.

(** *** Stability of the guard and of the hours across states *)

Lemma hours_of_same (k k' : Task.t) : same_task k k' -> hours_of k' = hours_of k.
Proof. intros (_ & H & _). unfold hours_of. now rewrite H. Qed.

Lemma applied_same (db db' : DB.t) (m : Distribution.Move) :
  same_rows db db' -> applied db' m = applied db m.
Proof.
  intro H. unfold applied.
  pose proof (same_rows_task_by_id db db' (Distribution.task_id m) H) as Hk.
  pose proof (same_rows_user_by_username db db' (Distribution.from_user m) H)
    as Ho.
  pose proof (same_rows_user_by_json_id db db' (Distribution.to_user_id m) H)
    as Hn.
  destruct (DB.task_by_id db _), (DB.task_by_id db' _); try contradiction;
    destruct (DB.user_by_username db _), (DB.user_by_username db' _);
    try contradiction;
    destruct (DB.user_by_json_id db _), (DB.user_by_json_id db' _);
    try contradiction; reflexivity.
Qed.

Lemma move_hours_same (db db' : DB.t) (m : Distribution.Move) :
  same_rows db db' -> move_hours db' m = move_hours db m.
Proof.
  intro H. unfold move_hours.
  pose proof (same_rows_task_by_id db db' (Distribution.task_id m) H) as Hk.
  destruct (DB.task_by_id db _), (DB.task_by_id db' _); try contradiction;
    [now apply hours_of_same|reflexivity].
Qed.

Lemma moves_from_same (db db' : DB.t) (u u' : User.t) (m : Distribution.Move) :
  same_rows db db' -> same_user u u' ->
  moves_from db' u' m = moves_from db u m.
Proof.
  intros H (_ & Hn & _). unfold moves_from.
  now rewrite (applied_same db db' m H), Hn.
Qed.

Lemma moves_to_same (db db' : DB.t) (u u' : User.t) (m : Distribution.Move) :
  same_rows db db' -> same_user u u' ->
  moves_to db' u' m = moves_to db u m.
Proof.
  intros H (Hi & _). unfold moves_to.
  rewrite (applied_same db db' m H), Hi.
  pose proof (same_rows_user_by_json_id db db' (Distribution.to_user_id m) H)
    as Hn.
  destruct (DB.user_by_json_id db _) as [x|],
           (DB.user_by_json_id db' _) as [y|]; try contradiction;
    [|reflexivity].
  destruct Hn as (Hid & _). now rewrite Hid.
Qed.

Lemma outflow_same (db db' : DB.t) (u u' : User.t)
    (ms : list Distribution.Move) :
  same_rows db db' -> same_user u u' -> outflow db' ms u' = outflow db ms u.
Proof.
  intros H Hu. unfold outflow. f_equal.
  rewrite (filter_ext _ _ (fun m => moves_from_same db db' u u' m H Hu)).
  apply map_ext. intro m. now apply move_hours_same.
Qed.

Lemma inflow_same (db db' : DB.t) (u u' : User.t)
    (ms : list Distribution.Move) :
  same_rows db db' -> same_user u u' -> inflow db' ms u' = inflow db ms u.
Proof.
  intros H Hu. unfold inflow. f_equal.
  rewrite (filter_ext _ _ (fun m => moves_to_same db db' u u' m H Hu)).
  apply map_ext. intro m. now apply move_hours_same.
Qed.

Lemma outflow_cons (db : DB.t) (u : User.t) (m : Distribution.Move)
    (ms : list Distribution.Move) :
  outflow db (m :: ms) u == out_of db u m + outflow db ms u.
Proof.
  unfold outflow, out_of. simpl.
  destruct (moves_from db u m); simpl; [apply sumQ_cons|lra].
Qed.

Lemma inflow_cons (db : DB.t) (u : User.t) (m : Distribution.Move)
    (ms : list Distribution.Move) :
  inflow db (m :: ms) u == in_to db u m + inflow db ms u.
Proof.
  unfold inflow, in_to. simpl.
  destruct (moves_to db u m); simpl; [apply sumQ_cons|lra].
Qed.

(** *** The load of one person across one move *)

Lemma username_eqb_id_eqb (us : list User.t) (a b : User.t) :
  NoDup (map User.id us) -> NoDup (map User.username us) ->
  In a us -> In b us ->
  String.eqb (User.username a) (User.username b) = (User.id b =? User.id a)%Z.
Proof.
  intros Hi Hn Ha Hb.
  destruct (String.eqb (User.username a) (User.username b)) eqn:E1;
    destruct (User.id b =? User.id a)%Z eqn:E2; try reflexivity; exfalso.
  - apply String.eqb_eq in E1.
    rewrite (NoDup_map_inj User.username us a b Hn Ha Hb E1) in E2.
    now rewrite Z.eqb_refl in E2.
  - apply Z.eqb_eq in E2.
    rewrite (NoDup_map_inj User.id us b a Hi Hb Ha E2) in E1.
    now rewrite String.eqb_refl in E1.
Qed.

Lemma json_id_found (db : DB.t) (v : Json.value) (new : User.t) :
  DB.user_by_json_id db v = Some new ->
  In new (DB.users db) /\
  exists q, v = Json.JNum q /\ Qeq_bool (inject_Z (User.id new)) q = true.
Proof.
  unfold DB.user_by_json_id. destruct v; try discriminate.
  intro H. apply find_some in H. destruct H as [Hin Hq].
  split; [exact Hin|]. now exists q.
Qed.

Lemma move_effect_load (db : DB.t) (m : Distribution.Move) (u : User.t) :
  well_formed db -> In u (DB.users db) ->
  exists u1,
    DB.user_by_id (move_effect db m) (User.id u) = Some u1 /\
    same_user u u1 /\
    User.current_workload u1
    == User.current_workload u - out_of db u m + in_to db u m.
Proof.
  intros (Hi & Hn & Hk) Hin.
  pose proof (find_by_id_In _ u Hi Hin) as Hfu.
  unfold out_of, in_to, moves_from, moves_to, move_hours, applied, move_effect.
  destruct (DB.task_by_id db _) as [k|] eqn:Ek;
    [|exists u; repeat split; [exact Hfu|simpl; lra]].
  destruct (DB.user_by_username db _) as [old|] eqn:Eo;
    [|exists u; repeat split; [exact Hfu|simpl; lra]].
  destruct (DB.user_by_json_id db _) as [new|] eqn:En;
    [|exists u; repeat split; [exact Hfu|simpl; lra]].
  cbn [andb].
  apply find_some in Eo. destruct Eo as [Hoin Ho]. apply String.eqb_eq in Ho.
  destruct (json_id_found db _ new En) as (Hnin & _).
  rewrite <- Ho, (username_eqb_id_eqb _ old u Hi Hn Hoin Hin).
  unfold hours_of, DB.user_by_id, DB.first. cbn [DB.users].
  destruct (Task.estimated_hours k) as [h|];
    [|exists u; repeat split; [exact Hfu|];
      destruct (User.id u =? User.id old)%Z, (User.id new =? User.id u)%Z; lra].
  destruct (Py.truthy_float (Some h));
    [|exists u; repeat split; [exact Hfu|];
      destruct (User.id u =? User.id old)%Z, (User.id new =? User.id u)%Z; lra].
  rewrite !find_adjust by reflexivity. rewrite Hfu. cbn [option_map].
  eexists. split; [reflexivity|].
  rewrite (Z.eqb_sym (User.id new) (User.id u)).
  destruct (User.id u =? User.id old)%Z; cbn;
    destruct (User.id u =? User.id new)%Z; cbn;
    (split; [repeat split|lra]).
Qed.

Lemma fold_loads (ms : list Distribution.Move) (db : DB.t) (u : User.t) :
  well_formed db -> In u (DB.users db) ->
  exists u',
    DB.user_by_id (fold_left move_effect ms db) (User.id u) = Some u' /\
    same_user u u' /\
    User.current_workload u'
    == User.current_workload u - outflow db ms u + inflow db ms u.
Proof.
  revert db u. induction ms as [|m ms IH]; intros db u Hwf Hin.
  - exists u. simpl. split.
    + destruct Hwf as (Hi & _). apply (find_by_id_In _ u Hi Hin).
    + split; [apply same_user_refl|]. unfold outflow, inflow. simpl.
      rewrite sumQ_nil. lra.
  - simpl.
    destruct (move_effect_load db m u Hwf Hin) as (u1 & Hf1 & Hs1 & Hl1).
    pose proof (move_effect_same_rows db m) as Hrows.
    assert (Hwf1 : well_formed (move_effect db m))
      by (apply (same_rows_well_formed db); assumption).
    assert (Hin1 : In u1 (DB.users (move_effect db m))).
    { apply find_some in Hf1. tauto. }
    destruct (IH (move_effect db m) u1 Hwf1 Hin1) as (u' & Hf' & Hs' & Hl').
    exists u'. split.
    + destruct Hs1 as (Hid & _). now rewrite <- Hid.
    + split; [eapply same_user_trans; eauto|].
      rewrite Hl', Hl1.
      rewrite (outflow_same db _ u u1 ms Hrows Hs1).
      rewrite (inflow_same db _ u u1 ms Hrows Hs1).
      rewrite outflow_cons, inflow_cons. lra.
Qed.

(** *** Counting the reassigned items *)

Lemma opt_Z_eqb_refl (a : option Z) : opt_Z_eqb a a = true.
Proof. destruct a; simpl; [apply Z.eqb_refl|reflexivity]. Qed.

Lemma opt_Z_eqb_neq (a b : option Z) : a <> b -> opt_Z_eqb a b = false.
Proof.
  destruct a as [x|], b as [y|]; simpl; intro H; try reflexivity.
  - apply Z.eqb_neq. congruence.
  - congruence.
Qed.

Lemma changes_refl (l : list Task.t) : changes l l = 0%nat.
Proof.
  unfold changes. induction l as [|k l IH]; simpl; [reflexivity|].
  now rewrite opt_Z_eqb_refl.
Qed.

Lemma changes_cons (k k' : Task.t) (l l' : list Task.t) :
  changes (k :: l) (k' :: l')
  = ((if opt_Z_eqb (Task.assigned_to k) (Task.assigned_to k') then 0 else 1)
     + changes l l')%nat.
Proof.
  unfold changes. simpl.
  now destruct (opt_Z_eqb (Task.assigned_to k) (Task.assigned_to k')).
Qed.

Lemma reassign_absent (i : Z) (a : option Z) (ks : list Task.t) :
  ~ In i (map Task.id ks) -> reassign i a ks = ks.
Proof.
  intro H. unfold reassign. rewrite <- (map_id ks) at 2. apply map_ext_in.
  intros x Hx. destruct (Task.id x =? i)%Z eqn:E; [|reflexivity].
  exfalso. apply H. apply Z.eqb_eq in E. rewrite <- E. now apply in_map.
Qed.

Lemma changes_after_reassign (i d : Z) (l0 lX : list Task.t) :
  NoDup (map Task.id l0) ->
  (forall k, In k l0 -> Task.id k = i -> Task.assigned_to k <> Some d) ->
  Forall2 (fun k1 k' => Task.id k1 = i -> k' = k1)
          (reassign i (Some d) l0) lX ->
  changes l0 lX
  = (changes (reassign i (Some d) l0) lX
     + if existsb (fun k => (Task.id k =? i)%Z) l0 then 1 else 0)%nat.
Proof.
  revert lX. induction l0 as [|k l0 IH]; intros lX Hnd Hne HF.
  - simpl in HF. inversion HF. subst. reflexivity.
  - simpl in Hnd. inversion Hnd as [|? ? Hk Hnd']; subst.
    cbn [reassign map] in HF |- *. fold (reassign i (Some d) l0) in HF |- *.
    cbn [existsb].
    destruct (Task.id k =? i)%Z eqn:E.
    + apply Z.eqb_eq in E.
      assert (Hab : reassign i (Some d) l0 = l0)
        by (apply reassign_absent; now rewrite <- E).
      rewrite Hab in HF |- *.
      inversion HF as [|k1 k' l1 lX' Hhead Htail]; subst k1 l1 lX.
      rewrite (Hhead E), !changes_cons, opt_Z_eqb_refl.
      cbn [Task.assigned_to Task.set_assigned_to].
      rewrite (opt_Z_eqb_neq _ _ (Hne k (or_introl eq_refl) E)).
      cbn [orb]. lia.
    + inversion HF as [|k1 k' l1 lX' Hhead Htail]; subst k1 l1 lX.
      rewrite !changes_cons. cbn [orb].
      rewrite (IH lX' Hnd'); [lia| |exact Htail].
      intros k0 Hk0. apply Hne. now right.
Qed.

Lemma Forall2_compose {A} (R S T : A -> A -> Prop) (l1 l2 l3 : list A) :
  (forall x y z, R x y -> S y z -> T x z) ->
  Forall2 R l1 l2 -> Forall2 S l2 l3 -> Forall2 T l1 l3.
Proof.
  intros Ht H12. revert l3.
  induction H12; intros l3 H23; inversion H23; subst; constructor; eauto.
Qed.

Lemma move_effect_untouched (db : DB.t) (m : Distribution.Move) :
  Forall2 (fun k k1 => Task.id k1 = Task.id k /\
                       (Task.id k <> Distribution.task_id m -> k1 = k))
          (DB.tasks db) (DB.tasks (move_effect db m)).
Proof.
  unfold move_effect.
  destruct (DB.task_by_id db _) as [k|] eqn:Ek;
    [|apply Forall2_refl; auto].
  destruct (DB.user_by_username db _) as [old|];
    [|apply Forall2_refl; auto].
  destruct (DB.user_by_json_id db _) as [new|];
    [|apply Forall2_refl; auto].
  cbn [DB.tasks]. apply Forall2_map_r. intro x.
  apply find_some in Ek. destruct Ek as [_ Ek]. apply Z.eqb_eq in Ek.
  rewrite Ek.
  destruct (Task.id x =? Distribution.task_id m)%Z eqn:E.
  - apply Z.eqb_eq in E. split; [reflexivity|congruence].
  - split; reflexivity.
Qed.

Lemma fold_untouched (ms : list Distribution.Move) (db : DB.t) :
  Forall2 (fun k k' => Task.id k' = Task.id k /\
                       (~ In (Task.id k) (map Distribution.task_id ms) ->
                        k' = k))
          (DB.tasks db) (DB.tasks (fold_left move_effect ms db)).
Proof.
  revert db. induction ms as [|m ms IH]; intro db; simpl.
  - apply Forall2_refl. auto.
  - eapply Forall2_compose;
      [|apply (move_effect_untouched db m)|apply (IH (move_effect db m))].
    intros x y z (Hid1 & H1) (Hid2 & H2). split; [congruence|].
    intro Hn.
    assert (Hy : y = x).
    { apply H1. intro E. apply Hn. left. now symmetry. }
    subst y. apply H2. intro Hin. apply Hn. now right.
Qed.

Lemma find_task_by_id_In (ks : list Task.t) (k : Task.t) :
  NoDup (map Task.id ks) -> In k ks ->
  find (fun x => (Task.id x =? Task.id k)%Z) ks = Some k.
Proof.
  intros Hnd Hin.
  destruct (find (fun x => (Task.id x =? Task.id k)%Z) ks) as [k'|] eqn:E.
  - apply find_some in E. destruct E as [Hin' He]. apply Z.eqb_eq in He.
    now rewrite (NoDup_map_inj Task.id ks k' k Hnd Hin' Hin He).
  - exfalso. pose proof (find_none _ _ E k Hin) as H. simpl in H.
    now rewrite Z.eqb_refl in H.
Qed.

Lemma effective_step (db : DB.t) (m : Distribution.Move)
    (ms : list Distribution.Move) :
  effective db (m :: ms) -> effective (move_effect db m) ms.
Proof.
  intros [Hnd H]. simpl in Hnd. inversion Hnd as [|? ? Hm Hnd']; subst.
  split; [exact Hnd'|].
  intros m' k1 new1 Hin Hk1 Hn1.
  pose proof (move_effect_same_rows db m) as Hrows.
  pose proof (same_rows_user_by_json_id db _ (Distribution.to_user_id m') Hrows)
    as Hj.
  rewrite Hn1 in Hj.
  destruct (DB.user_by_json_id db (Distribution.to_user_id m')) as [new|] eqn:En;
    [|contradiction].
  destruct Hj as (Hid & _). rewrite Hid.
  assert (Hneq : Distribution.task_id m' <> Distribution.task_id m).
  { intro E. apply Hm. rewrite <- E. now apply in_map. }
  assert (Hk : DB.task_by_id db (Distribution.task_id m') = Some k1).
  { revert Hk1. unfold move_effect.
    destruct (DB.task_by_id db (Distribution.task_id m)) as [k|] eqn:Ek; auto.
    destruct (DB.user_by_username db _) as [old|]; auto.
    destruct (DB.user_by_json_id db (Distribution.to_user_id m)) as [nw|]; auto.
    unfold DB.task_by_id, DB.first. cbn [DB.tasks].
    rewrite find_reassign by reflexivity.
    destruct (find _ (DB.tasks db)) as [x|] eqn:Ex; [|discriminate].
    cbn [option_map].
    apply find_some in Ex. destruct Ex as [_ Ex]. apply Z.eqb_eq in Ex.
    apply find_some in Ek. destruct Ek as [_ Ek]. apply Z.eqb_eq in Ek.
    destruct (Task.id x =? Task.id k)%Z eqn:E; [|auto].
    apply Z.eqb_eq in E. congruence. }
  apply (H m' k1 new); auto. now right.
Qed.

Lemma move_effect_not_applied (db : DB.t) (m : Distribution.Move) :
  applied db m = false -> move_effect db m = db.
Proof.
  unfold applied, move_effect.
  destruct (DB.task_by_id db _); [|reflexivity].
  destruct (DB.user_by_username db _); [|reflexivity].
  destruct (DB.user_by_json_id db _); [discriminate|reflexivity].
Qed.

Lemma move_effect_applied (db : DB.t) (m : Distribution.Move) :
  applied db m = true ->
  exists k old new,
    DB.task_by_id db (Distribution.task_id m) = Some k /\
    DB.user_by_username db (Distribution.from_user m) = Some old /\
    DB.user_by_json_id db (Distribution.to_user_id m) = Some new /\
    DB.tasks (move_effect db m)
    = reassign (Task.id k) (Some (User.id new)) (DB.tasks db).
Proof.
  unfold applied, move_effect.
  destruct (DB.task_by_id db _) as [k|]; [|discriminate].
  destruct (DB.user_by_username db _) as [old|]; [|discriminate].
  destruct (DB.user_by_json_id db _) as [new|]; [|discriminate].
  intros _. exists k, old, new. repeat split.
Qed.

Lemma fold_count (ms : list Distribution.Move) (db : DB.t) :
  well_formed db -> effective db ms ->
  changes (DB.tasks db) (DB.tasks (fold_left move_effect ms db))
  = List.length (filter (applied db) ms).
Proof.
  revert db. induction ms as [|m ms IH]; intros db Hwf Heff.
  - simpl. apply changes_refl.
  - pose proof (move_effect_same_rows db m) as Hrows.
    assert (Hwf1 : well_formed (move_effect db m))
      by (apply (same_rows_well_formed db); assumption).
    pose proof (IH _ Hwf1 (effective_step db m ms Heff)) as Hcount.
    rewrite (filter_ext _ _ (fun m' => applied_same db _ m' Hrows)) in Hcount.
    cbn [fold_left filter].
    destruct (applied db m) eqn:Ea.
    + destruct (move_effect_applied db m Ea)
        as (k & old & new & Ek & Eo & En & Htasks).
      destruct Heff as [Hnd Hne]. simpl in Hnd.
      inversion Hnd as [|? ? Hm _]; subst.
      pose proof (fold_untouched ms (move_effect db m)) as Hun.
      rewrite Htasks in Hcount, Hun.
      cbn [List.length]. rewrite <- Hcount.
      apply find_some in Ek. destruct Ek as [Hkin Hkid].
      apply Z.eqb_eq in Hkid.
      pose proof Hwf as (_ & _ & Hk).
      rewrite (changes_after_reassign (Task.id k) (User.id new)
                 (DB.tasks db) _ Hk).
      * replace (existsb (fun k0 => (Task.id k0 =? Task.id k)%Z) (DB.tasks db))
          with true; [lia|].
        symmetry. apply existsb_exists. exists k. split; [exact Hkin|].
        apply Z.eqb_refl.
      * intros k0 Hk0 Hid.
        rewrite (NoDup_map_inj Task.id _ k0 k Hk Hk0 Hkin Hid).
        apply (Hne m k new); auto; [now left|].
        unfold DB.task_by_id, DB.first. rewrite <- Hkid.
        now apply find_task_by_id_In.
      * eapply Forall2_impl; [|exact Hun].
        intros a b (_ & H) Ha. apply H. rewrite Ha, Hkid. exact Hm.
    + rewrite (move_effect_not_applied db m Ea) in *. exact Hcount.
Qed.

(** *** The moves a rebalance run proposes *)

Lemma filter_keeps_distinct_keys {Row Key} (key : Row -> Key)
    (keep : Row -> bool) (rows : list Row) :
  NoDup (map key rows) -> NoDup (map key (filter keep rows)).
Proof.
  induction rows as [|r rows IH]; simpl; intro H; [constructor|].
  inversion H as [|? ? Hr Hnd]; subst.
  destruct (keep r); simpl; [|now apply IH].
  constructor; [|now apply IH].
  intro Hin. apply Hr. apply in_map_iff in Hin.
  destruct Hin as (y & Hy & Hin). apply filter_In in Hin.
  rewrite <- Hy. apply in_map. tauto.
Qed.

Lemma NoDup_map_firstn {A B} (f : A -> B) (n : nat) (l : list A) :
  NoDup (map f l) -> NoDup (map f (firstn n l)).
Proof.
  intro H. rewrite <- (firstn_skipn n l), map_app in H.
  now apply NoDup_app_remove_r in H.
Qed.

Lemma considered_tasks_NoDup (db : DB.t) (user : User.t) :
  well_formed db ->
  NoDup (map Task.id (Distribution.considered_tasks db user)).
Proof.
  intros (_ & _ & Hk). unfold Distribution.considered_tasks.
  apply NoDup_map_firstn. unfold Distribution.pending_tasks.
  eapply Permutation_NoDup.
  - apply Permutation_map. symmetry. apply sort_desc_perm.
  - now apply filter_keeps_distinct_keys.
Qed.

Section GeneratedMoves.

Variable generate_content : Gemini.Prompt -> option string.
Variable json_loads : string -> Json.outcome.
Variable round1 : Q -> Q.

Lemma moves_of_tasks_ids (db : DB.t) (team_id : Z) (user : User.t)
    (tasks : list Task.t) (ms : list Distribution.Move) :
  Distribution.moves_of_tasks generate_content json_loads round1
    db team_id user tasks = Some ms ->
  NoDup (map Task.id tasks) ->
  NoDup (map Distribution.task_id ms) /\
  forall m, In m ms -> In (Distribution.task_id m) (map Task.id tasks).
Proof.
  revert ms. induction tasks as [|k tasks IH]; intros ms H Hnd; simpl in H.
  - injection H as <-. split; [constructor|contradiction].
  - simpl in Hnd. inversion Hnd as [|? ? Hk Hnd']; subst.
    assert (Hrest : forall ms',
               Distribution.moves_of_tasks generate_content json_loads round1
                 db team_id user tasks = Some ms' ->
               NoDup (map Distribution.task_id ms') /\
               forall m, In m ms' ->
                 In (Distribution.task_id m) (map Task.id (k :: tasks))).
    { intros ms' H'. destruct (IH ms' H' Hnd') as [H1 H2].
      split; [exact H1|]. intros m Hm. right. now apply H2. }
    destruct (Json.contains _ "recommended_user_id") as [[|]|];
      [| |discriminate]; [|now apply Hrest].
    destruct (Distribution.recommend_assignee _ _ _ _ _ _);
      try discriminate.
    match type of H with
    | (if ?c then _ else _) = _ => destruct c
    end; [|now apply Hrest].
    destruct (Distribution.moves_of_tasks _ _ _ _ _ _ _) as [ms'|] eqn:E;
      [|discriminate].
    simpl in H. injection H as <-.
    destruct (IH ms' eq_refl Hnd') as [H1 H2].
    split.
    + simpl. constructor; [|exact H1].
      intro Hin. apply Hk. apply in_map_iff in Hin.
      destruct Hin as (m & Hm & Hin). rewrite <- Hm. now apply H2.
    + intros m [<-|Hm]; [now left|]. right. now apply H2.
Qed.

Lemma moves_of_users_effective (db : DB.t) (team_id : Z)
    (overloaded : list User.t) (ms : list Distribution.Move) :
  well_formed db ->
  NoDup (map User.id overloaded) ->
  (forall u, In u overloaded -> In u (DB.users db)) ->
  Distribution.moves_of_users generate_content json_loads round1
    db team_id overloaded = Some ms ->
  NoDup (map Distribution.task_id ms).
Proof.
  intros Hwf. revert ms.
  induction overloaded as [|u us IH]; intros ms Hnd Hsub H; simpl in H.
  - injection H as <-. constructor.
  - destruct (Distribution.moves_of_tasks _ _ _ _ _ u _) as [ms1|] eqn:E1;
      [|discriminate].
    destruct (Distribution.moves_of_users _ _ _ _ _ us) as [ms2|] eqn:E2;
      [|discriminate].
    simpl in H. injection H as <-.
    simpl in Hnd. inversion Hnd as [|? ? Hu Hnd']; subst.
    rewrite map_app. apply NoDup_app.
    + apply (moves_of_tasks_ids _ _ _ _ _ E1).
      now apply considered_tasks_NoDup.
    + apply IH; auto. intros v Hv. apply Hsub. now right.
    + intros tid H1 H2.
      apply in_map_iff in H1. destruct H1 as (m1 & Hid1 & Hm1).
      apply in_map_iff in H2. destruct H2 as (m2 & Hid2 & Hm2).
      destruct (moves_of_tasks_sound _ _ _ _ _ _ _ _ E1 m1 Hm1)
        as (k1 & Hk1 & Ht1 & _).
      destruct (moves_of_users_sound _ _ _ _ _ _ _ E2 m2 Hm2)
        as (u2 & Hu2 & k2 & Hk2 & Ht2 & _).
      apply In_firstn, pending_tasks_In in Hk1, Hk2.
      destruct Hk1 as (Hin1 & Ha1 & _), Hk2 as (Hin2 & Ha2 & _).
      destruct Hwf as (_ & _ & Hk).
      assert (Heq : k1 = k2).
      { apply (NoDup_map_inj Task.id _ k1 k2 Hk Hin1 Hin2). congruence. }
      subst k2. apply Hu. rewrite Ha1 in Ha2. injection Ha2 as ->.
      now apply in_map.
Qed.

Lemma generated_moves_effective (db : DB.t) (team_id : Z)
    (ms : list Distribution.Move) :
  well_formed db ->
  Distribution.moves_of_users generate_content json_loads round1 db team_id
    (filter User.is_overloaded (Distribution.team_members db team_id))
  = Some ms ->
  effective db ms /\
  forall m, In m ms ->
    applied db m = match DB.user_by_json_id db (Distribution.to_user_id m) with
                   | Some _ => true
                   | None => false
                   end.
Proof.
  intros Hwf H.
  assert (Hsub : forall u,
             In u (filter User.is_overloaded
                     (Distribution.team_members db team_id)) ->
             In u (DB.users db)).
  { intros u Hu. apply filter_In in Hu. destruct Hu as [Hu _].
    unfold Distribution.team_members in Hu. apply filter_In in Hu. tauto. }
  assert (Hfacts : forall m, In m ms ->
             exists user k,
               In user (DB.users db) /\
               DB.task_by_id db (Distribution.task_id m) = Some k /\
               Task.assigned_to k = Some (User.id user) /\
               Distribution.from_user m = User.username user /\
               Distribution.ne_int (Distribution.to_user_id m) (User.id user)
               = true).
  { intros m Hm.
    destruct (moves_of_users_sound _ _ _ _ _ _ _ H m Hm)
      as (user & Hu & k & Hk & Hid & _ & Hfrom & Hne).
    apply In_firstn, pending_tasks_In in Hk. destruct Hk as (Hin & Ha & _).
    exists user, k. repeat split; auto.
    unfold DB.task_by_id, DB.first. rewrite Hid.
    destruct Hwf as (_ & _ & Hnd). now apply find_task_by_id_In. }
  split; [split|].
  - apply (moves_of_users_effective db team_id
             (filter User.is_overloaded (Distribution.team_members db team_id))
             ms Hwf); auto.
    destruct Hwf as (Hi & _).
    unfold Distribution.team_members. now do 2 apply filter_keeps_distinct_keys.
  - intros m k new Hm Hk Hn.
    destruct (Hfacts m Hm) as (user & k' & _ & Hk' & Ha & _ & Hne).
    rewrite Hk in Hk'. injection Hk' as <-. rewrite Ha.
    destruct (json_id_found db _ new Hn) as (_ & q & Hq & Hnew).
    rewrite Hq in Hne. simpl in Hne.
    intro E. injection E as E. rewrite E in Hne.
    apply Qeq_bool_iff in Hnew.
    apply negb_true_iff in Hne.
    assert (Hqq : Qeq_bool q (inject_Z (User.id new)) = true).
    { apply Qeq_bool_iff. now symmetry. }
    congruence.
  - intros m Hm.
    destruct (Hfacts m Hm) as (user & k & Hu & Hk & _ & Hfrom & _).
    unfold applied. rewrite Hk, Hfrom.
    destruct (DB.user_by_username db (User.username user)) eqn:E;
      [reflexivity|].
    exfalso. pose proof (find_none _ _ E user Hu) as Hf. simpl in Hf.
    now rewrite String.eqb_refl in Hf.
Qed.

End GeneratedMoves.

Lemma untouched_find (T : list Z) (l l' : list Task.t) (t : Z) (k : Task.t) :
  Forall2 (fun a b => Task.id b = Task.id a /\ (~ In (Task.id a) T -> b = a))
          l l' ->
  ~ In t T ->
  find (fun x => (Task.id x =? t)%Z) l = Some k ->
  find (fun x => (Task.id x =? t)%Z) l' = Some k.
Proof.
  intros HF Ht. induction HF as [|a b l l' [Hid Hsame] HF IH]; simpl;
    [discriminate|].
  rewrite Hid. destruct (Task.id a =? t)%Z eqn:E; [|exact IH].
  intro H. injection H as <-. apply Z.eqb_eq in E.
  rewrite Hsame; [reflexivity|]. now rewrite E.
Qed.

Lemma fold_assignee (ms : list Distribution.Move) (db : DB.t)
    (m : Distribution.Move) :
  well_formed db -> effective db ms -> In m ms -> applied db m = true ->
  exists k' new,
    DB.task_by_id (fold_left move_effect ms db) (Distribution.task_id m)
    = Some k' /\
    DB.user_by_json_id db (Distribution.to_user_id m) = Some new /\
    Task.assigned_to k' = Some (User.id new).
Proof.
  revert db. induction ms as [|m0 ms IH]; intros db Hwf Heff Hin Ha;
    [contradiction|].
  pose proof (move_effect_same_rows db m0) as Hrows.
  assert (Hwf1 : well_formed (move_effect db m0))
    by (apply (same_rows_well_formed db); assumption).
  pose proof (effective_step db m0 ms Heff) as Heff1.
  cbn [fold_left].
  destruct Heff as [Hnd _]. simpl in Hnd.
  inversion Hnd as [|? ? Hm0 Hnd']; subst.
  destruct Hin as [->|Hin].
  - destruct (move_effect_applied db m Ha)
      as (k & old & new & Ek & Eo & En & Htasks).
    exists (Task.set_assigned_to k (Some (User.id new))), new.
    split; [|split; [exact En|reflexivity]].
    unfold DB.task_by_id, DB.first.
    apply (untouched_find (map Distribution.task_id ms)
             (DB.tasks (move_effect db m))); [apply fold_untouched|exact Hm0|].
    rewrite Htasks, find_reassign by reflexivity.
    unfold DB.task_by_id, DB.first in Ek. rewrite Ek. cbn [option_map].
    apply find_some in Ek. destruct Ek as [_ Ek]. apply Z.eqb_eq in Ek.
    now rewrite Ek, Z.eqb_refl.
  - rewrite <- (applied_same db _ m Hrows) in Ha.
    destruct (IH _ Hwf1 Heff1 Hin Ha) as (k' & new1 & Hk' & Hn1 & Hassign).
    pose proof (same_rows_user_by_json_id db _ (Distribution.to_user_id m) Hrows)
      as Hj.
    rewrite Hn1 in Hj.
    destruct (DB.user_by_json_id db (Distribution.to_user_id m)) as [new|];
      [|contradiction].
    exists k', new. split; [exact Hk'|]. split; [reflexivity|].
    destruct Hj as (Hid & _). now rewrite <- Hid.
Qed.

(** ** Whole hours and loads *)

Lemma whole_iff (q : Q) : whole q = true <-> exists z : Z, q == inject_Z z.
Proof.
  unfold whole. split.
  - intro H. apply Qeq_bool_iff in H. now exists (Qfloor q).
  - intros (z & Hz). apply Qeq_bool_iff.
    rewrite Hz at 1. now rewrite Hz, Qfloor_Z.
Qed.

Lemma whole_eq (p q : Q) : p == q -> whole q = true -> whole p = true.
Proof.
  intros E H. apply whole_iff in H. destruct H as (z & Hz).
  apply whole_iff. exists z. now rewrite E.
Qed.

Lemma whole_plus (p q : Q) :
  whole p = true -> whole q = true -> whole (p + q) = true.
Proof.
  intros Hp Hq. apply whole_iff in Hp, Hq.
  destruct Hp as (a & Ha), Hq as (b & Hb).
  apply whole_iff. exists (a + b)%Z. rewrite Ha, Hb, inject_Z_plus. reflexivity.
Qed.

Lemma whole_minus (p q : Q) :
  whole p = true -> whole q = true -> whole (p - q) = true.
Proof.
  intros Hp Hq. apply whole_iff in Hp, Hq.
  destruct Hp as (a & Ha), Hq as (b & Hb).
  apply whole_iff. exists (a - b)%Z. rewrite Ha, Hb.
  unfold Z.sub. rewrite inject_Z_plus, inject_Z_opp. reflexivity.
Qed.

Lemma whole_max0 (q : Q) : whole q = true -> whole (Py.max0 q) = true.
Proof.
  intro H. unfold Py.max0. now destruct (Py.Qlt_bool 0 q).
Qed.

Lemma whole_sumQ (l : list Q) :
  (forall q, In q l -> whole q = true) -> whole (Py.sumQ l) = true.
Proof.
  induction l as [|x l IH]; intro H; [reflexivity|].
  apply (whole_eq _ _ (sumQ_cons x l)).
  apply whole_plus; [apply H; now left|].
  apply IH. intros q Hq. apply H. now right.
Qed.

Lemma whole_hours_of (db : DB.t) (k : Task.t) :
  whole_hours db = true -> In k (DB.tasks db) -> whole (hours_of k) = true.
Proof.
  intros H Hk. unfold whole_hours in H.
  rewrite forallb_forall in H. specialize (H k Hk).
  unfold hours_of. destruct (Task.estimated_hours k) as [h|]; [|reflexivity].
  now destruct (Py.truthy_float (Some h)).
Qed.

Lemma whole_move_hours (db : DB.t) (m : Distribution.Move) :
  whole_hours db = true -> whole (move_hours db m) = true.
Proof.
  intro H. unfold move_hours, DB.task_by_id, DB.first.
  destruct (find _ (DB.tasks db)) as [k|] eqn:E; [|reflexivity].
  apply find_some in E. apply (whole_hours_of db k H). now destruct E.
Qed.

Lemma whole_loads_adjust (i : Z) (f : Q -> Q) (us : list User.t) :
  (forall l, whole l = true -> whole (f l) = true) ->
  forallb (fun u => whole (User.current_workload u)) us = true ->
  forallb (fun u => whole (User.current_workload u)) (adjust i f us) = true.
Proof.
  intros Hf H. rewrite forallb_forall in H |- *.
  intros x Hx. unfold adjust in Hx. apply in_map_iff in Hx.
  destruct Hx as (y & <- & Hy). specialize (H y Hy).
  destruct (User.id y =? i)%Z; [|exact H].
  cbn [User.set_current_workload User.current_workload]. now apply Hf.
Qed.

Lemma whole_hours_reassign (i : Z) (a : option Z) (ks : list Task.t) :
  forallb (fun k => match Task.estimated_hours k with
                    | Some h => whole h
                    | None => true
                    end) (reassign i a ks)
  = forallb (fun k => match Task.estimated_hours k with
                      | Some h => whole h
                      | None => true
                      end) ks.
Proof.
  unfold reassign. induction ks as [|k ks IH]; [reflexivity|].
  cbn [map forallb]. rewrite IH. now destruct (Task.id k =? i)%Z.
Qed.

Lemma move_effect_whole (db : DB.t) (m : Distribution.Move) :
  whole_loads db = true -> whole_hours db = true ->
  whole_loads (move_effect db m) = true /\
  whole_hours (move_effect db m) = true.
Proof.
  intros Hl Hh. unfold move_effect.
  destruct (DB.task_by_id db (Distribution.task_id m)) as [k|] eqn:Ek;
    [|now split].
  destruct (DB.user_by_username db (Distribution.from_user m)) as [old_user|];
    [|now split].
  destruct (DB.user_by_json_id db (Distribution.to_user_id m)) as [new_user|];
    [|now split].
  unfold whole_loads, whole_hours. cbn [DB.users DB.tasks].
  split; [|now rewrite whole_hours_reassign].
  apply find_some in Ek. destruct Ek as [Hk _].
  pose proof Hh as Hk'. unfold whole_hours in Hk'.
  rewrite forallb_forall in Hk'. specialize (Hk' k Hk).
  destruct (Task.estimated_hours k) as [h|]; [|exact Hl].
  destruct (Py.truthy_float (Some h)); [|exact Hl].
  apply whole_loads_adjust; [intros l H; now apply whole_plus|].
  apply whole_loads_adjust; [intros l H; now apply whole_minus|].
  exact Hl.
Qed.

Lemma fold_whole (ms : list Distribution.Move) (db : DB.t) :
  whole_loads db = true -> whole_hours db = true ->
  whole_loads (fold_left move_effect ms db) = true.
Proof.
  revert db. induction ms as [|m ms IH]; intros db Hl Hh; [exact Hl|].
  destruct (move_effect_whole db m Hl Hh) as [Hl' Hh'].
  simpl. now apply IH.
Qed.

(** C6, as amended. In a rebalance run that applies its proposed moves, on
    a store whose primary keys and user names are unique and whose loads and
    estimated hours are whole numbers: a move is applied exactly when the
    person it names as destination exists; the number of work items whose
    assignee changes is the number of applied moves, each applied move
    leaving its item with the destination as assignee; every person's load
    decreases by the estimated hours of the applied moves that take an item
    from them and increases by those of the applied moves that bring one to
    them (an item without estimate moves no hours); every load is again a
    whole number, which the integer column keeps as it is; and the sum of
    all loads is the same before and after. *)
Theorem rebalance_apply_accounting
    (generate_content : Gemini.Prompt -> option string)
    (json_loads : string -> Json.outcome) (round1 : Q -> Q)
    (db db' : DB.t) (team_id : Z) (report : Distribution.Report) :
  well_formed db ->
  whole_loads db = true -> whole_hours db = true ->
  Distribution.rebalance_team_workload generate_content json_loads round1
    db team_id false
  = (Distribution.RebalanceReport report, db') ->
  let ms := Distribution.recommendations report in
  (forall m, In m ms ->
     applied db m = match DB.user_by_json_id db (Distribution.to_user_id m) with
                    | Some _ => true
                    | None => false
                    end) /\
  assignee_changes db db' = List.length (filter (applied db) ms) /\
  (forall m, In m ms -> applied db m = true ->
     exists k' new,
       DB.task_by_id db' (Distribution.task_id m) = Some k' /\
       DB.user_by_json_id db (Distribution.to_user_id m) = Some new /\
       Task.assigned_to k' = Some (User.id new)) /\
  (forall u, In u (DB.users db) ->
     exists u',
       DB.user_by_id db' (User.id u) = Some u' /\
       User.current_workload u'
       == User.current_workload u - outflow db ms u + inflow db ms u /\
       whole (User.current_workload u') = true) /\
  whole_loads db' = true /\
  total_load db' == total_load db.
Proof.
  intros Hwf Hwl Hwh Hrun.
  destruct (rebalance_cases generate_content json_loads round1 db team_id false)
    as [(msg & E)|(ms & Hms & E)]; rewrite E in Hrun; [discriminate|].
  injection Hrun as <- <-. cbn [Distribution.recommendations].
  destruct (generated_moves_effective _ _ _ db team_id ms Hwf Hms)
    as [Heff Happ].
  rewrite (fold_apply_effect ms db Hwf).
  split; [exact Happ|].
  split; [apply (fold_count ms db Hwf Heff)|].
  split; [intros m Hm Ha; now apply fold_assignee|].
  split; [|split; [now apply fold_whole|now apply fold_total]].
  intros u Hu. destruct (fold_loads ms db u Hwf Hu) as (u' & Hf & _ & Hl).
  exists u'. split; [exact Hf|]. split; [exact Hl|].
  pose proof (fold_whole ms db Hwl Hwh) as Hw'.
  unfold whole_loads in Hw'. rewrite forallb_forall in Hw'.
  apply Hw'. unfold DB.user_by_id, DB.first in Hf.
  apply find_some in Hf. now destruct Hf.
Qed.

Lemma team_db_well_formed (load_ana : Q) (hours : option Q) :
  well_formed (team_db load_ana hours).
Proof.
  unfold well_formed, team_db. simpl.
  repeat split; repeat constructor; simpl; intuition discriminate.
Qed.

Lemma rebalance_apply_accounting_witness :
  let db := team_db 38 (Some 4) in
  let run := Distribution.rebalance_team_workload
               (oracle_says reply_bruno) loads_default round1_model db 1 false in
  exists report,
    fst run = Distribution.RebalanceReport report /\
    assignee_changes db (snd run)
    = List.length (filter (applied db) (Distribution.recommendations report)) /\
    whole_loads (snd run) = true /\
    total_load (snd run) == total_load db.
Proof.
  cbv zeta.
  destruct (Distribution.rebalance_team_workload
              (oracle_says reply_bruno) loads_default round1_model
              (team_db 38 (Some 4)) 1 false) as [res db'] eqn:E.
  assert (Hres : exists report, res = Distribution.RebalanceReport report).
  { assert (H : fst (Distribution.rebalance_team_workload
                       (oracle_says reply_bruno) loads_default round1_model
                       (team_db 38 (Some 4)) 1 false) = res)
      by now rewrite E.
    vm_compute in H. rewrite <- H. eexists. reflexivity. }
  destruct Hres as (report & ->).
  exists report. split; [reflexivity|].
  destruct (rebalance_apply_accounting
              (oracle_says reply_bruno) loads_default round1_model
              (team_db 38 (Some 4)) db' 1 report
              (team_db_well_formed 38 (Some 4)) eq_refl eq_refl E)
    as (_ & Hcount & _ & _ & Hwhole & Htotal).
  split; [exact Hcount|]. split; [exact Hwhole|exact Htotal].
Defined.

(** C6 as stated fails: the oracle names a person that does not exist; the
    apply run proposes one move and no work item changes its assignee. *)
Lemma rebalance_apply_counterexample :
  let db := team_db 38 (Some 4) in
  let run := Distribution.rebalance_team_workload
               (oracle_says reply_unknown_person) loads_default round1_model
               db 1 false in
  well_formed db /\
  whole_loads db = true /\ whole_hours db = true /\
  exists report,
    fst run = Distribution.RebalanceReport report /\
    Distribution.applied report = true /\
    List.length (Distribution.recommendations report) = 1%nat /\
    assignee_changes db (snd run) = 0%nat.
Proof.
  cbv zeta. split; [apply team_db_well_formed|].
  split; [reflexivity|]. split; [reflexivity|].
  eexists. split; [vm_compute; reflexivity|].
  split; [reflexivity|]. split; [reflexivity|]. vm_compute. reflexivity.
Qed.

(** ** Assignment, deletion and the load counter *)

Lemma Qeq_bool_inject_Z (a b : Z) :
  Qeq_bool (inject_Z a) (inject_Z b) = (a =? b)%Z.
Proof.
  unfold Qeq_bool, inject_Z. simpl. now rewrite !Z.mul_1_r.
Qed.

Lemma column_int_inject_Z (z : Z) :
  Distribution.column_int (Json.JNum (inject_Z z)) = Some (Some z).
Proof.
  unfold Distribution.column_int. rewrite Qfloor_Z, Qeq_bool_inject_Z.
  now rewrite Z.eqb_refl.
Qed.

Lemma find_pointwise {A} (p q : A -> bool) (l : list A) :
  (forall x, p x = q x) -> find p l = find q l.
Proof.
  intro H. induction l as [|x l IH]; simpl; [reflexivity|].
  rewrite H, IH. reflexivity.
Qed.

Lemma user_by_json_id_inject_Z (db : DB.t) (user : User.t) :
  well_formed db -> In user (DB.users db) ->
  DB.user_by_json_id db (Json.JNum (inject_Z (User.id user))) = Some user.
Proof.
  intros (Hi & _) Hin. unfold DB.user_by_json_id, DB.first.
  rewrite (find_pointwise _ (fun x => (User.id x =? User.id user)%Z)).
  - now apply find_by_id_In.
  - intro x. apply Qeq_bool_inject_Z.
Qed.

Lemma user_by_username_In (db : DB.t) (user : User.t) :
  well_formed db -> In user (DB.users db) ->
  DB.user_by_username db (User.username user) = Some user.
Proof.
  intros (_ & Hn & _) Hin. unfold DB.user_by_username, DB.first.
  destruct (find _ (DB.users db)) as [u'|] eqn:E.
  - apply find_some in E. destruct E as [Hin' He]. apply String.eqb_eq in He.
    now rewrite (NoDup_map_inj User.username _ u' user Hn Hin' Hin He).
  - exfalso. pose proof (find_none _ _ E user Hin) as H. simpl in H.
    now rewrite String.eqb_refl in H.
Qed.

Lemma find_replaced (us : list User.t) (u' : User.t) :
  In (User.id u') (map User.id us) ->
  find (fun x => (User.id x =? User.id u')%Z)
       (map (fun x => if (User.id x =? User.id u')%Z then u' else x) us)
  = Some u'.
Proof.
  induction us as [|x us IH]; simpl; [contradiction|].
  intros [H|H].
  - rewrite H, Z.eqb_refl, Z.eqb_refl. reflexivity.
  - destruct (User.id x =? User.id u')%Z eqn:E.
    + now rewrite Z.eqb_refl.
    + rewrite E. now apply IH.
Qed.

Lemma truthy_float_nonzero (h : Q) : ~ h == 0 -> Py.truthy_float (Some h) = true.
Proof.
  intro H. unfold Py.truthy_float. apply negb_true_iff.
  destruct (Qeq_bool h 0) eqn:E; [|reflexivity].
  apply Qeq_bool_iff in E. contradiction.
Qed.

Lemma hours_of_nonzero (k : Task.t) (h : Q) :
  Task.estimated_hours k = Some h -> ~ h == 0 -> hours_of k = h.
Proof.
  intros E H. unfold hours_of. rewrite E.
  now rewrite (truthy_float_nonzero h H).
Qed.

Lemma max0_restores (l h : Q) : 0 <= l -> Py.max0 (l + h - h) == l.
Proof.
  intro H. rewrite max0_Qmax. rewrite Q.max_r; lra.
Qed.

Lemma max0_exact (l h : Q) : h <= l -> Py.max0 (l - h) == l - h.
Proof.
  intro H. rewrite max0_Qmax. rewrite Q.max_r; lra.
Qed.

(** What the applier does to the store when the recommendation names an
    existing person and carries a score and a reasoning that can be
    stored. *)
Lemma apply_assignment_effect (db : DB.t) (task : Task.t) (user : User.t)
    (h : Q) (recommendation : Json.value) :
  well_formed db -> In user (DB.users db) ->
  Task.estimated_hours task = Some h -> ~ h == 0 ->
  Json.get recommendation "recommended_user_id"
  = Json.JNum (inject_Z (User.id user)) ->
  Distribution.column_float
    (Json.get_default recommendation "match_score" (Json.JNum 0)) = true ->
  Distribution.column_text
    (Json.get_default recommendation "reasoning" (Json.JStr EmptyString))
  = true ->
  Distribution.apply_assignment db task recommendation
  = Some (DB.update_user
            (DB.update_task db
               (Task.assign task (Some (User.id user))
                  (Json.get_default recommendation "match_score" (Json.JNum 0))
                  (Json.get_default recommendation "reasoning" (Json.JStr EmptyString))))
            (User.set_current_workload user (User.current_workload user + h))).
Proof.
  intros Hwf Hin Eh Hh Hrec Hscore Hreason.
  unfold Distribution.apply_assignment.
  rewrite Hrec, column_int_inject_Z, Hscore, Hreason. cbn [andb negb].
  rewrite (user_by_json_id_inject_Z db user Hwf Hin), Eh.
  now rewrite (truthy_float_nonzero h Hh).
Qed.

Lemma delete_task_effect (db : DB.t) (task : Task.t) (user : User.t) (h : Q) :
  DB.task_by_id db (Task.id task) = Some task ->
  DB.user_by_id db (User.id user) = Some user ->
  Task.assigned_to task = Some (User.id user) -> User.id user <> 0%Z ->
  Task.estimated_hours task = Some h -> ~ h == 0 ->
  DB.user_by_id (snd (Routes.delete_task db (Task.id task))) (User.id user)
  = Some (User.set_current_workload user
            (Py.max0 (User.current_workload user - h))).
Proof.
  intros Ek Eu Ea Hid Eh Hh. unfold Routes.delete_task.
  rewrite Ek, Ea, Eh. cbn [Py.truthy_int].
  apply Z.eqb_neq in Hid. rewrite Hid. cbn [negb andb].
  rewrite (truthy_float_nonzero h Hh), Eu. cbn [snd].
  unfold DB.user_by_id, DB.first, DB.delete_task, DB.update_user.
  cbn [DB.users].
  apply (find_replaced (DB.users db)
           (User.set_current_workload user
              (Py.max0 (User.current_workload user - h)))).
  apply find_some in Eu. destruct Eu as [Hin _]. simpl. now apply in_map.
Qed.

(** C7, as amended. For a work item with estimated hours H, a whole number
    other than zero, and a person with a whole load and an id other than 0,
    of a store whose primary keys and user names are unique: applying an
    assignment of the item to the person, with a match score and a reasoning
    that the store can hold, raises the person's load by exactly H; deleting
    the item while the person holds it lowers the load by H, but never below
    zero (to [max(0, load - H)], which is [load - H] whenever the load is at
    least H); moving the item away in a rebalance apply run, to a person
    with a whole load, lowers the source's load by exactly H and raises the
    destination's by exactly H; every load so written is again a whole
    number, which the integer column keeps as it is; and assigning and then
    deleting restores the original load whenever that load is not
    negative. *)
Theorem load_accounting (db : DB.t) (task : Task.t) (user : User.t) (h : Q) :
  well_formed db ->
  In task (DB.tasks db) -> In user (DB.users db) ->
  Task.estimated_hours task = Some h -> ~ h == 0 -> User.id user <> 0%Z ->
  whole h = true -> whole (User.current_workload user) = true ->
  (forall generate_content json_loads round1 d,
      Distribution.recommend_assignee generate_content json_loads round1
        db (Task.id task) None = Json.JDict d ->
      Json.lookup d "error" = None ->
      Json.lookup d "recommended_user_id"
      = Some (Json.JNum (inject_Z (User.id user))) ->
      Distribution.column_float
        (Json.get_default (Json.JDict d) "match_score" (Json.JNum 0)) = true ->
      Distribution.column_text
        (Json.get_default (Json.JDict d) "reasoning" (Json.JStr EmptyString))
      = true ->
      let db1 := snd (Distribution.auto_distribute_task
                        generate_content json_loads round1
                        db (Task.id task) true) in
      (exists u1,
          DB.user_by_id db1 (User.id user) = Some u1 /\
          User.current_workload u1 == User.current_workload user + h /\
          whole (User.current_workload u1) = true) /\
      (exists k1,
          DB.task_by_id db1 (Task.id task) = Some k1 /\
          Task.assigned_to k1 = Some (User.id user) /\
          Task.status k1 = TaskStatus.PENDING) /\
      (0 <= User.current_workload user ->
       exists u2,
         DB.user_by_id (snd (Routes.delete_task db1 (Task.id task)))
           (User.id user) = Some u2 /\
         User.current_workload u2 == User.current_workload user /\
         whole (User.current_workload u2) = true)) /\
  (Task.assigned_to task = Some (User.id user) ->
   exists u2,
     DB.user_by_id (snd (Routes.delete_task db (Task.id task))) (User.id user)
     = Some u2 /\
     User.current_workload u2 == Qmax 0 (User.current_workload user - h) /\
     whole (User.current_workload u2) = true /\
     (h <= User.current_workload user ->
      User.current_workload u2 == User.current_workload user - h)) /\
  (forall m new_user,
      Distribution.task_id m = Task.id task ->
      Distribution.from_user m = User.username user ->
      DB.user_by_json_id db (Distribution.to_user_id m) = Some new_user ->
      User.id new_user <> User.id user ->
      whole (User.current_workload new_user) = true ->
      exists u3 n3,
        DB.user_by_id (Distribution.apply_move db m) (User.id user) = Some u3 /\
        User.current_workload u3 == User.current_workload user - h /\
        whole (User.current_workload u3) = true /\
        DB.user_by_id (Distribution.apply_move db m) (User.id new_user)
        = Some n3 /\
        User.current_workload n3 == User.current_workload new_user + h /\
        whole (User.current_workload n3) = true).
Proof.
  intros Hwf Hkin Huin Eh Hh Hid Hwh Hwl.
  pose proof Hwf as (Hi & Hn & Hk).
  assert (Ek : DB.task_by_id db (Task.id task) = Some task)
    by now apply find_task_by_id_In.
  assert (Eu : DB.user_by_id db (User.id user) = Some user)
    by now apply find_by_id_In.
  split; [|split].
  - intros generate_content json_loads round1 d Hrec Herr Hrid Hscore Hreason.
    cbv zeta.
    unfold Distribution.auto_distribute_task. rewrite Hrec.
    cbn [Json.contains]. rewrite Herr, Hrid. rewrite Ek.
    rewrite (apply_assignment_effect db task user h (Json.JDict d)
               Hwf Huin Eh Hh)
      by (try assumption; cbn [Json.get]; now rewrite Hrid).
    cbn [snd].
    set (task' := Task.assign task _ _ _).
    set (user' := User.set_current_workload user _).
    set (db1 := DB.update_user (DB.update_task db task') user').
    assert (Eu1 : DB.user_by_id db1 (User.id user) = Some user').
    { unfold db1, DB.user_by_id, DB.first, DB.update_user, DB.update_task.
      cbn [DB.users].
      apply (find_replaced (DB.users db) user'). simpl. now apply in_map. }
    assert (Ek1 : DB.task_by_id db1 (Task.id task) = Some task').
    { unfold db1, DB.task_by_id, DB.first, DB.update_user, DB.update_task.
      cbn [DB.tasks].
      change (Task.id task) with (Task.id task') at 1.
      clear - Hkin. induction (DB.tasks db) as [|x l IH]; [contradiction|].
      simpl. destruct (Task.id x =? Task.id task)%Z eqn:E.
      - simpl. now rewrite Z.eqb_refl.
      - rewrite E. destruct Hkin as [->|Hkin];
          [now rewrite Z.eqb_refl in E|now apply IH]. }
    split.
    { exists user'. split; [exact Eu1|]. split; [reflexivity|].
      cbn. now apply whole_plus. }
    split; [exists task'; repeat split; exact Ek1|].
    intro Hnonneg.
    eexists. split.
    + apply (delete_task_effect db1 task' user' h); auto.
    + cbn. split; [now apply max0_restores|].
      apply whole_max0, whole_minus; [now apply whole_plus|exact Hwh].
  - intro Ea. eexists. split.
    + now apply (delete_task_effect db task user h).
    + cbn. split; [apply max0_Qmax|].
      split; [now apply whole_max0, whole_minus|apply max0_exact].
  - intros m new_user Htid Hfrom Hnew Hneq Hwn.
    rewrite (apply_move_effect db m Hwf).
    destruct (json_id_found db _ new_user Hnew) as (Hnin & _).
    assert (Happlied : applied db m = true).
    { unfold applied. rewrite Htid, Ek, Hfrom.
      now rewrite (user_by_username_In db user Hwf Huin), Hnew. }
    assert (Hhours : move_hours db m = h).
    { unfold move_hours. rewrite Htid, Ek. now apply hours_of_nonzero. }
    destruct (move_effect_load db m user Hwf Huin) as (u3 & Hf3 & _ & Hl3).
    destruct (move_effect_load db m new_user Hwf Hnin) as (n3 & Hg3 & _ & Hm3).
    assert (Hu3 : User.current_workload u3 == User.current_workload user - h).
    { rewrite Hl3. unfold out_of, in_to, moves_from, moves_to.
      rewrite Happlied, Hhours, Hfrom, String.eqb_refl, Hnew. cbn [andb].
      apply Z.eqb_neq in Hneq. rewrite Hneq. lra. }
    assert (Hn3 : User.current_workload n3
                  == User.current_workload new_user + h).
    { rewrite Hm3. unfold out_of, in_to, moves_from, moves_to.
      rewrite Happlied, Hhours, Hfrom, Hnew, Z.eqb_refl. cbn [andb].
      rewrite (username_eqb_id_eqb _ user new_user Hi Hn Huin Hnin).
      apply Z.eqb_neq in Hneq. rewrite Hneq. lra. }
    exists u3, n3. split; [exact Hf3|]. split; [exact Hu3|].
    split; [apply (whole_eq _ _ Hu3); now apply whole_minus|].
    split; [exact Hg3|]. split; [exact Hn3|].
    apply (whole_eq _ _ Hn3). now apply whole_plus.
Qed.

(** On the sample team: Ana, with load 38, holds the item of 4 hours. The
    oracle names her for the item, and the assignment brings her load to 42,
    which deleting the item brings back to 38; deleting the item right away
    leaves 34; and moving the item to Bruno leaves Ana with 34 and Bruno
    with 14. *)
Lemma load_accounting_witness :
  let db := team_db 38 (Some 4) in
  let db1 := snd (Distribution.auto_distribute_task (oracle_says reply_ana)
                    loads_default round1_model db 7 true) in
  (load_of db 2 = Some 38 /\ load_of db 3 = Some 10) /\
  ((exists u1,
       DB.user_by_id db1 2 = Some u1 /\ User.current_workload u1 == 38 + 4) /\
   (exists k1,
       DB.task_by_id db1 7 = Some k1 /\ Task.assigned_to k1 = Some 2%Z) /\
   (exists u2,
       DB.user_by_id (snd (Routes.delete_task db1 7)) 2 = Some u2 /\
       User.current_workload u2 == 38)) /\
  (exists u2,
      DB.user_by_id (snd (Routes.delete_task db 7)) 2 = Some u2 /\
      User.current_workload u2 == 38 - 4) /\
  (exists u3 n3,
      DB.user_by_id (Distribution.apply_move db move_to_bruno) 2 = Some u3 /\
      User.current_workload u3 == 38 - 4 /\
      DB.user_by_id (Distribution.apply_move db move_to_bruno) 3 = Some n3 /\
      User.current_workload n3 == 10 + 4).
Proof.
  cbv zeta. split; [split; reflexivity|].
  assert (Hwf : well_formed (team_db 38 (Some 4)))
    by apply team_db_well_formed.
  assert (Hk : In (sample_item (Some 4)) (DB.tasks (team_db 38 (Some 4))))
    by (simpl; auto).
  assert (Hu : In (sample_user 2 "ana" UserRole.COLABORADOR (Some 1%Z) 38)
                  (DB.users (team_db 38 (Some 4))))
    by (simpl; auto).
  assert (Hh : ~ 4 == 0) by (intro H; vm_compute in H; discriminate).
  assert (Hid : User.id (sample_user 2 "ana" UserRole.COLABORADOR
                           (Some 1%Z) 38) <> 0%Z)
    by (simpl; discriminate).
  destruct (load_accounting (team_db 38 (Some 4)) (sample_item (Some 4))
              (sample_user 2 "ana" UserRole.COLABORADOR (Some 1%Z) 38)
              4 Hwf Hk Hu eq_refl Hh Hid eq_refl eq_refl)
    as (Hassign & Hdelete & Hmove).
  split; [|split].
  - assert (Hrec : exists d,
               Distribution.recommend_assignee (oracle_says reply_ana)
                 loads_default round1_model (team_db 38 (Some 4)) 7 None
               = Json.JDict d /\
               Json.lookup d "error" = None /\
               Json.lookup d "recommended_user_id"
               = Some (Json.JNum (inject_Z 2)) /\
               Distribution.column_float
                 (Json.get_default (Json.JDict d) "match_score" (Json.JNum 0))
               = true /\
               Distribution.column_text
                 (Json.get_default (Json.JDict d) "reasoning"
                    (Json.JStr EmptyString))
               = true).
    { eexists. split; [vm_compute; reflexivity|].
      repeat split; reflexivity. }
    destruct Hrec as (d & Hrec & Herr & Hrid & Hscore & Hreason).
    destruct (Hassign (oracle_says reply_ana) loads_default round1_model d
                Hrec Herr Hrid Hscore Hreason)
      as ((u1 & Hu1 & Hl1 & _) & (k1 & Hk1 & Ha1 & _) & Hback).
    split; [exists u1; split; [exact Hu1|exact Hl1]|].
    split; [exists k1; split; [exact Hk1|exact Ha1]|].
    assert (Hnonneg : 0 <= 38) by (unfold Qle; simpl; lia).
    destruct (Hback Hnonneg) as (u2 & Hu2 & Hl2 & _).
    exists u2. split; [exact Hu2|exact Hl2].
  - destruct (Hdelete eq_refl) as (u2 & Hu2 & _ & _ & Hexact).
    exists u2. split; [exact Hu2|]. apply Hexact.
    unfold Qle; simpl; lia.
  - assert (Hne : User.id (sample_user 3 "bruno" UserRole.COLABORADOR
                             (Some 1%Z) 10)
                  <> User.id (sample_user 2 "ana" UserRole.COLABORADOR
                                (Some 1%Z) 38))
      by (simpl; discriminate).
    destruct (Hmove move_to_bruno
                (sample_user 3 "bruno" UserRole.COLABORADOR (Some 1%Z) 10)
                eq_refl eq_refl eq_refl Hne eq_refl)
      as (u3 & n3 & Hu3 & Hl3 & _ & Hn3 & Hm3 & _).
    exists u3, n3. auto.
Defined.

(** C7 as stated fails on deletion: Ana's load is 2 and she holds an item of
    4 hours; deleting the item leaves her load at 0, not 4 below 2. *)
Lemma load_accounting_counterexample :
  let db := team_db 2 (Some 4) in
  let db' := snd (Routes.delete_task db 7) in
  well_formed db /\
  (exists k, DB.task_by_id db 7 = Some k /\
             Task.assigned_to k = Some 2%Z /\
             Task.estimated_hours k = Some 4) /\
  load_of db 2 = Some 2 /\
  load_of db' 2 = Some 0 /\
  ~ 0 == 2 - 4.
Proof.
  cbv zeta. split; [apply team_db_well_formed|].
  split; [eexists; repeat split|].
  split; [reflexivity|]. split; [reflexivity|].
  intro H. vm_compute in H. discriminate.
Qed.

(** Reassigning an item through [update_task] writes the item row only: no
    load is adjusted on that path. *)
Lemma update_task_keeps_loads (db : DB.t) (now task_id : Z)
    (task_data : Routes.TaskUpdate) (current_user : User.t) :
  DB.users (snd (Routes.update_task db now task_id task_data current_user))
  = DB.users db.
Proof.
  unfold Routes.update_task.
  destruct (DB.task_by_id db task_id); [|reflexivity].
  destruct (negb _); reflexivity.
Qed.

(** ** Non-negative loads *)

Lemma delete_task_keeps_nonneg (db : DB.t) (task_id : Z) :
  all_loads_nonneg db ->
  all_loads_nonneg (snd (Routes.delete_task db task_id)).
Proof.
  intro H. unfold Routes.delete_task.
  destruct (DB.task_by_id db task_id) as [task|]; [|exact H].
  cbn [snd]. unfold all_loads_nonneg, DB.delete_task. cbn [DB.users].
  destruct (Py.truthy_int _ && Py.truthy_float _); [|exact H].
  destruct (Task.assigned_to task) as [a|]; [|exact H].
  destruct (Task.estimated_hours task) as [h|]; [|exact H].
  destruct (DB.user_by_id db a) as [u0|]; [|exact H].
  unfold DB.update_user. cbn [DB.users].
  intros u Hu. apply in_map_iff in Hu. destruct Hu as (x & Hx & Hin).
  destruct (User.id x =? _)%Z.
  - subst u. cbn. apply max0_nonneg.
  - subst u. now apply H.
Qed.

Lemma apply_assignment_keeps_nonneg (db db' : DB.t) (task : Task.t)
    (recommendation : Json.value) :
  all_loads_nonneg db ->
  (forall h, Task.estimated_hours task = Some h -> 0 <= h) ->
  Distribution.apply_assignment db task recommendation = Some db' ->
  all_loads_nonneg db'.
Proof.
  intros H Hh. unfold Distribution.apply_assignment.
  destruct (Distribution.column_int _) as [assignee|]; [|discriminate].
  destruct (negb _); [discriminate|].
  destruct (DB.user_by_json_id db _) as [user|] eqn:Eu;
    [|intro E; injection E as <-; exact H].
  destruct (Py.truthy_float _);
    [|intro E; injection E as <-; exact H].
  destruct (Task.estimated_hours task) as [h|] eqn:Eh;
    [|intro E; injection E as <-; exact H].
  intro E. injection E as <-.
  unfold all_loads_nonneg, DB.update_user, DB.update_task. cbn [DB.users].
  intros u Hu. apply in_map_iff in Hu. destruct Hu as (x & Hx & Hin).
  destruct (User.id x =? _)%Z.
  - subst u. cbn.
    destruct (json_id_found db _ user Eu) as (Huin & _).
    specialize (H user Huin). specialize (Hh h eq_refl). lra.
  - subst u. now apply H.
Qed.

(** C8. The invariant is broken by the rebalance apply run: in a store whose
    loads are all non-negative, Ana (load 38 of 40, overloaded) holds a
    pending item estimated at 40 hours; the oracle is down, the fallback
    names Bruno, the move is applied, and Ana's load becomes -2. The
    deletion path clamps the load at zero; the apply loop does not. *)
Theorem rebalance_apply_breaks_nonneg :
  let db := team_db 38 (Some 40) in
  let run := Distribution.rebalance_team_workload
               oracle_down loads_default round1_model db 1 false in
  well_formed db /\
  all_loads_nonneg db /\
  (exists report,
      fst run = Distribution.RebalanceReport report /\
      Distribution.applied report = true /\
      List.length (Distribution.recommendations report) = 1%nat) /\
  load_of (snd run) 2 = Some (-2) /\
  load_of (snd run) 3 = Some 50 /\
  ~ all_loads_nonneg (snd run).
Proof.
  cbv zeta. split; [apply team_db_well_formed|].
  split.
  { intros u Hu. simpl in Hu.
    destruct Hu as [<-|[<-|[<-|[]]]]; simpl; lra. }
  split.
  { eexists. split; [vm_compute; reflexivity|]. split; reflexivity. }
  split; [vm_compute; reflexivity|].
  split; [vm_compute; reflexivity|].
  intro H.
  set (db' := snd _) in H.
  assert (Hu : exists u, DB.user_by_id db' 2 = Some u
                         /\ Qred (User.current_workload u) = -2).
  { vm_compute. eexists. split; reflexivity. }
  destruct Hu as (u & Hf & Hl).
  apply find_some in Hf. destruct Hf as [Hin _].
  specialize (H u Hin). rewrite <- (Qred_correct (User.current_workload u)) in H.
  rewrite Hl in H. vm_compute in H. now apply H.
Qed.

(** Ana is overloaded. With a check-in seven days old or less she raises an
    overload alert; when her only check-in is older than the window she is
    counted in the team size and raises nothing. *)
Example silent_overloaded_member :
  let week := (7 * Sentiment.seconds_per_day)%Z in
  let recent := Sentiment.get_team_wellbeing_summary round1_model
                  (team_db_checked 1000) (1000 + week) 1 7 in
  let stale := Sentiment.get_team_wellbeing_summary round1_model
                 (team_db_checked 1000) (1001 + week) 1 7 in
  summary_team_size recent = 2%nat /\
  summary_member_ids recent = [2%Z] /\
  summary_alert_types recent = ["overload"] /\
  summary_team_size stale = 2%nat /\
  summary_member_ids stale = [] /\
  summary_alert_types stale = [].
Proof. vm_compute. repeat split; reflexivity. Qed.

(** ** The engine on the specification's example *)

(** The load percentage of a candidate snapshot built by the engine is the
    rounded load percentage of the person. *)
Lemma prepared_candidate_workload (round1 : Q -> Q) (db : DB.t) (user : User.t) :
  Gemini.workload_key (Distribution._prepare_candidate_data round1 db user)
  = round1 (User.workload_percentage user).
Proof. reflexivity. Qed.

(** Person A has capacity 40 and load 38, person B capacity 40 and load 10;
    A holds a pending urgent item of 4 hours. The dry run proposes to move it
    to B and changes nothing; after the apply run A's load is 34 and B's is
    14. *)
Example rebalance_example :
  let db := team_db 38 (Some 4) in
  let run := Distribution.rebalance_team_workload
               oracle_down loads_default round1_model db 1 in
  snd (run true) = db /\
  (exists report,
      fst (run true) = Distribution.RebalanceReport report /\
      map Distribution.task_id (Distribution.recommendations report) = [7%Z] /\
      map Distribution.to_user_id (Distribution.recommendations report)
      = [Json.JNum 3]) /\
  load_of (snd (run false)) 2 = Some 34 /\
  load_of (snd (run false)) 3 = Some 14 /\
  assignee_changes db (snd (run false)) = 1%nat.
Proof.
  cbv zeta. split; [reflexivity|].
  split; [eexists; split; [vm_compute; reflexivity|split; reflexivity]|].
  repeat split; vm_compute; reflexivity.
Qed.

(* ================================================================= *)
(** * Further properties of the engine *)

(** ** Eligibility filter *)

(** X1. The candidates for a work item are exactly the active contributors with
    available hours, restricted to the team when a team is given; the work
    item itself plays no part, and the team id [0] counts as no team. *)
Theorem eligible_candidates_exact
    (db : DB.t) (task : Task.t) (team_id : option Z) (u : User.t) :
  (In u (Distribution._get_eligible_candidates db task team_id)
   <-> In u (DB.users db) /\
       User.role u = UserRole.COLABORADOR /\
       User.is_active u = true /\
       0 < User.available_hours u /\
       (Py.truthy_int team_id = true ->
        exists t, team_id = Some t /\ User.manager_id u = Some t)) /\
  (forall task', Distribution._get_eligible_candidates db task' team_id
                 = Distribution._get_eligible_candidates db task team_id) /\
  Distribution._get_eligible_candidates db task (Some 0%Z)
  = Distribution._get_eligible_candidates db task None.
Proof.
  split; [|split; reflexivity].
  unfold Distribution._get_eligible_candidates.
  assert (Hrole : forall r, UserRole.eqb r UserRole.COLABORADOR = true
                            <-> r = UserRole.COLABORADOR).
  { intro r. destruct r; simpl; split; congruence. }
  destruct team_id as [t|]; [destruct (Py.truthy_int (Some t)) eqn:Et|];
    rewrite ?filter_In, ?andb_true_iff, ?Hrole, ?Qlt_bool_iff.
  - unfold DB.in_team. split.
    + intros (((Hin & Hr & Ha) & Hm) & Hav). repeat split; auto.
      intros _. exists t. split; [reflexivity|].
      destruct (User.manager_id u) as [m|]; [|discriminate].
      apply Z.eqb_eq in Hm. now subst.
    + intros (Hin & Hr & Ha & Hav & Hm). repeat split; auto.
      destruct (Hm eq_refl) as (t' & Ht' & Hmgr). injection Ht' as <-.
      rewrite Hmgr. apply Z.eqb_refl.
  - split.
    + intros ((Hin & Hr & Ha) & Hav). repeat split; auto. discriminate.
    + intros (Hin & Hr & Ha & Hav & _). repeat split; auto.
  - split.
    + intros ((Hin & Hr & Ha) & Hav). repeat split; auto. discriminate.
    + intros (Hin & Hr & Ha & Hav & _). repeat split; auto.
Qed.

(** X2. A person of positive capacity who is not overloaded has at least a tenth
    of the capacity available, so the availability test of the eligibility
    filter never excludes such a person. *)
Theorem not_overloaded_has_available_hours (u : User.t) :
  (0 < User.workload_capacity u)%Z ->
  User.is_overloaded u = false ->
  inject_Z (User.workload_capacity u) / 10 <= User.available_hours u /\
  0 < User.available_hours u.
Proof.
  intros Hc Ho.
  assert (Hq : 0 < inject_Z (User.workload_capacity u)).
  { change 0 with (inject_Z 0). rewrite <- Zlt_Qlt. exact Hc. }
  assert (Hl : 10 * User.current_workload u
               <= 9 * inject_Z (User.workload_capacity u)).
  { apply Qnot_lt_le. intro H.
    apply (is_overloaded_positive_capacity u Hc) in H. congruence. }
  unfold User.available_hours. rewrite max0_Qmax.
  set (c := inject_Z (User.workload_capacity u)) in *.
  set (l := User.current_workload u) in *.
  assert (Hdiv : c / 10 == c * (1 # 10)) by (field).
  assert (Hge : c / 10 <= c - l) by (rewrite Hdiv; lra).
  split.
  - eapply Qle_trans; [exact Hge|]. apply Q.le_max_r.
  - eapply Qlt_le_trans; [|apply Q.le_max_r]. rewrite Hdiv in Hge. lra.
Qed.

Lemma not_overloaded_has_available_hours_witness :
  let bruno_row := sample_user 3 "bruno" UserRole.COLABORADOR (Some 1%Z) 10 in
  inject_Z (User.workload_capacity bruno_row) / 10
  <= User.available_hours bruno_row /\
  0 < User.available_hours bruno_row.
Proof.
  exact (not_overloaded_has_available_hours
           (sample_user 3 "bruno" UserRole.COLABORADOR (Some 1%Z) 10)
           eq_refl eq_refl).
Defined.

(** ** Recommendation for one work item *)

Section RecommendFacts.

Variable generate_content : Gemini.Prompt -> option string.
Variable json_loads : string -> Json.outcome.
Variable round1 : Q -> Q.

Local Abbreviation recommend_assignee :=
  (Distribution.recommend_assignee generate_content json_loads round1).

(** Whatever the oracle replies, the result is either a dictionary or a
    container that does not hold the recommended person. *)
Lemma recommend_assignee_shape (db : DB.t) (task_id : Z) (team_id : option Z) :
  (exists d, recommend_assignee db task_id team_id = Json.JDict d) \/
  Json.contains (recommend_assignee db task_id team_id) "recommended_user_id"
  = Some false.
Proof.
  unfold Distribution.recommend_assignee.
  destruct (DB.task_by_id db task_id) as [task|];
    [|left; eexists; reflexivity].
  destruct (Distribution._get_eligible_candidates db task team_id);
    [left; eexists; reflexivity|].
  set (r := Gemini.generate_task_recommendation _ _ _ _ _).
  destruct (Json.contains r "recommended_user_id") as [[|]|] eqn:E.
  - destruct r; try (left; eexists; reflexivity).
    destruct (DB.user_by_json_id db _); left; eexists; reflexivity.
  - now right.
  - left. eexists. reflexivity.
Qed.

Lemma moves_of_tasks_total (db : DB.t) (team_id : Z) (user : User.t)
    (tasks : list Task.t) :
  exists ms,
    Distribution.moves_of_tasks generate_content json_loads round1
      db team_id user tasks = Some ms /\
    (List.length ms <= List.length tasks)%nat.
Proof.
  induction tasks as [|k tasks (ms & IH & Hlen)]; simpl.
  - exists []. split; [reflexivity|simpl; lia].
  - rewrite IH.
    destruct (recommend_assignee_shape db (Task.id k) (Some team_id))
      as [(d & ->) | ->].
    + cbn [Json.contains].
      destruct (Json.lookup d "recommended_user_id");
        [|exists ms; split; [reflexivity|lia]].
      destruct (Distribution.ne_int _ _).
      * eexists. split; [reflexivity|]. simpl. lia.
      * exists ms. split; [reflexivity|lia].
    + exists ms. split; [reflexivity|lia].
Qed.

Lemma moves_of_users_total (db : DB.t) (team_id : Z) (overloaded : list User.t) :
  exists ms,
    Distribution.moves_of_users generate_content json_loads round1
      db team_id overloaded = Some ms /\
    (List.length ms <= 3 * List.length overloaded)%nat.
Proof.
  induction overloaded as [|u us (ms & IH & Hlen)]; simpl.
  - exists []. split; [reflexivity|simpl; lia].
  - destruct (moves_of_tasks_total db team_id u
                (Distribution.considered_tasks db u)) as (ms1 & -> & H1).
    rewrite IH. exists (ms1 ++ ms). split; [reflexivity|].
    rewrite length_app.
    assert (List.length (Distribution.considered_tasks db u) <= 3)%nat
      by apply firstn_le_length.
    lia.
Qed.

End RecommendFacts.

(** X3. A rebalance run reports an error exactly when the manager has no active
    team member; otherwise it produces a report, whatever the oracle replies
    (nothing, text that is not JSON, JSON that is not an object). *)
Theorem rebalance_error_iff_no_team
    (generate_content : Gemini.Prompt -> option string)
    (json_loads : string -> Json.outcome) (round1 : Q -> Q)
    (db : DB.t) (team_id : Z) (dry_run : bool) :
  match fst (Distribution.rebalance_team_workload
               generate_content json_loads round1 db team_id dry_run) with
  | Distribution.RebalanceError message =>
      message = "Equipe não encontrada" /\
      Distribution.team_members db team_id = []
  | Distribution.RebalanceReport _ =>
      Distribution.team_members db team_id <> []
  end.
Proof.
  unfold Distribution.rebalance_team_workload.
  destruct (Distribution.team_members db team_id) as [|u us] eqn:Et;
    [simpl; auto|].
  destruct (moves_of_users_total generate_content json_loads round1 db team_id
              (filter User.is_overloaded (u :: us))) as (ms & -> & _).
  simpl. discriminate.
Qed.

Lemma overloaded_not_underloaded (u : User.t) :
  User.is_overloaded u = true ->
  Py.Qlt_bool (User.workload_percentage u) 70 = false.
Proof.
  unfold User.is_overloaded. rewrite Qlt_bool_iff, Qlt_bool_false_iff. lra.
Qed.

Lemma disjoint_filters_length {A} (p q : A -> bool) (l : list A) :
  (forall x, p x = true -> q x = false) ->
  (List.length (filter p l) + List.length (filter q l) <= List.length l)%nat.
Proof.
  intro H. induction l as [|x l IH]; simpl; [lia|].
  destruct (p x) eqn:Ep.
  - rewrite (H x Ep). simpl. lia.
  - destruct (q x); simpl; lia.
Qed.

(** X4. The figures of a rebalance report: nobody is counted both as overloaded
    and as underloaded, so the two counts together never exceed the number of
    active team members; at most three moves are proposed per overloaded
    member; the summary counts the proposed moves; and the report is marked
    applied exactly when the run was not a dry run, even when nothing was
    proposed. *)
Theorem rebalance_report_figures
    (generate_content : Gemini.Prompt -> option string)
    (json_loads : string -> Json.outcome) (round1 : Q -> Q)
    (db : DB.t) (team_id : Z) (dry_run : bool) :
  match fst (Distribution.rebalance_team_workload
               generate_content json_loads round1 db team_id dry_run) with
  | Distribution.RebalanceError _ => True
  | Distribution.RebalanceReport r =>
      (Distribution.overloaded_count r + Distribution.underloaded_count r
       <= List.length (Distribution.team_members db team_id))%nat /\
      (List.length (Distribution.recommendations r)
       <= 3 * Distribution.overloaded_count r)%nat /\
      Distribution.summary r = List.length (Distribution.recommendations r) /\
      Distribution.applied r = negb dry_run /\
      (Distribution.overloaded_count r = 0%nat ->
       Distribution.recommendations r = [])
  end.
Proof.
  unfold Distribution.rebalance_team_workload.
  destruct (Distribution.team_members db team_id) as [|u us] eqn:Et;
    [exact I|].
  destruct (moves_of_users_total generate_content json_loads round1 db team_id
              (filter User.is_overloaded (u :: us))) as (ms & -> & Hlen).
  cbn [fst Distribution.overloaded_count Distribution.underloaded_count
       Distribution.recommendations Distribution.summary Distribution.applied].
  split; [apply disjoint_filters_length, overloaded_not_underloaded|].
  split; [exact Hlen|]. split; [reflexivity|]. split; [reflexivity|].
  intro H0. rewrite H0 in Hlen. destruct ms; [reflexivity|simpl in Hlen; lia].
Qed.

(** A missing work item and an empty candidate list are reported as errors
    of their own, the same whatever oracle is plugged in: the oracle is not
    consulted. *)
Theorem recommend_assignee_errors
    (generate_content : Gemini.Prompt -> option string)
    (json_loads : string -> Json.outcome) (round1 : Q -> Q)
    (db : DB.t) (task_id : Z) (team_id : option Z) :
  let r := Distribution.recommend_assignee generate_content json_loads round1
             db task_id team_id in
  match DB.task_by_id db task_id with
  | None => r = Distribution.error "Tarefa não encontrada"
  | Some task =>
      match Distribution._get_eligible_candidates db task team_id with
      | [] => r = Distribution.error "Nenhum colaborador disponível"
      | _ :: _ => True
      end
  end.
Proof.
  cbv zeta. unfold Distribution.recommend_assignee.
  destruct (DB.task_by_id db task_id) as [task|]; [|reflexivity].
  destruct (Distribution._get_eligible_candidates db task team_id) as [|c cs];
    [reflexivity|exact I].
Qed.

(** ** The engine when the oracle is unavailable *)

Lemma min_loop_map {A B} (f : A -> B) (key : B -> Q) (l : list A) (b : A) :
  Py.min_loop key (f b) (map f l) = f (Py.min_loop (fun x => key (f x)) b l).
Proof.
  revert b. induction l as [|x l IH]; intro b; simpl; [reflexivity|].
  destruct (Py.Qlt_bool (key (f x)) (key (f b))); apply IH.
Qed.

Lemma generate_oracle_down (json_loads : string -> Json.outcome)
    (task : TaskData.t) (candidates : list Candidate.t)
    (team_context : option TeamContext.t) :
  Gemini.generate_task_recommendation (fun _ => None) json_loads
    task candidates team_context
  = Gemini._fallback_recommendation candidates.
Proof.
  unfold Gemini.generate_task_recommendation.
  now destruct (Gemini._build_task_recommendation_prompt _ _ _).
Qed.

Lemma user_by_json_id_exists (db : DB.t) (u : User.t) :
  In u (DB.users db) ->
  exists u0, DB.user_by_json_id db (Json.JNum (inject_Z (User.id u))) = Some u0
             /\ User.id u0 = User.id u /\ In u0 (DB.users db).
Proof.
  intro Hin. unfold DB.user_by_json_id, DB.first.
  destruct (find _ (DB.users db)) as [u0|] eqn:E.
  - exists u0. split; [reflexivity|].
    apply find_some in E. destruct E as [Hin0 Hq].
    rewrite Qeq_bool_inject_Z in Hq. apply Z.eqb_eq in Hq. auto.
  - exfalso. pose proof (find_none _ _ E u Hin) as H. simpl in H.
    now rewrite Qeq_bool_inject_Z, Z.eqb_refl in H.
Qed.

Lemma eligible_in_users (db : DB.t) (task : Task.t) (team_id : option Z)
    (u : User.t) :
  In u (Distribution._get_eligible_candidates db task team_id) ->
  In u (DB.users db).
Proof.
  unfold Distribution._get_eligible_candidates. intro Hin.
  apply filter_In in Hin. destruct Hin as [Hin _].
  destruct team_id as [t|];
    [destruct (Py.truthy_int (Some t))|];
    repeat (apply filter_In in Hin; destruct Hin as [Hin _]); exact Hin.
Qed.

(** The value of the recommendation when the oracle is unavailable. *)
Lemma recommend_oracle_down_value
    (json_loads : string -> Json.outcome) (round1 : Q -> Q)
    (db : DB.t) (task_id : Z) (team_id : option Z) (task : Task.t) :
  DB.task_by_id db task_id = Some task ->
  Distribution._get_eligible_candidates db task team_id <> [] ->
  exists best u0,
    first_min (fun u => round1 (User.workload_percentage u)) best
      (Distribution._get_eligible_candidates db task team_id) /\
    In best (DB.users db) /\
    DB.user_by_json_id db (Json.JNum (inject_Z (User.id best))) = Some u0 /\
    Distribution.recommend_assignee (fun _ => None) json_loads round1
      db task_id team_id
    = Json.JDict
        (Json.dict_set
           (fallback_entries (Distribution._prepare_candidate_data round1 db best))
           "user_details" (Distribution.user_details u0)).
Proof.
  intros Ek Hne.
  unfold Distribution.recommend_assignee. rewrite Ek.
  destruct (Distribution._get_eligible_candidates db task team_id)
    as [|c cs] eqn:Ec; [congruence|].
  rewrite generate_oracle_down.
  destruct (min_by_first_min (fun u => round1 (User.workload_percentage u)) c cs)
    as (best & Hmin & Hfirst).
  assert (Hbest : In best (DB.users db)).
  { apply (eligible_in_users db task team_id). rewrite Ec.
    destruct Hfirst as (b & a & -> & _). apply in_or_app. right. now left. }
  destruct (user_by_json_id_exists db best Hbest) as (u0 & Eu & _).
  exists best, u0. repeat split; [exact Hfirst|exact Hbest|exact Eu|].
  unfold Gemini._fallback_recommendation, Py.min_by. cbn [map].
  rewrite (min_loop_map (Distribution._prepare_candidate_data round1 db)
             Gemini.workload_key cs c).
  change (fun x => Gemini.workload_key
                     (Distribution._prepare_candidate_data round1 db x))
    with (fun u => round1 (User.workload_percentage u)).
  simpl in Hmin. injection Hmin as Hmin. rewrite Hmin.
  unfold fallback_entries, Gemini.fallback_of.
  cbn [Distribution._prepare_candidate_data Candidate.id Candidate.name
       Gemini.opt_int Gemini.opt_str].
  cbn [Json.contains Json.lookup String.eqb Ascii.eqb Bool.eqb].
  cbn [Json.get Json.lookup String.eqb Ascii.eqb Bool.eqb].
  now rewrite Eu.
Qed.

(** X5. With the oracle unavailable, the recommendation for an existing work item
    with at least one candidate is the fallback over the eligible persons: it
    names the first eligible person of least (rounded) load percentage, with
    match score 50, carries no error, and is completed with the details of
    the person found under the recommended id. *)
Theorem recommend_assignee_oracle_down
    (json_loads : string -> Json.outcome) (round1 : Q -> Q)
    (db : DB.t) (task_id : Z) (team_id : option Z) (task : Task.t) :
  DB.task_by_id db task_id = Some task ->
  Distribution._get_eligible_candidates db task team_id <> [] ->
  exists best,
    first_min (fun u => round1 (User.workload_percentage u)) best
      (Distribution._get_eligible_candidates db task team_id) /\
    let r := Distribution.recommend_assignee (fun _ => None) json_loads round1
               db task_id team_id in
    Json.get r "recommended_user_id" = Json.JNum (inject_Z (User.id best)) /\
    Json.get r "recommended_user_name" = Json.JStr (User.full_name best) /\
    Json.get r "match_score" = Json.JNum 50 /\
    Json.contains r "error" = Some false /\
    Json.contains r "user_details" = Some true.
Proof.
  intros Ek Hne.
  destruct (recommend_oracle_down_value json_loads round1 db task_id team_id
              task Ek Hne) as (best & u0 & Hfirst & _ & _ & ->).
  exists best. split; [exact Hfirst|].
  cbv zeta. repeat split; reflexivity.
Qed.

Lemma recommend_assignee_oracle_down_witness :
  exists best,
    first_min (fun u => round1_model (User.workload_percentage u)) best
      (Distribution._get_eligible_candidates (team_db 38 (Some 4))
         (sample_item (Some 4)) (Some 1%Z)) /\
    let r := Distribution.recommend_assignee (fun _ => None) loads_default
               round1_model (team_db 38 (Some 4)) 7 (Some 1%Z) in
    Json.get r "recommended_user_id" = Json.JNum (inject_Z (User.id best)) /\
    Json.get r "recommended_user_name" = Json.JStr (User.full_name best) /\
    Json.get r "match_score" = Json.JNum 50 /\
    Json.contains r "error" = Some false /\
    Json.contains r "user_details" = Some true.
Proof.
  apply (recommend_assignee_oracle_down loads_default round1_model
           (team_db 38 (Some 4)) 7 (Some 1%Z) (sample_item (Some 4)) eq_refl).
  vm_compute. discriminate.
Defined.

(** ** The update and delete requests *)

Lemma task_by_id_id (db : DB.t) (task_id : Z) (task : Task.t) :
  DB.task_by_id db task_id = Some task ->
  In task (DB.tasks db) /\ Task.id task = task_id.
Proof.
  intro E. apply find_some in E. destruct E as [Hin Hid].
  apply Z.eqb_eq in Hid. now split.
Qed.

Lemma replace_row_ids (k : Task.t) (ks : list Task.t) :
  map Task.id (map (fun x => if (Task.id x =? Task.id k)%Z then k else x) ks)
  = map Task.id ks.
Proof.
  rewrite map_map. apply map_ext_in. intros x _.
  destruct (Task.id x =? Task.id k)%Z eqn:E; [|reflexivity].
  apply Z.eqb_eq in E. now symmetry.
Qed.

Lemma replace_row_others (k x : Task.t) (ks : list Task.t) :
  In x (map (fun y => if (Task.id y =? Task.id k)%Z then k else y) ks) ->
  x = k \/ In x ks.
Proof.
  intro H. apply in_map_iff in H. destruct H as (y & Hy & Hin).
  destruct (Task.id y =? Task.id k)%Z; [now left|right; now subst].
Qed.

Lemma set_if_keeps {A B C} (proj : B -> C) (o : option A) (f : B -> A -> B)
    (x : B) :
  (forall y v, proj (f y v) = proj y) -> proj (Routes.set_if o f x) = proj x.
Proof. intro H. destruct o; [apply H|reflexivity]. Qed.

(** X6. An update request never touches persons, skills or check-ins, whoever
    sends it and whatever it carries (a manager moving an item to another
    person, or changing its estimated hours, leaves every load as it was);
    the items keep their keys and their order, and every item other than the
    addressed one is left as it was. A refused request (404 for a missing
    item, 403 for a sender who neither holds the item nor is a manager or
    administrator) leaves the whole store as it was. *)
Theorem update_task_frame (db : DB.t) (now task_id : Z)
    (task_data : Routes.TaskUpdate) (current_user : User.t) :
  let r := Routes.update_task db now task_id task_data current_user in
  DB.users (snd r) = DB.users db /\
  DB.skills (snd r) = DB.skills db /\
  DB.user_skills (snd r) = DB.user_skills db /\
  DB.wellbeing_checks (snd r) = DB.wellbeing_checks db /\
  map Task.id (DB.tasks (snd r)) = map Task.id (DB.tasks db) /\
  (forall k, In k (DB.tasks (snd r)) -> Task.id k <> task_id ->
             In k (DB.tasks db)) /\
  match fst r with
  | Routes.HTTPException code _ =>
      snd r = db /\
      (code = 404%Z /\ DB.task_by_id db task_id = None \/
       code = 403%Z /\ DB.task_by_id db task_id <> None /\
       User.role current_user = UserRole.COLABORADOR)
  | Routes.Ok k => Task.id k = task_id /\ snd r = DB.update_task db k
  end.
Proof.
  cbv zeta. unfold Routes.update_task.
  destruct (DB.task_by_id db task_id) as [task|] eqn:Ek.
  2:{ cbn [fst snd]. repeat split; auto. }
  destruct (task_by_id_id db task_id task Ek) as [Hin Hid].
  match goal with |- context [if negb ?c then _ else _] => destruct c eqn:Ec end;
    cbn [negb fst snd].
  2:{ repeat split; auto. right. repeat split; [discriminate|].
      apply orb_false_iff in Ec. destruct Ec as [_ Ec].
      destruct (User.role current_user); try reflexivity; discriminate. }
  match goal with |- context [DB.update_task db ?k] => set (k' := k) end.
  assert (Hk : Task.id k' = task_id).
  { subst k'. repeat split_if; cbn [Task.set_started_at Task.set_completed_at Task.id];
      field_kept_by @set_if_keeps; exact Hid. }
  repeat split; auto.
  - unfold DB.update_task. cbn [DB.tasks]. apply replace_row_ids.
  - intros k Hk' Hne. unfold DB.update_task in Hk'. cbn [DB.tasks] in Hk'.
    apply replace_row_others in Hk'. destruct Hk' as [->|Hk']; [|exact Hk'].
    contradiction.
Qed.

(** X7. A collaborator is served only for an item they hold, and can then change
    nothing but the status, the actual hours and the two time stamps: title,
    description, priority, estimated hours, assignee, creator, required
    skills and due date of the stored item stay as they were, whatever the
    request carries. *)
Theorem update_task_collaborator_scope (db : DB.t) (now task_id : Z)
    (task_data : Routes.TaskUpdate) (current_user : User.t) (task : Task.t) :
  DB.task_by_id db task_id = Some task ->
  User.role current_user = UserRole.COLABORADOR ->
  match fst (Routes.update_task db now task_id task_data current_user) with
  | Routes.HTTPException code _ =>
      code = 403%Z /\ Task.assigned_to task <> Some (User.id current_user)
  | Routes.Ok k =>
      Task.assigned_to task = Some (User.id current_user) /\
      Task.title k = Task.title task /\
      Task.description k = Task.description task /\
      Task.priority k = Task.priority task /\
      Task.estimated_hours k = Task.estimated_hours task /\
      Task.assigned_to k = Task.assigned_to task /\
      Task.created_by k = Task.created_by task /\
      Task.required_skills k = Task.required_skills task /\
      Task.due_date k = Task.due_date task /\
      (Task.status k = Task.status task \/
       Routes.upd_status task_data = Some (Task.status k)) /\
      (Task.actual_hours k = Task.actual_hours task \/
       Routes.upd_actual_hours task_data = Some (Task.actual_hours k))
  end.
Proof.
  intros Ek Er. unfold Routes.update_task. rewrite Ek, Er. cbn [UserRole.eqb orb].
  destruct (Task.assigned_to task) as [a|] eqn:Ea.
  2:{ cbn. split; [reflexivity|discriminate]. }
  destruct (a =? User.id current_user)%Z eqn:E.
  2:{ cbn. split; [reflexivity|]. intro H. injection H as ->.
      now rewrite Z.eqb_refl in E. }
  apply Z.eqb_eq in E. subst a. cbn [orb negb andb fst].
  destruct task_data as [ti de st pr eh ah asg].
  cbn [Routes.upd_status Routes.upd_actual_hours Routes.set_if].
  destruct st as [s|], ah as [h|]; cbn [Routes.set_if Routes.is_status];
    repeat match goal with
           | |- context [if ?c then _ else _] => destruct c
           end; cbn; rewrite ?Ea; repeat split; auto.
Qed.

Lemma update_task_collaborator_scope_witness :
  match fst (Routes.update_task (team_db 38 (Some 4)) 100 7
               (Routes.mkTaskUpdate (Some "Outro") None
                  (Some TaskStatus.IN_PROGRESS) (Some TaskPriority.LOW)
                  (Some 1) (Some 2) (Some 3%Z))
               (sample_user 2 "ana" UserRole.COLABORADOR (Some 1%Z) 38)) with
  | Routes.HTTPException code _ =>
      code = 403%Z /\
      Task.assigned_to (sample_item (Some 4))
      <> Some (User.id (sample_user 2 "ana" UserRole.COLABORADOR (Some 1%Z) 38))
  | Routes.Ok k =>
      Task.assigned_to (sample_item (Some 4))
      = Some (User.id (sample_user 2 "ana" UserRole.COLABORADOR (Some 1%Z) 38)) /\
      Task.title k = Task.title (sample_item (Some 4)) /\
      Task.description k = Task.description (sample_item (Some 4)) /\
      Task.priority k = Task.priority (sample_item (Some 4)) /\
      Task.estimated_hours k = Task.estimated_hours (sample_item (Some 4)) /\
      Task.assigned_to k = Task.assigned_to (sample_item (Some 4)) /\
      Task.created_by k = Task.created_by (sample_item (Some 4)) /\
      Task.required_skills k = Task.required_skills (sample_item (Some 4)) /\
      Task.due_date k = Task.due_date (sample_item (Some 4)) /\
      (Task.status k = Task.status (sample_item (Some 4)) \/
       Routes.upd_status
         (Routes.mkTaskUpdate (Some "Outro") None
            (Some TaskStatus.IN_PROGRESS) (Some TaskPriority.LOW)
            (Some 1) (Some 2) (Some 3%Z)) = Some (Task.status k)) /\
      (Task.actual_hours k = Task.actual_hours (sample_item (Some 4)) \/
       Routes.upd_actual_hours
         (Routes.mkTaskUpdate (Some "Outro") None
            (Some TaskStatus.IN_PROGRESS) (Some TaskPriority.LOW)
            (Some 1) (Some 2) (Some 3%Z)) = Some (Task.actual_hours k))
  end.
Proof.
  apply (update_task_collaborator_scope (team_db 38 (Some 4)) 100 7
           (Routes.mkTaskUpdate (Some "Outro") None
              (Some TaskStatus.IN_PROGRESS) (Some TaskPriority.LOW)
              (Some 1) (Some 2) (Some 3%Z))
           (sample_user 2 "ana" UserRole.COLABORADOR (Some 1%Z) 38)
           (sample_item (Some 4))); reflexivity.
Defined.

(** X8. The two time stamps are written at most once: a served update request
    leaves an existing start (completion) stamp as it was, and writes the
    clock reading into an empty one exactly when the request carries the
    status in-progress (completed). *)
Theorem update_task_stamps_once (db : DB.t) (now task_id : Z)
    (task_data : Routes.TaskUpdate) (current_user : User.t) :
  match DB.task_by_id db task_id,
        fst (Routes.update_task db now task_id task_data current_user) with
  | Some task, Routes.Ok k =>
      Task.started_at k =
        (match Task.started_at task with
         | Some t => Some t
         | None =>
             if Routes.is_status (Routes.upd_status task_data)
                  TaskStatus.IN_PROGRESS
             then Some now else None
         end) /\
      Task.completed_at k =
        (match Task.completed_at task with
         | Some t => Some t
         | None =>
             if Routes.is_status (Routes.upd_status task_data)
                  TaskStatus.COMPLETED
             then Some now else None
         end)
  | _, _ => True
  end.
Proof.
  unfold Routes.update_task.
  destruct (DB.task_by_id db task_id) as [task|]; [|exact I].
  match goal with |- context [if negb ?c then _ else _] => destruct c end;
    cbn [negb fst]; [|exact I].
  cbv zeta.
  match goal with
  | |- context [Routes.is_none (Task.started_at ?t)] => set (t2 := t)
  end.
  assert (H1 : Task.started_at t2 = Task.started_at task).
  { subst t2. repeat split_if; field_kept_by @set_if_keeps; reflexivity. }
  assert (H2 : Task.completed_at t2 = Task.completed_at task).
  { subst t2. repeat split_if; field_kept_by @set_if_keeps; reflexivity. }
  clearbody t2. rewrite <- H1, <- H2.
  destruct (Routes.is_status (Routes.upd_status task_data)
              TaskStatus.IN_PROGRESS),
           (Routes.is_status (Routes.upd_status task_data)
              TaskStatus.COMPLETED);
    destruct (Task.started_at t2) as [t1|] eqn:E1,
             (Task.completed_at t2) as [t3|] eqn:E2;
    cbn; rewrite ?E1, ?E2; cbn; rewrite ?E1, ?E2; split; reflexivity.
Qed.

Lemma find_filter_out {A} (p : A -> bool) (l : list A) :
  find p (filter (fun x => negb (p x)) l) = None.
Proof.
  induction l as [|x l IH]; [reflexivity|]. simpl.
  destruct (p x) eqn:E; simpl; [exact IH|]. now rewrite E.
Qed.

(** X9. A delete request for a missing item answers 404 and leaves the store as
    it was. Otherwise it answers with the item's key; afterwards no item with
    that key is found, the remaining items are exactly the others, unchanged
    and in their order; and the persons keep their keys and their order, each
    row being as it was except for the load of the person who held the
    item. *)
Theorem delete_task_spec (db : DB.t) (task_id : Z) :
  let r := Routes.delete_task db task_id in
  match DB.task_by_id db task_id with
  | None => r = (Routes.HTTPException 404 "Tarefa não encontrada", db)
  | Some task =>
      fst r = Routes.Ok task_id /\
      DB.task_by_id (snd r) task_id = None /\
      DB.tasks (snd r)
      = filter (fun k => negb (Task.id k =? task_id)%Z) (DB.tasks db) /\
      map User.id (DB.users (snd r)) = map User.id (DB.users db) /\
      (forall u, In u (DB.users (snd r)) ->
                 In u (DB.users db) \/
                 Task.assigned_to task = Some (User.id u)) /\
      DB.wellbeing_checks (snd r) = DB.wellbeing_checks db
  end.
Proof.
  cbv zeta. unfold Routes.delete_task.
  destruct (DB.task_by_id db task_id) as [task|] eqn:Ek; [|reflexivity].
  destruct (task_by_id_id db task_id task Ek) as [Hin Hid].
  cbn [fst snd].
  match goal with |- context [DB.delete_task ?d task] => set (db1 := d) end.
  assert (Ht : DB.tasks db1 = DB.tasks db).
  { subst db1. destruct (_ && _); [|reflexivity].
    destruct (Task.assigned_to task); [|reflexivity].
    destruct (Task.estimated_hours task); [|reflexivity].
    now destruct (DB.user_by_id db _). }
  assert (Hw : DB.wellbeing_checks db1 = DB.wellbeing_checks db).
  { subst db1. destruct (_ && _); [|reflexivity].
    destruct (Task.assigned_to task); [|reflexivity].
    destruct (Task.estimated_hours task); [|reflexivity].
    now destruct (DB.user_by_id db _). }
  assert (Hu : map User.id (DB.users db1) = map User.id (DB.users db) /\
               forall u, In u (DB.users db1) ->
                 In u (DB.users db) \/
                 Task.assigned_to task = Some (User.id u)).
  { subst db1. destruct (_ && _); [|now auto].
    destruct (Task.assigned_to task) as [a|]; [|now auto].
    destruct (Task.estimated_hours task) as [h|]; [|now auto].
    destruct (DB.user_by_id db a) as [u0|] eqn:Eu; [|now auto].
    apply find_some in Eu. destruct Eu as [_ Eu]. apply Z.eqb_eq in Eu.
    unfold DB.update_user. cbn [DB.users User.set_current_workload User.id].
    split.
    - rewrite map_map. apply map_ext_in. intros x _.
      destruct (User.id x =? User.id u0)%Z eqn:E; [|reflexivity].
      apply Z.eqb_eq in E. now rewrite E.
    - intros u Hu. apply in_map_iff in Hu. destruct Hu as (x & Hx & Hxin).
      destruct (User.id x =? User.id u0)%Z.
      + right. subst u. cbn. now rewrite Eu.
      + left. now subst u. }
  unfold DB.delete_task. cbn [DB.tasks DB.users DB.wellbeing_checks].
  unfold DB.task_by_id, DB.first. cbn [DB.tasks]. rewrite Ht, Hid.
  repeat split; try tauto.
  apply (find_filter_out (fun k => (Task.id k =? task_id)%Z)).
Qed.

(** ** Automatic distribution *)

Lemma lookup_dict_set_same (d : Json.dict) (k : string) (v : Json.value) :
  Json.lookup (Json.dict_set d k v) k = Some v.
Proof.
  induction d as [|[k' v'] d IH]; simpl.
  - now rewrite String.eqb_refl.
  - destruct (String.eqb k' k) eqn:E; simpl; now rewrite E.
Qed.

Lemma lookup_dict_set_other (d : Json.dict) (k k' : string) (v : Json.value) :
  k <> k' -> Json.lookup (Json.dict_set d k v) k' = Json.lookup d k'.
Proof.
  intro Hne. induction d as [|[k0 v0] d IH]; simpl.
  - destruct (String.eqb k k') eqn:E; [|reflexivity].
    apply String.eqb_eq in E. contradiction.
  - destruct (String.eqb k0 k) eqn:E; simpl.
    + apply String.eqb_eq in E. subst k0.
      destruct (String.eqb k k') eqn:E'; [|reflexivity].
      apply String.eqb_eq in E'. contradiction.
    + now rewrite IH.
Qed.

(** X10. Automatic distribution writes to the store only when it reports success:
    without the auto-assign flag the store is never changed; with it, either
    the store is left as it was, or the result carries [assigned = True] and
    the success message and the new store is the one the assignment applier
    produced from the recommendation for the item. *)
Theorem auto_distribute_writes_on_success
    (generate_content : Gemini.Prompt -> option string)
    (json_loads : string -> Json.outcome) (round1 : Q -> Q)
    (db : DB.t) (task_id : Z) (auto_assign : bool) :
  let r := Distribution.auto_distribute_task generate_content json_loads round1
             db task_id auto_assign in
  let recommendation :=
    Distribution.recommend_assignee generate_content json_loads round1
      db task_id None in
  (auto_assign = false -> snd r = db) /\
  (snd r = db \/
   auto_assign = true /\
   Json.get (fst r) "assigned" = Json.JBool true /\
   Json.get (fst r) "message" = Json.JStr "Tarefa atribuída com sucesso" /\
   Json.contains recommendation "error" = Some false /\
   exists task,
     DB.task_by_id db task_id = Some task /\
     Distribution.apply_assignment db task recommendation = Some (snd r)).
Proof.
  cbv zeta. unfold Distribution.auto_distribute_task.
  destruct (Json.contains _ "error") as [[|]|] eqn:Ee;
    try (split; [reflexivity|now left]).
  destruct auto_assign; [|split; [reflexivity|now left]].
  split; [discriminate|].
  destruct (Json.contains _ "recommended_user_id") as [[|]|];
    try (now left).
  destruct (Distribution.recommend_assignee _ _ _ _ _ _) as [| | | | | | |d];
    try (now left).
  destruct (DB.task_by_id db task_id) as [task|] eqn:Ek; [|now left].
  destruct (Distribution.apply_assignment db task (Json.JDict d)) as [db'|]
    eqn:Ea; [|now left].
  right. cbn [fst snd Json.get].
  rewrite (lookup_dict_set_same _ "message").
  rewrite (lookup_dict_set_other _ "message" "assigned")
    by (intro H; discriminate H).
  rewrite lookup_dict_set_same.
  split; [reflexivity|]. split; [reflexivity|]. split; [reflexivity|].
  split; [reflexivity|]. exists task. now split.
Qed.

Lemma total_after_adjust (db : DB.t) (u : User.t) (h : Q) :
  NoDup (map User.id (DB.users db)) -> In u (DB.users db) ->
  Py.sumQ (map User.current_workload
             (adjust (User.id u) (fun l => l + h) (DB.users db)))
  == total_load db + h.
Proof.
  intros Hnd Hin.
  rewrite (adjust_total (User.id u) (fun l => l + h) (DB.users db) u Hnd
             (find_by_id_In (DB.users db) u Hnd Hin)).
  unfold total_load. ring.
Qed.

(** The rows the model writes on an automatic assignment while the oracle
    is unavailable, as numbers. *)
Lemma oracle_down_assignment_rows
    (json_loads : string -> Json.outcome) (round1 : Q -> Q)
    (db : DB.t) (task_id : Z) (task : Task.t) :
  well_formed db ->
  DB.task_by_id db task_id = Some task ->
  Distribution._get_eligible_candidates db task None <> [] ->
  exists best,
    first_min (fun u => round1 (User.workload_percentage u)) best
      (Distribution._get_eligible_candidates db task None) /\
    let r := Distribution.auto_distribute_task (fun _ => None) json_loads
               round1 db task_id true in
    Json.get (fst r) "assigned" = Json.JBool true /\
    Json.get (fst r) "recommended_user_id"
    = Json.JNum (inject_Z (User.id best)) /\
    (exists k, DB.task_by_id (snd r) task_id = Some k /\
               Task.assigned_to k = Some (User.id best) /\
               Task.status k = TaskStatus.PENDING /\
               Task.ai_match_score k = Some (Json.JNum 50) /\
               Task.estimated_hours k = Task.estimated_hours task) /\
    DB.users (snd r)
    = (match Task.estimated_hours task with
       | Some h =>
           if Py.truthy_float (Some h)
           then adjust (User.id best) (fun l => l + h) (DB.users db)
           else DB.users db
       | None => DB.users db
       end) /\
    total_load (snd r) == total_load db + hours_of task.
Proof.
  intros Hwf Ek Hne.
  destruct (recommend_oracle_down_value json_loads round1 db task_id None
              task Ek Hne) as (best & u0 & Hfirst & Hin & Eu & Er).
  rewrite (user_by_json_id_inject_Z db best Hwf Hin) in Eu.
  injection Eu as <-.
  exists best. split; [exact Hfirst|]. cbv zeta.
  unfold Distribution.auto_distribute_task. rewrite Er, Ek.
  unfold fallback_entries, Gemini.fallback_of.
  cbn [Distribution._prepare_candidate_data Candidate.id Candidate.name
       Gemini.opt_int Gemini.opt_str].
  cbn [Json.dict_set Json.contains Json.lookup String.eqb Ascii.eqb Bool.eqb].
  unfold Distribution.apply_assignment.
  cbn [Json.get Json.get_default Json.lookup String.eqb Ascii.eqb Bool.eqb].
  rewrite column_int_inject_Z.
  cbn [Distribution.column_float Distribution.column_text andb negb].
  rewrite (user_by_json_id_inject_Z db best Hwf Hin).
  destruct Hwf as (Hnd & _ & _).
  destruct (task_by_id_id db task_id task Ek) as [Hkin Hid].
  assert (Hfind : forall dbu k',
            Task.id k' = task_id ->
            DB.tasks dbu = DB.tasks (DB.update_task db k') ->
            DB.task_by_id dbu task_id = Some k').
  { intros dbu k' Hk' Ht. unfold DB.task_by_id, DB.first. rewrite Ht.
    unfold DB.update_task. cbn [DB.tasks].
    rewrite find_map_stable.
    - fold (DB.first (fun k => (Task.id k =? task_id)%Z) (DB.tasks db)).
      fold (DB.task_by_id db task_id). rewrite Ek. cbn [option_map].
      now rewrite Hid, Hk', Z.eqb_refl.
    - intro x. destruct (Task.id x =? Task.id k')%Z eqn:E; [|reflexivity].
      apply Z.eqb_eq in E. now rewrite E. }
  unfold hours_of.
  destruct (Task.estimated_hours task) as [h|] eqn:Eh.
  - destruct (Py.truthy_float (Some h)) eqn:Et; cbn [fst snd].
    + repeat split; try reflexivity.
      * eexists. split; [apply Hfind; [|reflexivity]; exact Hid|].
        cbn. now rewrite Eh.
      * unfold DB.update_user, DB.update_task. cbn [DB.users].
        unfold adjust. apply map_ext_in. intros x Hx. cbn.
        destruct (User.id x =? User.id best)%Z eqn:E; [|reflexivity].
        apply Z.eqb_eq in E.
        now rewrite (NoDup_map_inj User.id _ x best Hnd Hx Hin E).
      * unfold total_load at 1.
        rewrite (update_user_adjust (DB.update_task db _) best
                   (fun l => l + h) Hnd Hin).
        cbn [DB.users].
        change (DB.users (DB.update_task db ?k)) with (DB.users db).
        apply total_after_adjust; assumption.
    + repeat split; try reflexivity.
      * eexists. split; [apply Hfind; [|reflexivity]; exact Hid|].
        cbn. now rewrite Eh.
      * unfold total_load, DB.update_task. cbn [DB.users]. ring.
  - cbn [Py.truthy_float fst snd]. repeat split; try reflexivity.
    + eexists. split; [apply Hfind; [|reflexivity]; exact Hid|].
      cbn. now rewrite Eh.
    + unfold total_load, DB.update_task. cbn [DB.users]. ring.
Qed.


(** X11. Automatic assignment with the oracle unavailable, in a store with unique
    keys whose loads and estimated hours are whole numbers, for an existing
    item with at least one eligible person: the item goes to the first
    eligible person of least (rounded) load percentage, as pending, with
    match score 50; that person's load rises by the item's estimated hours
    (when there are any) and every other row of persons stays as it was;
    every load is again a whole number, which the integer column keeps as it
    is. In particular the person who held the item before is not relieved:
    the total load of the store rises by the item's hours. *)
Theorem auto_assign_oracle_down
    (json_loads : string -> Json.outcome) (round1 : Q -> Q)
    (db : DB.t) (task_id : Z) (task : Task.t) :
  well_formed db ->
  whole_loads db = true -> whole_hours db = true ->
  DB.task_by_id db task_id = Some task ->
  Distribution._get_eligible_candidates db task None <> [] ->
  exists best,
    first_min (fun u => round1 (User.workload_percentage u)) best
      (Distribution._get_eligible_candidates db task None) /\
    let r := Distribution.auto_distribute_task (fun _ => None) json_loads
               round1 db task_id true in
    Json.get (fst r) "assigned" = Json.JBool true /\
    Json.get (fst r) "recommended_user_id"
    = Json.JNum (inject_Z (User.id best)) /\
    (exists k, DB.task_by_id (snd r) task_id = Some k /\
               Task.assigned_to k = Some (User.id best) /\
               Task.status k = TaskStatus.PENDING /\
               Task.ai_match_score k = Some (Json.JNum 50) /\
               Task.estimated_hours k = Task.estimated_hours task) /\
    DB.users (snd r)
    = (match Task.estimated_hours task with
       | Some h =>
           if Py.truthy_float (Some h)
           then adjust (User.id best) (fun l => l + h) (DB.users db)
           else DB.users db
       | None => DB.users db
       end) /\
    whole_loads (snd r) = true /\
    total_load (snd r) == total_load db + hours_of task.
Proof.
  intros Hwf Hwl Hwh Ek Hne.
  destruct (oracle_down_assignment_rows json_loads round1 db task_id task
              Hwf Ek Hne) as (best & Hfirst & Hrows).
  exists best. split; [exact Hfirst|].
  cbv zeta in Hrows |- *.
  destruct Hrows as (Hassigned & Hrid & Hitem & Husers & Htotal).
  split; [exact Hassigned|]. split; [exact Hrid|]. split; [exact Hitem|].
  split; [exact Husers|]. split; [|exact Htotal].
  unfold whole_loads. rewrite Husers.
  destruct (task_by_id_id db task_id task Ek) as [Hkin _].
  pose proof Hwh as Hk. unfold whole_hours in Hk.
  rewrite forallb_forall in Hk. specialize (Hk task Hkin).
  destruct (Task.estimated_hours task) as [h|]; [|exact Hwl].
  destruct (Py.truthy_float (Some h)); [|exact Hwl].
  apply whole_loads_adjust; [|exact Hwl].
  intros l Hl. now apply whole_plus.
Qed.

Lemma auto_assign_oracle_down_witness :
  exists best,
    first_min (fun u => round1_model (User.workload_percentage u)) best
      (Distribution._get_eligible_candidates (team_db 20 (Some 4))
         (sample_item (Some 4)) None) /\
    let r := Distribution.auto_distribute_task (fun _ => None) loads_default
               round1_model (team_db 20 (Some 4)) 7 true in
    Json.get (fst r) "assigned" = Json.JBool true /\
    Json.get (fst r) "recommended_user_id"
    = Json.JNum (inject_Z (User.id best)) /\
    (exists k, DB.task_by_id (snd r) 7 = Some k /\
               Task.assigned_to k = Some (User.id best) /\
               Task.status k = TaskStatus.PENDING /\
               Task.ai_match_score k = Some (Json.JNum 50) /\
               Task.estimated_hours k
               = Task.estimated_hours (sample_item (Some 4))) /\
    DB.users (snd r)
    = (match Task.estimated_hours (sample_item (Some 4)) with
       | Some h =>
           if Py.truthy_float (Some h)
           then adjust (User.id best) (fun l => l + h)
                  (DB.users (team_db 20 (Some 4)))
           else DB.users (team_db 20 (Some 4))
       | None => DB.users (team_db 20 (Some 4))
       end) /\
    whole_loads (snd r) = true /\
    total_load (snd r)
    == total_load (team_db 20 (Some 4)) + hours_of (sample_item (Some 4)).
Proof.
  apply (auto_assign_oracle_down loads_default round1_model
           (team_db 20 (Some 4)) 7 (sample_item (Some 4))
           (team_db_well_formed 20 (Some 4)) eq_refl eq_refl eq_refl).
  vm_compute. discriminate.
Defined.

(** ** Code fences around a reply *)

Section Fences.

Local Open Scope string_scope.

Lemma list_of_append (a b : string) :
  list_ascii_of_string (a ++ b)
  = (list_ascii_of_string a ++ list_ascii_of_string b)%list.
Proof.
  induction a as [|c a IH]; simpl; [reflexivity|]. now rewrite IH.
Qed.

Lemma drop_all_fixed (fuel : nat) (pats : list (list ascii)) (s : list ascii) :
  Json.drop_one pats s = None -> Json.drop_all fuel pats s = s.
Proof. intro H. destruct fuel; simpl; [reflexivity|]. now rewrite H. Qed.

Lemma strip_unchanged (l : list ascii) :
  Json.drop_one Json.whitespace l = None ->
  Json.drop_one (map (@rev ascii) Json.whitespace) (rev l) = None ->
  Json.rstrip (Json.lstrip l) = l.
Proof.
  intros Hl Hr. unfold Json.lstrip. rewrite (drop_all_fixed _ _ _ Hl).
  unfold Json.rstrip. rewrite (drop_all_fixed _ _ _ Hr).
  apply rev_involutive.
Qed.

Lemma strip_fenced (body : string) :
  Json.strip ("```" ++ body ++ "```") = "```" ++ body ++ "```".
Proof.
  unfold Json.strip. rewrite strip_unchanged.
  - apply string_of_list_ascii_of_string.
  - reflexivity.
  - rewrite (list_of_append "```" (body ++ "```")), (list_of_append body "```").
    rewrite app_assoc, rev_app_distr. reflexivity.
Qed.

Lemma endswith_fence (s : string) : Json.endswith (s ++ "```") "```" = true.
Proof.
  unfold Json.endswith. rewrite list_of_append, rev_app_distr. reflexivity.
Qed.

Lemma slice_off_fence (s : string) : Json.slice_to_minus 3 (s ++ "```") = s.
Proof.
  unfold Json.slice_to_minus. cbv zeta. rewrite list_of_append, length_app.
  cbn [List.length list_ascii_of_string].
  replace (List.length (list_ascii_of_string s) + 3 - 3)%nat
    with (List.length (list_ascii_of_string s) + 0)%nat by lia.
  rewrite firstn_app_2. cbn [firstn]. rewrite app_nil_r.
  apply string_of_list_ascii_of_string.
Qed.

(** X12. A reply wrapped in a code fence is read as its body, provided that the
    text after the opening fence does not itself start with three backticks.
    With the fence [```json ... ```] around [body] the cleaned text is then
    the stripped body, so the reply is read as the decoder reads the
    stripped body: its value when it decodes, the parse-error result that
    carries the whole reply when the decoder rejects it with a decode error,
    and no result (the exception leaves the method) when the decoder fails
    otherwise. The same cleaned text comes out of the plain fence
    [``` ... ```] when the text after it does not start with [json]. *)
Theorem fenced_reply_is_read_as_body
    (json_loads : string -> Json.outcome) (body : string) :
  Json.startswith (body ++ "```") "```" = false ->
  Gemini.clean_response ("```json" ++ body ++ "```") = Json.strip body /\
  Gemini._parse_json_response json_loads ("```json" ++ body ++ "```")
  = (match json_loads (Json.strip body) with
     | Json.Decoded v => Some v
     | Json.Raises Json.JSONDecodeError =>
         Some (Json.JDict
                 [ ("error", Json.JStr "Erro ao processar resposta da IA");
                   ("raw_response", Json.JStr ("```json" ++ body ++ "```")) ])
     | Json.Raises Json.RecursionError | Json.Raises Json.ValueError => None
     end) /\
  (Json.startswith (body ++ "```") "json" = false ->
   Gemini.clean_response ("```" ++ body ++ "```") = Json.strip body).
Proof.
  intro Hs.
  assert (H1 : Gemini.clean_response ("```json" ++ body ++ "```")
               = Json.strip body).
  { unfold Gemini.clean_response. cbv zeta.
    change ("```json" ++ body ++ "```")
      with ("```" ++ ("json" ++ body) ++ "```").
    rewrite strip_fenced.
    change ("```" ++ ("json" ++ body) ++ "```")
      with ("```json" ++ body ++ "```").
    change (Json.startswith ("```json" ++ body ++ "```") "```json") with true.
    cbv iota.
    change (Json.slice_from 7 ("```json" ++ body ++ "```"))
      with (string_of_list_ascii (list_ascii_of_string (body ++ "```"))).
    rewrite string_of_list_ascii_of_string, Hs, endswith_fence.
    now rewrite slice_off_fence. }
  split; [exact H1|]. split.
  - unfold Gemini._parse_json_response. rewrite H1.
    destruct (json_loads (Json.strip body)) as [v|[| |]]; reflexivity.
  - intro Hj. unfold Gemini.clean_response. cbv zeta.
    rewrite strip_fenced.
    assert (E : Json.startswith ("```" ++ body ++ "```") "```json" = false).
    { unfold Json.startswith in *. exact Hj. }
    rewrite E.
    change (Json.startswith ("```" ++ body ++ "```") "```") with true.
    cbv iota.
    change (Json.slice_from 3 ("```" ++ body ++ "```"))
      with (string_of_list_ascii (list_ascii_of_string (body ++ "```"))).
    rewrite string_of_list_ascii_of_string, endswith_fence.
    now rewrite slice_off_fence.
Qed.

Lemma fenced_reply_is_read_as_body_witness :
  Gemini.clean_response ("```json" ++ reply_bruno ++ "```")
  = Json.strip reply_bruno /\
  Gemini._parse_json_response loads_default ("```json" ++ reply_bruno ++ "```")
  = (match loads_default (Json.strip reply_bruno) with
     | Json.Decoded v => Some v
     | Json.Raises Json.JSONDecodeError =>
         Some (Json.JDict
                 [ ("error", Json.JStr "Erro ao processar resposta da IA");
                   ("raw_response",
                    Json.JStr ("```json" ++ reply_bruno ++ "```")) ])
     | Json.Raises Json.RecursionError | Json.Raises Json.ValueError => None
     end) /\
  (Json.startswith (reply_bruno ++ "```") "json" = false ->
   Gemini.clean_response ("```" ++ reply_bruno ++ "```")
   = Json.strip reply_bruno).
Proof.
  apply (fenced_reply_is_read_as_body loads_default reply_bruno). reflexivity.
Defined.

(** The proviso is needed: a body that starts with three backticks loses
    them too. *)
Example fence_inside_fence :
  Gemini.clean_response ("```json" ++ "```{}" ++ "```") = "{}" /\
  Json.strip "```{}" = "```{}".
Proof. split; reflexivity. Qed.

End Fences.

(** ** Burnout detection *)

Lemma mostly_low_iff {A} (score : A -> Z) (checks : list A) :
  checks <> [] ->
  (Sentiment.mostly_low score checks = true
   <-> (List.length checks < 2 * low_count score checks)%nat).
Proof.
  intro Hne. unfold Sentiment.mostly_low, low_count, Py.len.
  rewrite Qlt_bool_iff.
  set (c := List.length (filter _ checks)).
  destruct checks as [|x l]; [congruence|].
  cbn [List.length]. set (n := List.length l).
  unfold Qlt, Qdiv, Qmult, Qinv, inject_Z. cbn [Qnum Qden].
  rewrite Nat2Z.inj_succ. unfold Z.succ.
  destruct (Z.of_nat n + 1)%Z eqn:E; try lia.
  cbn [Qnum Qden]. lia.
Qed.

Lemma steady_scores_do_not_decline (scores : list Z) :
  List.length scores = 3%nat -> Sentiment._check_declining_trend scores = false.
Proof.
  intro H. destruct scores as [|a [|b [|c [|d l]]]]; try discriminate.
  unfold Sentiment._check_declining_trend. cbn [List.length Nat.ltb Nat.leb].
  cbv zeta. change (Py.lastn 3 [a; b; c]) with [a; b; c].
  cbn [firstn]. apply Qlt_bool_false_iff.
  set (m := Sentiment.mean [a; b; c]). lra.
Qed.

(** X13. The burnout detection answers with the insufficient-data result exactly
    when the window holds fewer than three check-ins. Otherwise the risk
    score lies between 0 and 100; the pattern flag compares it with the
    threshold; the severity is high from 80, low below 50 and medium in
    between, so that high severity is reported only when both mood and energy
    decline, and the score is 100 only when all four patterns hold; a
    consistently-low pattern holds exactly when more than half of the
    check-ins score 2 or less; the list of recommendations is never empty,
    and it is the single advice to keep monitoring exactly when neither
    decline nor consistently low energy was found (consistently low mood
    alone brings no advice of its own). *)
Theorem burnout_analysis_shape (db : DB.t) (now user_id threshold : Z) :
  let window := burnout_window db now user_id in
  match Sentiment.detect_burnout_patterns db now user_id threshold with
  | Sentiment.InsufficientData flag _ =>
      flag = false /\ (List.length window < 3)%nat
  | Sentiment.Analysis a =>
      let p := Sentiment.patterns a in
      let risk := Sentiment.risk_score a in
      (3 <= List.length window)%nat /\
      (0 <= risk <= 100)%Z /\
      Sentiment.has_pattern a = (threshold <=? risk)%Z /\
      (Sentiment.severity a = "high" <-> (80 <= risk)%Z) /\
      (Sentiment.severity a = "low" <-> (risk < 50)%Z) /\
      (Sentiment.severity a = "high" ->
       Sentiment.declining_mood p = true /\
       Sentiment.declining_energy p = true) /\
      (risk = 100%Z <->
       Sentiment.declining_mood p = true /\
       Sentiment.declining_energy p = true /\
       Sentiment.consistent_low_mood p = true /\
       Sentiment.consistent_low_energy p = true) /\
      (Sentiment.consistent_low_mood p = true <->
       (List.length window
        < 2 * low_count
                (fun c => Sentiment._mood_to_score (WellbeingCheck.mood c))
                window)%nat) /\
      (Sentiment.consistent_low_energy p = true <->
       (List.length window
        < 2 * low_count
                (fun c => Sentiment._energy_to_score (WellbeingCheck.energy c))
                window)%nat) /\
      Sentiment.burnout_recommendations a <> [] /\
      (Sentiment.burnout_recommendations a
       = ["Continue monitorando regularmente"] <->
       Sentiment.declining_mood p = false /\
       Sentiment.declining_energy p = false /\
       Sentiment.consistent_low_energy p = false)
  end.
Proof.
  cbv zeta. unfold Sentiment.detect_burnout_patterns.
  fold (burnout_window db now user_id).
  set (window := burnout_window db now user_id).
  destruct (List.length window <? 3)%nat eqn:El.
  { apply Nat.ltb_lt in El. now split. }
  apply Nat.ltb_ge in El.
  assert (Hne : window <> []).
  { intro H. rewrite H in El. simpl in El. lia. }
  pose proof (mostly_low_iff
                (fun c => Sentiment._mood_to_score (WellbeingCheck.mood c))
                window Hne) as Hm.
  pose proof (mostly_low_iff
                (fun c => Sentiment._energy_to_score (WellbeingCheck.energy c))
                window Hne) as He.
  cbn [Sentiment.patterns Sentiment.risk_score Sentiment.has_pattern
       Sentiment.severity Sentiment.burnout_recommendations
       Sentiment.declining_mood Sentiment.declining_energy
       Sentiment.consistent_low_mood Sentiment.consistent_low_energy].
  split; [exact El|].
  destruct (Sentiment._check_declining_trend
              (map (fun c => Sentiment._mood_to_score (WellbeingCheck.mood c))
                   window));
  destruct (Sentiment._check_declining_trend
              (map (fun c => Sentiment._energy_to_score (WellbeingCheck.energy c))
                   window));
  destruct (Sentiment.mostly_low
              (fun c => Sentiment._mood_to_score (WellbeingCheck.mood c)) window);
  destruct (Sentiment.mostly_low
              (fun c => Sentiment._energy_to_score (WellbeingCheck.energy c))
              window);
  (split; [cbn; lia|]); (split; [reflexivity|]);
  (split; [cbn; split; intro; (discriminate || lia || reflexivity)|]);
  (split; [cbn; split; intro; (discriminate || lia || reflexivity)|]);
  (split; [cbn; intro; (discriminate || (split; reflexivity))|]);
  (split; [cbn; split;
           [intro; (lia || (repeat split; reflexivity))
           |intros (? & ? & ? & ?); (discriminate || reflexivity)]|]);
  (split; [exact Hm|]); (split; [exact He|]);
  (split; [cbn; discriminate|]);
  (cbn; split;
    [intro; (discriminate || (repeat split; reflexivity))
    |intros (? & ? & ?); (discriminate || reflexivity)]).
Qed.

(** X14. With exactly three check-ins in the window the recent three and the
    older three are the same entries, so no decline can be found: the risk
    score is at most 40 and the severity is low. *)
Theorem three_checkins_show_no_decline (db : DB.t) (now user_id threshold : Z) :
  List.length (burnout_window db now user_id) = 3%nat ->
  exists a,
    Sentiment.detect_burnout_patterns db now user_id threshold
    = Sentiment.Analysis a /\
    Sentiment.declining_mood (Sentiment.patterns a) = false /\
    Sentiment.declining_energy (Sentiment.patterns a) = false /\
    (Sentiment.risk_score a <= 40)%Z /\
    Sentiment.severity a = "low".
Proof.
  intro H. unfold Sentiment.detect_burnout_patterns.
  fold (burnout_window db now user_id). rewrite H. cbn [Nat.ltb Nat.leb].
  eexists. split; [reflexivity|].
  cbn [Sentiment.patterns Sentiment.risk_score Sentiment.severity
       Sentiment.declining_mood Sentiment.declining_energy
       Sentiment.consistent_low_mood Sentiment.consistent_low_energy].
  rewrite !steady_scores_do_not_decline by (now rewrite length_map).
  split; [reflexivity|]. split; [reflexivity|].
  destruct (Sentiment.mostly_low _ _), (Sentiment.mostly_low _ _);
    cbn; split; (lia || reflexivity).
Qed.

Lemma three_checkins_show_no_decline_witness :
  exists a,
    Sentiment.detect_burnout_patterns
      (three_checkins MoodLevel.VERY_GOOD MoodLevel.NEUTRAL MoodLevel.VERY_BAD
         EnergyLevel.VERY_HIGH EnergyLevel.LOW EnergyLevel.EXHAUSTED)
      100 2 70
    = Sentiment.Analysis a /\
    Sentiment.declining_mood (Sentiment.patterns a) = false /\
    Sentiment.declining_energy (Sentiment.patterns a) = false /\
    (Sentiment.risk_score a <= 40)%Z /\
    Sentiment.severity a = "low".
Proof.
  apply (three_checkins_show_no_decline
           (three_checkins MoodLevel.VERY_GOOD MoodLevel.NEUTRAL
              MoodLevel.VERY_BAD
              EnergyLevel.VERY_HIGH EnergyLevel.LOW EnergyLevel.EXHAUSTED)
           100 2 70).
  reflexivity.
Defined.

(** ** The alerts of the team summary *)

Lemma member_step_inv (round1 : Q -> Q) (db : DB.t) (since_date : Z)
    (acc : Sentiment.Acc) (member : User.t) :
  acc_inv acc -> acc_inv (Sentiment.member_step round1 db since_date acc member).
Proof.
  intros (Hk & Ha & Hm & He & Hr). unfold Sentiment.member_step.
  destruct (Sentiment.last_check_since db member since_date) as [c|];
    [|repeat split; assumption].
  unfold acc_inv.
  cbn [Sentiment.acc_alerts Sentiment.acc_members Sentiment.acc_mood_scores
       Sentiment.acc_energy_scores Sentiment.acc_burnout_risks].
  rewrite !length_app. cbn [List.length].
  repeat split; try lia.
  - apply Forall_app. split; [exact Hk|].
    apply Forall_app. split.
    + destruct (WellbeingCheck.ai_burnout_risk c) as [r|]; [|constructor].
      destruct (Py.truthy_int (Some r) && (70 <? r)%Z); constructor;
        [|constructor].
      left. now split.
    + apply Forall_app. split.
      * destruct (User.is_overloaded member); constructor; [|constructor].
        right. split; [reflexivity|now left].
      * destruct (WellbeingCheck.is_concerning c); constructor; [|constructor].
        right. split; [reflexivity|now right].
  - destruct (WellbeingCheck.ai_burnout_risk c) as [r|];
      [destruct (Py.truthy_int (Some r) && (70 <? r)%Z)|];
      destruct (User.is_overloaded member);
      destruct (WellbeingCheck.is_concerning c); cbn [List.length app]; lia.
  - destruct (WellbeingCheck.ai_burnout_risk c) as [r|];
      [destruct (Py.truthy_int (Some r))|]; cbn [List.length]; lia.
Qed.

Lemma fold_step_inv (round1 : Q -> Q) (db : DB.t) (since_date : Z)
    (members : list User.t) (acc : Sentiment.Acc) :
  acc_inv acc ->
  acc_inv (fold_left (Sentiment.member_step round1 db since_date) members acc).
Proof.
  revert acc. induction members as [|m ms IH]; intros acc H; simpl;
    [exact H|].
  apply IH. now apply member_step_inv.
Qed.

Lemma sorted_two_levels (l : list Sentiment.Alert) :
  sorted_desc Sentiment.severity_rank l -> Forall alert_kind l ->
  exists high medium,
    l = (high ++ medium)%list /\
    (forall a, In a high -> Sentiment.alert_severity a = "high") /\
    (forall a, In a medium -> Sentiment.alert_severity a = "medium").
Proof.
  induction l as [|x l IH]; intros Hs Hk.
  - exists [], []. repeat split; intros a [].
  - inversion Hs as [|? ? Hs' Hx]; subst. inversion Hk as [|? ? Kx Kl]; subst.
    destruct (IH Hs' Kl) as (high & medium & -> & Hh & Hm).
    destruct Kx as [[Sx _]|[Sx _]].
    + exists (x :: high), medium. repeat split; [|exact Hm].
      intros a [<-|Ha]; [exact Sx|now apply Hh].
    + destruct high as [|h high].
      * exists [], (x :: medium). repeat split; [intros a []|].
        intros a [<-|Ha]; [exact Sx|now apply Hm].
      * exfalso. rewrite Forall_forall in Hx.
        specialize (Hx h (or_introl eq_refl)).
        unfold Sentiment.severity_rank in Hx.
        rewrite Sx, (Hh h (or_introl eq_refl)) in Hx. cbn in Hx. lia.
Qed.

(** X15. In the team summary the alerts come by descending severity: first the
    burnout-risk alerts (high), then the overload and low-wellbeing alerts
    (medium); there are no others. There are at most three alerts for each
    member analysed, and no more members analysed than the team has. When no
    member was analysed there is no alert and no average and the trend is
    stable; otherwise the mood and energy averages are present. *)
Theorem team_summary_alerts
    (round1 : Q -> Q) (db : DB.t) (now team_id days : Z) :
  match Sentiment.get_team_wellbeing_summary round1 db now team_id days with
  | Sentiment.SummaryError _ => Distribution.team_members db team_id = []
  | Sentiment.Summary s =>
      sorted_desc Sentiment.severity_rank (Sentiment.alerts s) /\
      (forall a, In a (Sentiment.alerts s) -> alert_kind a) /\
      (exists high medium,
          Sentiment.alerts s = (high ++ medium)%list /\
          (forall a, In a high -> Sentiment.alert_severity a = "high") /\
          (forall a, In a medium -> Sentiment.alert_severity a = "medium")) /\
      (List.length (Sentiment.alerts s)
       <= 3 * List.length (Sentiment.members_analysis s))%nat /\
      (List.length (Sentiment.members_analysis s) <= Sentiment.team_size s)%nat /\
      (Sentiment.members_analysis s = [] ->
       Sentiment.alerts s = [] /\
       Sentiment.average_scores s = Sentiment.mkAverageScores None None None /\
       Sentiment.trend s = "stable") /\
      (Sentiment.members_analysis s <> [] ->
       Sentiment.avg_mood (Sentiment.average_scores s) <> None /\
       Sentiment.avg_energy (Sentiment.average_scores s) <> None)
  end.
Proof.
  unfold Sentiment.get_team_wellbeing_summary.
  destruct (Distribution.team_members db team_id) as [|u us] eqn:Et;
    [reflexivity|].
  set (since_date := (now - days * Sentiment.seconds_per_day)%Z).
  set (members := u :: us).
  set (acc := fold_left (Sentiment.member_step round1 db since_date) members
                Sentiment.empty_acc).
  assert (Hinv : acc_inv acc).
  { apply fold_step_inv. repeat split; simpl; try lia. constructor. }
  destruct Hinv as (Hk & Ha & Hm & He & Hr).
  assert (Hsorted : sorted_desc Sentiment.severity_rank
                      (Py.sort_desc Sentiment.severity_rank
                         (Sentiment.acc_alerts acc)))
    by apply sort_desc_sorted.
  assert (Hkinds : Forall alert_kind
                     (Py.sort_desc Sentiment.severity_rank
                        (Sentiment.acc_alerts acc))).
  { rewrite Forall_forall in *. intros a Hin. apply Hk.
    now apply (sort_desc_In Sentiment.severity_rank). }
  assert (Hlen : List.length (Py.sort_desc Sentiment.severity_rank
                                (Sentiment.acc_alerts acc))
                 = List.length (Sentiment.acc_alerts acc)).
  { apply Permutation_length, sort_desc_perm. }
  cbn [Sentiment.summarize Sentiment.alerts Sentiment.members_analysis
       Sentiment.team_size Sentiment.average_scores Sentiment.trend
       Sentiment.avg_mood Sentiment.avg_energy].
  split; [exact Hsorted|].
  split; [now apply Forall_forall|].
  split; [now apply sorted_two_levels|].
  split; [lia|].
  split.
  { rewrite <- (length_map Sentiment.md_user_id). unfold acc.
    rewrite fold_members_ids. cbn [Sentiment.empty_acc Sentiment.acc_members
                                   map app].
    rewrite length_map. apply filter_length_le. }
  split.
  - intro Hnil. rewrite Hnil in *. cbn [List.length] in *.
    destruct (Sentiment.acc_alerts acc); [|simpl in Ha; lia].
    destruct (Sentiment.acc_mood_scores acc); [|discriminate].
    destruct (Sentiment.acc_energy_scores acc); [|discriminate].
    destruct (Sentiment.acc_burnout_risks acc); [|simpl in Hr; lia].
    repeat split.
  - intro Hne.
    destruct (Sentiment.acc_members acc) as [|md mds]; [congruence|].
    destruct (Sentiment.acc_mood_scores acc); [discriminate|].
    destruct (Sentiment.acc_energy_scores acc); [discriminate|].
    cbn. split; discriminate.
Qed.

(** ** Progress and lateness of a work item *)

Lemma ratio_below_one (a h : Q) : 0 < h -> (a / h * 100 < 100 <-> a < h).
Proof.
  intro Hh. assert (Hne : ~ h == 0) by lra.
  split; intro H.
  - assert (Hr : a / h < 1) by lra.
    assert (E : a == h * (a / h)) by (symmetry; apply Qmult_div_r; exact Hne).
    assert (Hm : h * (a / h) < h * 1) by (apply Qmult_lt_l; assumption).
    rewrite Qmult_1_r in Hm. rewrite E. exact Hm.
  - assert (Hr : a / h < 1).
    { apply Qlt_shift_div_r; [exact Hh|]. lra. }
    lra.
Qed.

(** X16. The progress of a work item never exceeds 100. For positive estimated
    hours and non-negative actual hours it is not negative, and it is 100
    exactly when the actual hours have reached the estimate. *)
Theorem progress_percentage_bounds (k : Task.t) :
  Task.progress_percentage k <= 100 /\
  (forall h, Task.estimated_hours k = Some h -> 0 < h ->
             0 <= Task.actual_hours k ->
             0 <= Task.progress_percentage k /\
             (Task.progress_percentage k == 100 <-> h <= Task.actual_hours k)).
Proof.
  unfold Task.progress_percentage. split.
  - destruct (Task.estimated_hours k) as [h|]; [|lra].
    destruct (Qeq_bool h 0); [lra|]. cbv zeta.
    destruct (Py.Qlt_bool _ 100) eqn:E; [|lra].
    apply Qlt_bool_iff in E. lra.
  - intros h Eh Hh Ha. rewrite Eh.
    destruct (Qeq_bool h 0) eqn:E0.
    { apply Qeq_bool_iff in E0. lra. }
    cbv zeta. pose proof (ratio_below_one (Task.actual_hours k) h Hh) as Hr.
    destruct (Py.Qlt_bool _ 100) eqn:E.
    + apply Qlt_bool_iff in E. split.
      * apply Qmult_le_0_compat; [|lra].
        apply Qle_shift_div_l; [exact Hh|]. lra.
      * split; intro H; [lra|]. apply Hr in E. lra.
    + apply Qlt_bool_false_iff in E. split; [lra|].
      split; intro H; [|reflexivity].
      destruct (Qlt_le_dec (Task.actual_hours k) h) as [Hlt|Hle];
        [|exact Hle].
      apply Hr in Hlt. lra.
Qed.

(** X17. A completed item and an item without a due date are never late; an item
    is not late before or at its due date; and lateness persists: an item
    that is late at one time is late at every later time, as long as it is
    not changed. *)
Theorem is_overdue_facts (k : Task.t) (now : Z) :
  (Task.status k = TaskStatus.COMPLETED -> Task.is_overdue now k = false) /\
  (Task.due_date k = None -> Task.is_overdue now k = false) /\
  (forall due, Task.due_date k = Some due -> (now <= due)%Z ->
               Task.is_overdue now k = false) /\
  (forall later, (now <= later)%Z -> Task.is_overdue now k = true ->
                 Task.is_overdue later k = true).
Proof.
  unfold Task.is_overdue. repeat split.
  - intro H. rewrite H. destruct (Task.due_date k); [|reflexivity].
    cbn. apply andb_false_r.
  - intro H. now rewrite H.
  - intros due H Hle. rewrite H.
    replace (due <? now)%Z with false; [reflexivity|].
    symmetry. apply Z.ltb_ge. exact Hle.
  - intros later Hle. destruct (Task.due_date k) as [due|]; [|discriminate].
    intro H. apply andb_true_iff in H. destruct H as [H1 H2].
    rewrite H2, andb_true_r. apply Z.ltb_lt in H1. apply Z.ltb_lt. lia.
Qed.

(** ** Reading and creating work items *)

(** X18. Whoever is served by the update request is served by the read request
    for the same item, and both answer 404 for the same items. The converse
    fails only for the creator: a sender who can read an item but is refused
    the update is a collaborator who created the item and does not hold
    it. *)
Theorem update_permission_implies_read (db : DB.t) (now task_id : Z)
    (task_data : Routes.TaskUpdate) (current_user : User.t) :
  match fst (Routes.update_task db now task_id task_data current_user),
        Routes.get_task_by_id db task_id current_user with
  | Routes.Ok _, r =>
      exists task, DB.task_by_id db task_id = Some task /\ r = Routes.Ok task
  | Routes.HTTPException code _, Routes.Ok task =>
      code = 403%Z /\
      Task.created_by task = User.id current_user /\
      User.role current_user = UserRole.COLABORADOR /\
      Task.assigned_to task <> Some (User.id current_user)
  | Routes.HTTPException code _, Routes.HTTPException code' _ => code = code'
  end.
Proof.
  unfold Routes.update_task, Routes.get_task_by_id.
  destruct (DB.task_by_id db task_id) as [task|]; [|reflexivity].
  destruct (User.role current_user) eqn:Er; cbn [UserRole.eqb orb];
    rewrite ?orb_true_r; cbn [negb fst];
    try (exists task; now split).
  rewrite !orb_false_r.
  destruct (Task.assigned_to task) as [a|] eqn:Ea.
  - destruct (a =? User.id current_user)%Z eqn:E; cbn [orb negb fst].
    + exists task. now split.
    + destruct (Task.created_by task =? User.id current_user)%Z eqn:Ec;
        cbn [negb]; [|reflexivity].
      apply Z.eqb_eq in Ec. apply Z.eqb_neq in E.
      repeat split; try assumption. intro H. rewrite Ea in H.
      injection H as H. contradiction.
  - cbn [orb negb fst].
    destruct (Task.created_by task =? User.id current_user)%Z eqn:Ec;
      cbn [negb]; [|reflexivity].
    apply Z.eqb_eq in Ec. repeat split; try assumption.
    rewrite Ea. discriminate.
Qed.

Lemma user_by_id_id (db : DB.t) (i : Z) (u : User.t) :
  DB.user_by_id db i = Some u -> In u (DB.users db) /\ User.id u = i.
Proof.
  intro E. apply find_some in E. destruct E as [Hin Hid].
  apply Z.eqb_eq in Hid. now split.
Qed.

Lemma update_user_ids (db : DB.t) (u : User.t) :
  map User.id (DB.users (DB.update_user db u)) = map User.id (DB.users db).
Proof.
  unfold DB.update_user. cbn [DB.users]. rewrite map_map.
  apply map_ext_in. intros x _.
  destruct (User.id x =? User.id u)%Z eqn:E; [|reflexivity].
  apply Z.eqb_eq in E. now symmetry.
Qed.

(** X19. A create request is refused only when it names an assignee: with 404
    when no such person exists, with 403 when the sender is a manager and
    the person is not in the sender's team (an administrator may assign to
    anyone); a refused request leaves the store as it was. A served request
    appends exactly one item, pending, created by the sender, with the key
    the store chose, and leaves every other item as it was; the persons keep
    their keys and order, and no load changes unless the request names both
    an assignee and estimated hours. *)
Theorem create_task_spec (json_dumps : list string -> string)
    (db : DB.t) (now new_id : Z) (task_data : Routes.TaskCreate)
    (current_user : User.t) :
  let r := Routes.create_task json_dumps db now new_id task_data current_user in
  match fst r with
  | Routes.HTTPException code _ =>
      snd r = db /\
      exists a, Routes.crt_assigned_to task_data = Some a /\ a <> 0%Z /\
        (code = 404%Z /\ DB.user_by_id db a = None \/
         code = 403%Z /\ User.role current_user = UserRole.GESTOR /\
         exists u, DB.user_by_id db a = Some u /\
                   User.manager_id u <> Some (User.id current_user))
  | Routes.Ok k =>
      Task.id k = new_id /\
      Task.status k = TaskStatus.PENDING /\
      Task.created_by k = User.id current_user /\
      Task.assigned_to k = Routes.crt_assigned_to task_data /\
      Task.estimated_hours k = Routes.crt_estimated_hours task_data /\
      DB.tasks (snd r) = (DB.tasks db ++ [k])%list /\
      map User.id (DB.users (snd r)) = map User.id (DB.users db) /\
      (Py.truthy_int (Routes.crt_assigned_to task_data)
       && Py.truthy_float (Routes.crt_estimated_hours task_data) = false ->
       DB.users (snd r) = DB.users db)
  end.
Proof.
  cbv zeta. unfold Routes.create_task.
  destruct (Routes.crt_assigned_to task_data) as [a|] eqn:Ea.
  2:{ cbn [Py.truthy_int andb fst snd Routes.add_task DB.tasks DB.users
           Task.id Task.status Task.created_by Task.assigned_to
           Task.estimated_hours].
      repeat split; reflexivity. }
  destruct (Py.truthy_int (Some a)) eqn:Et.
  2:{ cbn [andb fst snd Routes.add_task DB.tasks DB.users
           Task.id Task.status Task.created_by Task.assigned_to
           Task.estimated_hours].
      repeat split; reflexivity. }
  assert (Hne : a <> 0%Z).
  { cbn in Et. apply negb_true_iff in Et. now apply Z.eqb_neq. }
  destruct (DB.user_by_id db a) as [u|] eqn:Eu.
  2:{ cbn [fst snd]. split; [reflexivity|]. exists a.
      split; [reflexivity|]. split; [exact Hne|]. left. now split. }
  destruct (UserRole.eqb (User.role current_user) UserRole.GESTOR
            && negb (DB.in_team (User.id current_user) u)) eqn:Ep.
  { cbn [fst snd]. split; [reflexivity|]. exists a.
    split; [reflexivity|]. split; [exact Hne|]. right.
    apply andb_true_iff in Ep. destruct Ep as [Er Em].
    split; [reflexivity|]. split.
    - destruct (User.role current_user); try discriminate. reflexivity.
    - exists u. split; [exact Eu|]. intro Hm.
      unfold DB.in_team in Em. rewrite Hm, Z.eqb_refl in Em. discriminate. }
  cbn [andb fst].
  change (DB.user_by_id (Routes.add_task db ?k) a)
    with (DB.user_by_id db a).
  rewrite Eu.
  destruct (Routes.crt_estimated_hours task_data) as [h|] eqn:Eh.
  - destruct (Py.truthy_float (Some h)) eqn:Ef; cbn [snd];
      [rewrite update_user_ids|];
      cbn [Routes.add_task DB.tasks DB.users DB.update_user
           Task.id Task.status Task.created_by Task.assigned_to
           Task.estimated_hours];
      repeat split; try reflexivity; discriminate.
  - cbn [Py.truthy_float snd Routes.add_task DB.tasks DB.users
         Task.id Task.status Task.created_by Task.assigned_to
         Task.estimated_hours].
    repeat split; reflexivity.
Qed.

(** ** Loads on the create path *)

Lemma find_appended (new_id : Z) (k : Task.t) (ks : list Task.t) :
  ~ In new_id (map Task.id ks) -> Task.id k = new_id ->
  find (fun x => (Task.id x =? new_id)%Z) (ks ++ [k]) = Some k.
Proof.
  intros Hf Hk. induction ks as [|x ks IH]; simpl.
  - now rewrite Hk, Z.eqb_refl.
  - destruct (Task.id x =? new_id)%Z eqn:E.
    + apply Z.eqb_eq in E. exfalso. apply Hf. now left.
    + apply IH. intro H. apply Hf. now right.
Qed.

Lemma filter_appended (new_id : Z) (k : Task.t) (ks : list Task.t) :
  ~ In new_id (map Task.id ks) -> Task.id k = new_id ->
  filter (fun x => negb (Task.id x =? new_id)%Z) (ks ++ [k]) = ks.
Proof.
  intros Hf Hk. induction ks as [|x ks IH]; simpl.
  - now rewrite Hk, Z.eqb_refl.
  - destruct (Task.id x =? new_id)%Z eqn:E.
    + apply Z.eqb_eq in E. exfalso. apply Hf. now left.
    + simpl. f_equal. apply IH. intro H. apply Hf. now right.
Qed.

Lemma adjust_twice (i : Z) (f g : Q -> Q) (us : list User.t) :
  adjust i f (adjust i g us) = adjust i (fun l => f (g l)) us.
Proof.
  unfold adjust. rewrite map_map. apply map_ext. intro x.
  destruct (User.id x =? i)%Z eqn:E; cbn; rewrite E; reflexivity.
Qed.

Lemma adjust_pointwise (i : Z) (f : Q -> Q) (us : list User.t) :
  (forall l, 0 <= l -> f l == l) ->
  (forall x, In x us -> 0 <= User.current_workload x) ->
  Forall2 (fun x x' =>
             x' = User.set_current_workload x (User.current_workload x') /\
             User.current_workload x' == User.current_workload x)
          us (adjust i f us).
Proof.
  intros Hf. induction us as [|x us IH]; intro Hpos; simpl; constructor.
  - destruct (User.id x =? i)%Z; cbn.
    + split; [reflexivity|]. apply Hf, Hpos. now left.
    + split; [now destruct x|reflexivity].
  - apply IH. intros y Hy. apply Hpos. now right.
Qed.

Lemma add_task_user_by_id (db : DB.t) (k : Task.t) (a : Z) :
  DB.user_by_id (Routes.add_task db k) a = DB.user_by_id db a.
Proof. reflexivity. Qed.

(** The rows the model writes on a served create request that names an
    assignee and hours, as numbers. *)
Lemma create_task_rows (json_dumps : list string -> string)
    (db : DB.t) (now new_id : Z) (task_data : Routes.TaskCreate)
    (current_user u : User.t) (a : Z) (h : Q) :
  NoDup (map User.id (DB.users db)) ->
  Routes.crt_assigned_to task_data = Some a -> a <> 0%Z ->
  DB.user_by_id db a = Some u ->
  Routes.crt_estimated_hours task_data = Some h -> ~ h == 0 ->
  (User.role current_user = UserRole.GESTOR ->
   User.manager_id u = Some (User.id current_user)) ->
  let r := Routes.create_task json_dumps db now new_id task_data current_user in
  (exists k, fst r = Routes.Ok k) /\
  DB.users (snd r) = adjust a (fun l => l + h) (DB.users db) /\
  DB.user_by_id (snd r) a
  = Some (User.set_current_workload u (User.current_workload u + h)) /\
  total_load (snd r) == total_load db + h.
Proof.
  intros Hnd Ea Hne Eu Eh Hh Hteam. cbv zeta.
  destruct (user_by_id_id db a u Eu) as [Hin Hid].
  unfold Routes.create_task. rewrite Ea, Eh.
  assert (Et : Py.truthy_int (Some a) = true).
  { cbn. apply negb_true_iff. now apply Z.eqb_neq. }
  rewrite Et, Eu, (truthy_float_nonzero h Hh).
  assert (Ep : UserRole.eqb (User.role current_user) UserRole.GESTOR
               && negb (DB.in_team (User.id current_user) u) = false).
  { destruct (User.role current_user) eqn:Er; try reflexivity.
    cbn. unfold DB.in_team. rewrite (Hteam eq_refl), Z.eqb_refl. reflexivity. }
  rewrite Ep. cbn [andb fst snd]. rewrite add_task_user_by_id, Eu.
  assert (Hus : DB.users
                  (DB.update_user
                     (Routes.add_task db
                        (Task.mk new_id (Routes.crt_title task_data)
                           (Routes.crt_description task_data)
                           TaskStatus.PENDING (Routes.crt_priority task_data)
                           (Some a) (User.id current_user) (Some h) 0
                           match Routes.crt_required_skills task_data with
                           | Some (s :: l) => Some (json_dumps (s :: l))
                           | _ => None
                           end
                           (Routes.crt_due_date task_data) None None now None
                           None None))
                     (User.set_current_workload u (User.current_workload u + h)))
                = adjust a (fun l => l + h) (DB.users db)).
  { rewrite (update_user_adjust (Routes.add_task db _) u (fun l => l + h));
      [|exact Hnd|exact Hin].
    cbn [DB.users Routes.add_task]. now rewrite Hid. }
  split; [eexists; reflexivity|].
  split; [exact Hus|]. split.
  - unfold DB.user_by_id, DB.first. rewrite Hus, find_adjust.
    + fold (DB.first (fun x => (User.id x =? a)%Z) (DB.users db)).
      fold (DB.user_by_id db a). rewrite Eu. cbn [option_map].
      now rewrite Hid, Z.eqb_refl.
    + reflexivity.
  - unfold total_load at 1. rewrite Hus, <- Hid.
    apply total_after_adjust; assumption.
Qed.

(** X20. A served create request that names an existing assignee with a whole
    load and estimated hours that are a whole number (not zero) raises that
    person's load by exactly the hours, to a load that is again whole and
    that the integer column keeps as it is, and leaves every other row of
    persons as it was, so the total load of the store rises by the hours. *)
Theorem create_task_charges_assignee (json_dumps : list string -> string)
    (db : DB.t) (now new_id : Z) (task_data : Routes.TaskCreate)
    (current_user u : User.t) (a : Z) (h : Q) :
  NoDup (map User.id (DB.users db)) ->
  Routes.crt_assigned_to task_data = Some a -> a <> 0%Z ->
  DB.user_by_id db a = Some u ->
  Routes.crt_estimated_hours task_data = Some h -> ~ h == 0 ->
  whole h = true -> whole (User.current_workload u) = true ->
  (User.role current_user = UserRole.GESTOR ->
   User.manager_id u = Some (User.id current_user)) ->
  let r := Routes.create_task json_dumps db now new_id task_data current_user in
  (exists k, fst r = Routes.Ok k) /\
  DB.users (snd r) = adjust a (fun l => l + h) (DB.users db) /\
  DB.user_by_id (snd r) a
  = Some (User.set_current_workload u (User.current_workload u + h)) /\
  whole (User.current_workload u + h) = true /\
  total_load (snd r) == total_load db + h.
Proof.
  intros Hnd Ea Hne Eu Eh Hh Hwh Hwl Hteam.
  destruct (create_task_rows json_dumps db now new_id task_data current_user
              u a h Hnd Ea Hne Eu Eh Hh Hteam) as (Hok & Hus & Hu & Htotal).
  cbv zeta. split; [exact Hok|]. split; [exact Hus|]. split; [exact Hu|].
  split; [now apply whole_plus|exact Htotal].
Qed.

Lemma create_task_charges_assignee_witness :
  let r := Routes.create_task (fun _ => EmptyString) (team_db 20 (Some 4))
             100 8
             (Routes.mkTaskCreate "Novo item" None TaskPriority.HIGH (Some 6)
                None None (Some 3%Z))
             (sample_user 1 "gestor" UserRole.GESTOR None 0) in
  (exists k, fst r = Routes.Ok k) /\
  DB.users (snd r)
  = adjust 3 (fun l => l + 6) (DB.users (team_db 20 (Some 4))) /\
  DB.user_by_id (snd r) 3
  = Some (User.set_current_workload
            (sample_user 3 "bruno" UserRole.COLABORADOR (Some 1%Z) 10)
            (User.current_workload
               (sample_user 3 "bruno" UserRole.COLABORADOR (Some 1%Z) 10) + 6)) /\
  whole (User.current_workload
           (sample_user 3 "bruno" UserRole.COLABORADOR (Some 1%Z) 10) + 6)
  = true /\
  total_load (snd r) == total_load (team_db 20 (Some 4)) + 6.
Proof.
  apply (create_task_charges_assignee (fun _ => EmptyString)
           (team_db 20 (Some 4)) 100 8
           (Routes.mkTaskCreate "Novo item" None TaskPriority.HIGH (Some 6)
              None None (Some 3%Z))
           (sample_user 1 "gestor" UserRole.GESTOR None 0)
           (sample_user 3 "bruno" UserRole.COLABORADOR (Some 1%Z) 10)
           3 6).
  - exact (proj1 (team_db_well_formed 20 (Some 4))).
  - reflexivity.
  - discriminate.
  - reflexivity.
  - reflexivity.
  - intro H. discriminate H.
  - reflexivity.
  - reflexivity.
  - intros _. reflexivity.
Defined.

Lemma create_task_store (json_dumps : list string -> string)
    (db : DB.t) (now new_id : Z) (task_data : Routes.TaskCreate)
    (current_user : User.t) (k : Task.t) :
  NoDup (map User.id (DB.users db)) ->
  fst (Routes.create_task json_dumps db now new_id task_data current_user)
  = Routes.Ok k ->
  Task.id k = new_id /\
  Task.assigned_to k = Routes.crt_assigned_to task_data /\
  Task.estimated_hours k = Routes.crt_estimated_hours task_data /\
  DB.tasks (snd (Routes.create_task json_dumps db now new_id task_data
                   current_user))
  = (DB.tasks db ++ [k])%list /\
  DB.users (snd (Routes.create_task json_dumps db now new_id task_data
                   current_user))
  = match Routes.crt_assigned_to task_data,
          Routes.crt_estimated_hours task_data with
    | Some a, Some h =>
        if Py.truthy_int (Some a) && Py.truthy_float (Some h)
        then adjust a (fun l => l + h) (DB.users db)
        else DB.users db
    | _, _ => DB.users db
    end.
Proof.
  intro Hnd. unfold Routes.create_task.
  destruct (Routes.crt_assigned_to task_data) as [a|] eqn:Ea.
  2:{ cbn [Py.truthy_int andb fst snd]. intro H. injection H as <-.
      repeat split. }
  destruct (Py.truthy_int (Some a)) eqn:Et.
  2:{ cbn [andb fst snd]. intro H. injection H as <-.
      destruct (Routes.crt_estimated_hours task_data); repeat split. }
  destruct (DB.user_by_id db a) as [u|] eqn:Eu; [|discriminate].
  destruct (UserRole.eqb (User.role current_user) UserRole.GESTOR
            && negb (DB.in_team (User.id current_user) u)); [discriminate|].
  cbn [andb fst snd]. rewrite add_task_user_by_id, Eu.
  intro H. injection H as <-.
  destruct (user_by_id_id db a u Eu) as [Hin Hid].
  destruct (Routes.crt_estimated_hours task_data) as [h|] eqn:Eh;
    [|repeat split].
  destruct (Py.truthy_float (Some h)); [|repeat split].
  rewrite (update_user_adjust (Routes.add_task db _) u (fun l => l + h));
    [|exact Hnd|exact Hin].
  cbn [DB.users DB.tasks Routes.add_task]. rewrite Hid. repeat split.
Qed.

Lemma delete_task_store (db : DB.t) (k : Task.t) :
  NoDup (map User.id (DB.users db)) ->
  DB.task_by_id db (Task.id k) = Some k ->
  fst (Routes.delete_task db (Task.id k)) = Routes.Ok (Task.id k) /\
  DB.tasks (snd (Routes.delete_task db (Task.id k)))
  = filter (fun x => negb (Task.id x =? Task.id k)%Z) (DB.tasks db) /\
  DB.users (snd (Routes.delete_task db (Task.id k)))
  = match Task.assigned_to k, Task.estimated_hours k with
    | Some a, Some h =>
        if Py.truthy_int (Some a) && Py.truthy_float (Some h)
        then adjust a (fun l => Py.max0 (l - h)) (DB.users db)
        else DB.users db
    | _, _ => DB.users db
    end.
Proof.
  intros Hnd Ek. unfold Routes.delete_task. rewrite Ek. cbn [fst snd].
  split; [reflexivity|].
  destruct (Task.assigned_to k) as [a|]; [|now split].
  destruct (Task.estimated_hours k) as [h|];
    [|destruct (Py.truthy_int (Some a)); now split].
  destruct (Py.truthy_int (Some a) && Py.truthy_float (Some h));
    [|now split].
  destruct (DB.user_by_id db a) as [u|] eqn:Eu.
  - destruct (user_by_id_id db a u Eu) as [Hin Hid].
    rewrite (update_user_adjust db u (fun l => Py.max0 (l - h)) Hnd Hin).
    rewrite Hid. now split.
  - split; [reflexivity|]. cbn [DB.delete_task DB.users].
    symmetry. now apply adjust_total_absent.
Qed.

(** The rows the model is left with after a create request and the delete
    request for the same key, as numbers. *)
Lemma create_then_delete_rows (json_dumps : list string -> string)
    (db : DB.t) (now new_id : Z) (task_data : Routes.TaskCreate)
    (current_user : User.t) (k : Task.t) :
  NoDup (map User.id (DB.users db)) ->
  all_loads_nonneg db ->
  ~ In new_id (map Task.id (DB.tasks db)) ->
  fst (Routes.create_task json_dumps db now new_id task_data current_user)
  = Routes.Ok k ->
  let db1 :=
    snd (Routes.create_task json_dumps db now new_id task_data current_user) in
  let r := Routes.delete_task db1 new_id in
  fst r = Routes.Ok new_id /\
  DB.tasks (snd r) = DB.tasks db /\
  Forall2 (fun x x' =>
             x' = User.set_current_workload x (User.current_workload x') /\
             User.current_workload x' == User.current_workload x)
          (DB.users db) (DB.users (snd r)).
Proof.
  intros Hnd Hpos Hfresh Hok. cbv zeta.
  destruct (create_task_store json_dumps db now new_id task_data current_user
              k Hnd Hok) as (Hid & Ha & Hh & Ht & Hu).
  set (db1 := snd (Routes.create_task json_dumps db now new_id task_data
                     current_user)) in *.
  assert (Hnd1 : NoDup (map User.id (DB.users db1))).
  { rewrite Hu.
    destruct (Routes.crt_assigned_to task_data),
             (Routes.crt_estimated_hours task_data); try exact Hnd.
    destruct (_ && _); [now rewrite adjust_ids|exact Hnd]. }
  assert (Ek : DB.task_by_id db1 (Task.id k) = Some k).
  { unfold DB.task_by_id, DB.first. rewrite Ht, Hid.
    now apply find_appended. }
  destruct (delete_task_store db1 k Hnd1 Ek) as (Hr & Hts & Hus).
  rewrite Hid in Hr, Hts, Hus.
  split; [exact Hr|]. split.
  - rewrite Hts, Ht. now apply filter_appended.
  - rewrite Hus, Ha, Hh, Hu.
    assert (Hsame : Forall2 (fun x x' =>
               x' = User.set_current_workload x (User.current_workload x') /\
               User.current_workload x' == User.current_workload x)
            (DB.users db) (DB.users db)).
    { apply Forall2_refl. intro x. split; [now destruct x|reflexivity]. }
    destruct (Routes.crt_assigned_to task_data) as [a|]; [|exact Hsame].
    destruct (Routes.crt_estimated_hours task_data) as [h|]; [|exact Hsame].
    destruct (_ && _); [|exact Hsame].
    rewrite adjust_twice. apply adjust_pointwise; [|exact Hpos].
    intros l Hl. now apply max0_restores.
Qed.

Lemma row_after_has_origin {Row} (R : Row -> Row -> Prop)
    (before after : list Row) (x' : Row) :
  Forall2 R before after -> In x' after -> exists x, In x before /\ R x x'.
Proof.
  induction 1 as [|x y l l' Hxy _ IH]; intros Hin; [contradiction|].
  destruct Hin as [<-|Hin].
  - exists x. split; [now left|exact Hxy].
  - destruct (IH Hin) as (x0 & Hx0 & HR). exists x0. split; [now right|exact HR].
Qed.

(** X21. Creating an item and deleting it again restores the store: in a store
    with distinct person keys whose loads are whole numbers, none of them
    negative, after a served create request under a key not yet in use and
    with estimated hours (if any) that are a whole number, the delete
    request for that key leaves the items exactly as they were before the
    creation, and every person with the row they had, the load being equal
    in value to the one before. The loads written by the two requests are
    whole numbers, which the integer column keeps as they are. *)
Theorem create_then_delete_restores (json_dumps : list string -> string)
    (db : DB.t) (now new_id : Z) (task_data : Routes.TaskCreate)
    (current_user : User.t) (k : Task.t) :
  NoDup (map User.id (DB.users db)) ->
  all_loads_nonneg db ->
  whole_loads db = true ->
  (forall h, Routes.crt_estimated_hours task_data = Some h -> whole h = true) ->
  ~ In new_id (map Task.id (DB.tasks db)) ->
  fst (Routes.create_task json_dumps db now new_id task_data current_user)
  = Routes.Ok k ->
  let db1 :=
    snd (Routes.create_task json_dumps db now new_id task_data current_user) in
  let r := Routes.delete_task db1 new_id in
  fst r = Routes.Ok new_id /\
  DB.tasks (snd r) = DB.tasks db /\
  Forall2 (fun x x' =>
             x' = User.set_current_workload x (User.current_workload x') /\
             User.current_workload x' == User.current_workload x)
          (DB.users db) (DB.users (snd r)) /\
  whole_loads db1 = true /\
  whole_loads (snd r) = true.
Proof.
  intros Hnd Hpos Hwl Hwh Hfresh Hok.
  destruct (create_then_delete_rows json_dumps db now new_id task_data
              current_user k Hnd Hpos Hfresh Hok) as (Hr & Hts & Hus).
  cbv zeta in Hr, Hts, Hus |- *.
  split; [exact Hr|]. split; [exact Hts|]. split; [exact Hus|].
  split.
  - destruct (create_task_store json_dumps db now new_id task_data
                current_user k Hnd Hok) as (_ & _ & _ & _ & Hu).
    unfold whole_loads. rewrite Hu.
    destruct (Routes.crt_assigned_to task_data) as [a|]; [|exact Hwl].
    destruct (Routes.crt_estimated_hours task_data) as [h|]; [|exact Hwl].
    destruct (_ && _); [|exact Hwl].
    apply whole_loads_adjust; [|exact Hwl].
    intros l Hl. apply whole_plus; [exact Hl|]. now apply Hwh.
  - unfold whole_loads in Hwl |- *. rewrite forallb_forall in Hwl |- *.
    intros x' Hx'.
    destruct (row_after_has_origin _ _ _ x' Hus Hx') as (x & Hx & _ & Heq).
    apply (whole_eq _ _ Heq). now apply Hwl.
Qed.

Lemma create_then_delete_restores_witness :
  let db1 :=
    snd (Routes.create_task (fun _ => EmptyString) (team_db 20 (Some 4))
           100 8
           (Routes.mkTaskCreate "Novo item" None TaskPriority.HIGH (Some 6)
              None None (Some 3%Z))
           (sample_user 1 "gestor" UserRole.GESTOR None 0)) in
  let r := Routes.delete_task db1 8 in
  fst r = Routes.Ok 8%Z /\
  DB.tasks (snd r) = DB.tasks (team_db 20 (Some 4)) /\
  Forall2 (fun x x' =>
             x' = User.set_current_workload x (User.current_workload x') /\
             User.current_workload x' == User.current_workload x)
          (DB.users (team_db 20 (Some 4))) (DB.users (snd r)) /\
  whole_loads db1 = true /\
  whole_loads (snd r) = true.
Proof.
  apply (create_then_delete_restores (fun _ => EmptyString)
           (team_db 20 (Some 4)) 100 8
           (Routes.mkTaskCreate "Novo item" None TaskPriority.HIGH (Some 6)
              None None (Some 3%Z))
           (sample_user 1 "gestor" UserRole.GESTOR None 0)
           (Task.mk 8 "Novo item" None TaskStatus.PENDING TaskPriority.HIGH
              (Some 3%Z) 1 (Some 6) 0 None None None None 100 None None None)).
  - exact (proj1 (team_db_well_formed 20 (Some 4))).
  - intros x Hx. cbn in Hx.
    destruct Hx as [<-|[<-|[<-|[]]]]; cbn; lra.
  - reflexivity.
  - intros h Hh. cbn in Hh. injection Hh as <-. reflexivity.
  - cbn. intros [H|[]]. discriminate H.
  - reflexivity.
Defined.

(** ** The team seen by the context, the rebalancer and the candidate search *)

Lemma filter_length_mono {A} (p q : A -> bool) (l : list A) :
  (forall x, p x = true -> q x = true) ->
  (List.length (filter p l) <= List.length (filter q l))%nat.
Proof.
  intro H. induction l as [|x l IH]; simpl; [lia|].
  destruct (p x) eqn:E.
  - rewrite (H x E). simpl. lia.
  - destruct (q x); simpl; lia.
Qed.

Lemma filter_twice {A} (p q : A -> bool) (l : list A) :
  filter p (filter q l) = filter (fun x => q x && p x) l.
Proof.
  induction l as [|x l IH]; simpl; [reflexivity|].
  destruct (q x); simpl; [|exact IH].
  destruct (p x); now rewrite IH.
Qed.

Lemma in_team_iff (team_id : Z) (u : User.t) :
  DB.in_team team_id u = true <-> User.manager_id u = Some team_id.
Proof.
  unfold DB.in_team. destruct (User.manager_id u) as [m|].
  - rewrite Z.eqb_eq. split; [now intros ->|congruence].
  - split; discriminate.
Qed.

(** X22. The three views of a team nest. For a team id that is not zero, every
    candidate searched for an item is one of the active members the
    rebalancer works on (the candidates are exactly those of them who are
    collaborators with hours available), and every such member is one of the
    persons managed by the team id, whom the team context counts, inactive
    ones included: its team size is their number. The context's count of
    overloaded members is at most its team size, and at least the
    rebalancer's. When the context is absent, the rebalancer finds no team
    and the candidate search finds nobody. *)
Theorem team_views_nest (db : DB.t) (task : Task.t) (team_id : Z) :
  team_id <> 0%Z ->
  let candidates :=
    Distribution._get_eligible_candidates db task (Some team_id) in
  let members := Distribution.team_members db team_id in
  let managed :=
    filter (fun u => opt_Z_eqb (User.manager_id u) (Some team_id))
           (DB.users db) in
  (forall u, In u candidates <->
             In u members /\ User.role u = UserRole.COLABORADOR /\
             0 < User.available_hours u) /\
  (forall u, In u members <-> In u managed /\ User.is_active u = true) /\
  (forall u, In u managed <->
             In u (DB.users db) /\ User.manager_id u = Some team_id) /\
  (List.length candidates <= List.length members)%nat /\
  match Distribution._get_team_context db (Some team_id) with
  | None => managed = [] /\ members = [] /\ candidates = []
  | Some c =>
      TeamContext.team_size c = List.length managed /\
      TeamContext.overloaded_count c
      = List.length (filter User.is_overloaded managed) /\
      (List.length members <= TeamContext.team_size c)%nat /\
      (0 < TeamContext.team_size c)%nat /\
      (TeamContext.overloaded_count c <= TeamContext.team_size c)%nat /\
      (List.length (filter User.is_overloaded members)
       <= TeamContext.overloaded_count c)%nat
  end.
Proof.
  intro Hne. cbv zeta.
  assert (Ht : Py.truthy_int (Some team_id) = true).
  { cbn. apply negb_true_iff. now apply Z.eqb_neq. }
  assert (Hmg : filter (fun u => opt_Z_eqb (User.manager_id u) (Some team_id))
                  (DB.users db)
                = filter (DB.in_team team_id) (DB.users db)).
  { apply filter_ext. intro u. unfold DB.in_team.
    now destruct (User.manager_id u). }
  rewrite Hmg.
  assert (Hcand : forall u,
             In u (Distribution._get_eligible_candidates db task
                     (Some team_id))
             <-> In u (Distribution.team_members db team_id) /\
                 User.role u = UserRole.COLABORADOR /\
                 0 < User.available_hours u).
  { intro u.
    unfold Distribution._get_eligible_candidates, Distribution.team_members.
    rewrite Ht. rewrite !filter_In, !andb_true_iff, Qlt_bool_iff.
    assert (Hr : UserRole.eqb (User.role u) UserRole.COLABORADOR = true
                 <-> User.role u = UserRole.COLABORADOR).
    { destruct (User.role u); simpl; split; congruence. }
    rewrite Hr. tauto. }
  assert (Hmem : forall u,
             In u (Distribution.team_members db team_id)
             <-> In u (filter (DB.in_team team_id) (DB.users db)) /\
                 User.is_active u = true).
  { intro u. unfold Distribution.team_members.
    rewrite !filter_In, andb_true_iff. tauto. }
  split; [exact Hcand|]. split; [exact Hmem|].
  split.
  { intro u. rewrite filter_In, in_team_iff. tauto. }
  assert (Hc : (List.length (Distribution._get_eligible_candidates db task
                               (Some team_id))
                <= List.length (Distribution.team_members db team_id))%nat).
  { unfold Distribution._get_eligible_candidates, Distribution.team_members.
    rewrite Ht, !filter_twice.
    apply filter_length_mono. intros x H.
    repeat match goal with
           | H : _ && _ = true |- _ =>
               apply andb_true_iff in H; destruct H
           end.
    apply andb_true_iff. now split. }
  split; [exact Hc|].
  assert (Hm : (List.length (Distribution.team_members db team_id)
                <= List.length (filter (DB.in_team team_id) (DB.users db)))%nat).
  { unfold Distribution.team_members.
    apply filter_length_mono. intros x H.
    apply andb_true_iff in H. now destruct H. }
  unfold Distribution._get_team_context. rewrite Ht. cbn [negb].
  destruct (filter (DB.in_team team_id) (DB.users db)) as [|m ms] eqn:Ef.
  - cbn [List.length] in Hm. split; [reflexivity|].
    destruct (Distribution.team_members db team_id) as [|y ys];
      [|simpl in Hm; lia].
    split; [reflexivity|].
    cbn [List.length] in Hc.
    destruct (Distribution._get_eligible_candidates db task (Some team_id))
      as [|z zs]; [reflexivity|].
    simpl in Hc. lia.
  - cbn [TeamContext.team_size TeamContext.overloaded_count].
    split; [reflexivity|]. split; [reflexivity|].
    split; [exact Hm|]. split; [simpl; lia|].
    split.
    + apply filter_length_le.
    + rewrite <- Ef. unfold Distribution.team_members. rewrite !filter_twice.
      apply filter_length_mono. intros x H.
      repeat match goal with
             | H : _ && _ = true |- _ =>
                 apply andb_true_iff in H; destruct H
             end.
      apply andb_true_iff. now split.
Qed.

Lemma team_views_nest_witness :
  let db := team_db 38 (Some 4) in
  let candidates :=
    Distribution._get_eligible_candidates db (sample_item (Some 4))
      (Some 1%Z) in
  let members := Distribution.team_members db 1 in
  let managed :=
    filter (fun u => opt_Z_eqb (User.manager_id u) (Some 1%Z))
           (DB.users db) in
  (forall u, In u candidates <->
             In u members /\ User.role u = UserRole.COLABORADOR /\
             0 < User.available_hours u) /\
  (forall u, In u members <-> In u managed /\ User.is_active u = true) /\
  (forall u, In u managed <->
             In u (DB.users db) /\ User.manager_id u = Some 1%Z) /\
  (List.length candidates <= List.length members)%nat /\
  match Distribution._get_team_context db (Some 1%Z) with
  | None => managed = [] /\ members = [] /\ candidates = []
  | Some c =>
      TeamContext.team_size c = List.length managed /\
      TeamContext.overloaded_count c
      = List.length (filter User.is_overloaded managed) /\
      (List.length members <= TeamContext.team_size c)%nat /\
      (0 < TeamContext.team_size c)%nat /\
      (TeamContext.overloaded_count c <= TeamContext.team_size c)%nat /\
      (List.length (filter User.is_overloaded members)
       <= TeamContext.overloaded_count c)%nat
  end.
Proof.
  apply (team_views_nest (team_db 38 (Some 4)) (sample_item (Some 4)) 1).
  discriminate.
Defined.

(** ** Required skills, written and read back *)

(** X23. The required skills given to a create request are what the engine later
    reads from the stored item, provided the JSON writer and reader agree on
    that list: a request without skills, or with an empty list, stores no
    text, and the engine reads the empty list. *)
Theorem created_skills_read_back
    (json_dumps : list string -> string)
    (json_loads : string -> Json.outcome)
    (db : DB.t) (now new_id : Z) (task_data : Routes.TaskCreate)
    (current_user : User.t) (k : Task.t) :
  fst (Routes.create_task json_dumps db now new_id task_data current_user)
  = Routes.Ok k ->
  let skills :=
    match Routes.crt_required_skills task_data with
    | Some l => l
    | None => []
    end in
  (skills <> [] ->
   json_dumps skills <> EmptyString /\
   json_loads (json_dumps skills)
   = Json.Decoded (Json.JList (map Json.JStr skills))) ->
  TaskData.required_skills (Distribution._prepare_task_data json_loads k)
  = Json.JList (map Json.JStr skills).
Proof.
  cbv zeta. unfold Routes.create_task.
  destruct (Routes.crt_assigned_to task_data) as [a|];
    [destruct (Py.truthy_int (Some a));
     [destruct (DB.user_by_id db a) as [u|]; [|discriminate];
      destruct (UserRole.eqb (User.role current_user) UserRole.GESTOR
                && negb (DB.in_team (User.id current_user) u));
      [discriminate|]|]|];
    cbn [Py.truthy_int fst]; intro H; injection H as <-; intro Hrt;
    cbn [Distribution._prepare_task_data TaskData.required_skills
         Task.required_skills];
    (destruct (Routes.crt_required_skills task_data) as [[|s l]|];
     try reflexivity);
    (destruct Hrt as [Hne Hl]; [discriminate|]);
    unfold Distribution._parse_required_skills;
    (destruct (String.eqb (json_dumps (s :: l)) EmptyString) eqn:E;
     [apply String.eqb_eq in E; contradiction|now rewrite Hl]).
Qed.

Lemma created_skills_read_back_witness :
  let task_data :=
    Routes.mkTaskCreate "Novo item" None TaskPriority.HIGH (Some 6)
      (Some ["python"]) None (Some 3%Z) in
  let skills :=
    match Routes.crt_required_skills task_data with
    | Some l => l
    | None => []
    end in
  TaskData.required_skills
    (Distribution._prepare_task_data loads_default
       (Task.mk 8 "Novo item" None TaskStatus.PENDING TaskPriority.HIGH
          (Some 3%Z) 1 (Some 6) 0 (Some ("[" ++ quoted "python" ++ "]")%string)
          None None None 100 None None None))
  = Json.JList (map Json.JStr skills).
Proof.
  apply (created_skills_read_back
           (fun _ => ("[" ++ quoted "python" ++ "]")%string) loads_default
           (team_db 20 (Some 4)) 100 8
           (Routes.mkTaskCreate "Novo item" None TaskPriority.HIGH (Some 6)
              (Some ["python"]) None (Some 3%Z))
           (sample_user 1 "gestor" UserRole.GESTOR None 0)).
  - reflexivity.
  - intros _. split; [discriminate|]. vm_compute. reflexivity.
Defined.

(** ** What a rebalance run leaves alone *)

Lemma only_load_differs_refl (u : User.t) : only_load_differs u u.
Proof. unfold only_load_differs. now destruct u. Qed.

Lemma only_load_differs_trans (x y z : User.t) :
  only_load_differs x y -> only_load_differs y z -> only_load_differs x z.
Proof.
  unfold only_load_differs. intros Hy Hz. rewrite Hz at 1. now rewrite Hy.
Qed.

Lemma only_assignee_differs_refl (k : Task.t) : only_assignee_differs k k.
Proof. unfold only_assignee_differs. repeat split. Qed.

Lemma only_assignee_differs_trans (x y z : Task.t) :
  only_assignee_differs x y -> only_assignee_differs y z ->
  only_assignee_differs x z.
Proof.
  unfold only_assignee_differs. intros Hy Hz.
  repeat match goal with H : _ /\ _ |- _ => destruct H end.
  repeat split; congruence.
Qed.

Lemma frame_refl (db : DB.t) : frame db db.
Proof.
  repeat split; apply Forall2_refl;
    [apply only_load_differs_refl|apply only_assignee_differs_refl].
Qed.

Lemma frame_trans (a b c : DB.t) : frame a b -> frame b c -> frame a c.
Proof.
  intros (Hu1 & Hk1 & Hs1 & Hx1 & Hw1) (Hu2 & Hk2 & Hs2 & Hx2 & Hw2).
  repeat split; try congruence.
  - eapply Forall2_trans; eauto using only_load_differs_trans.
  - eapply Forall2_trans; eauto using only_assignee_differs_trans.
Qed.

Lemma adjust_frame (i : Z) (f : Q -> Q) (us : list User.t) :
  Forall2 only_load_differs us (adjust i f us).
Proof.
  apply Forall2_map_r. intro x.
  destruct (User.id x =? i)%Z;
    [reflexivity|apply only_load_differs_refl].
Qed.

Lemma reassign_frame (i : Z) (a : option Z) (ks : list Task.t) :
  Forall2 only_assignee_differs ks (reassign i a ks).
Proof.
  apply Forall2_map_r. intro x.
  destruct (Task.id x =? i)%Z;
    [unfold only_assignee_differs; repeat split
    |apply only_assignee_differs_refl].
Qed.

Lemma move_effect_frame (db : DB.t) (m : Distribution.Move) :
  frame db (move_effect db m).
Proof.
  unfold move_effect.
  destruct (DB.task_by_id db _) as [k|]; [|apply frame_refl].
  destruct (DB.user_by_username db _) as [old|]; [|apply frame_refl].
  destruct (DB.user_by_json_id db _) as [new|]; [|apply frame_refl].
  repeat split; cbn [DB.users DB.tasks]; [|apply reassign_frame].
  destruct (Task.estimated_hours k) as [h|];
    [destruct (Py.truthy_float (Some h))|];
    try (apply Forall2_refl, only_load_differs_refl).
  eapply Forall2_trans; [exact only_load_differs_trans| |]; apply adjust_frame.
Qed.

Lemma fold_frame (ms : list Distribution.Move) (db : DB.t) :
  frame db (fold_left move_effect ms db).
Proof.
  revert db. induction ms as [|m ms IH]; intro db; simpl;
    [apply frame_refl|].
  eapply frame_trans; [apply move_effect_frame|apply IH].
Qed.

(** X24. A rebalance run on a well-formed store, applied or not, changes nothing
    but loads and assignees, and the update stamps that the store writes by
    itself: every person keeps their row except for the current load, every
    work item keeps its key, title, description, status, priority, creator,
    estimated and actual hours, required skills, dates and stored
    recommendation (what may differ is its assignee, and its update stamp,
    of which nothing is said), rows are neither added nor removed nor
    reordered, and skills and check-ins are left as they were; the store
    stays well formed. *)
Theorem rebalance_changes_only_loads_and_assignees
    (generate_content : Gemini.Prompt -> option string)
    (json_loads : string -> Json.outcome) (round1 : Q -> Q)
    (db : DB.t) (team_id : Z) (dry_run : bool) :
  well_formed db ->
  let db' := snd (Distribution.rebalance_team_workload generate_content
                    json_loads round1 db team_id dry_run) in
  frame db db' /\ well_formed db'.
Proof.
  intro Hwf. cbv zeta.
  destruct (rebalance_cases generate_content json_loads round1 db team_id
              dry_run) as [(msg & E)|(ms & _ & E)]; rewrite E; cbn [snd].
  - split; [apply frame_refl|exact Hwf].
  - destruct dry_run; [split; [apply frame_refl|exact Hwf]|].
    rewrite (fold_apply_effect ms db Hwf). split; [apply fold_frame|].
    apply (same_rows_well_formed db); [apply fold_same_rows|exact Hwf].
Qed.

Lemma rebalance_changes_only_loads_and_assignees_witness :
  let db' := snd (Distribution.rebalance_team_workload oracle_down loads_default
                    round1_model (team_db 38 (Some 4)) 1 false) in
  frame (team_db 38 (Some 4)) db' /\ well_formed db'.
Proof.
  apply (rebalance_changes_only_loads_and_assignees oracle_down loads_default
           round1_model (team_db 38 (Some 4)) 1 false).
  apply team_db_well_formed.
Defined.

(** ** The wellbeing analysis of one person *)

Lemma update_check_ids (db : DB.t) (c : WellbeingCheck.t) :
  map WellbeingCheck.id (DB.wellbeing_checks (Sentiment.update_check db c))
  = map WellbeingCheck.id (DB.wellbeing_checks db).
Proof.
  unfold Sentiment.update_check. cbn [DB.wellbeing_checks]. rewrite map_map.
  apply map_ext. intro x.
  destruct (WellbeingCheck.id x =? WellbeingCheck.id c)%Z eqn:E;
    [|reflexivity].
  apply Z.eqb_eq in E. now symmetry.
Qed.

Lemma sort_desc_head_In {A} (key : A -> Z) (l : list A) (x : A) (r : list A) :
  Py.sort_desc key l = x :: r -> In x l.
Proof.
  intro H. apply (sort_desc_In key x l). rewrite H. now left.
Qed.

(** X25. The analysis writes nothing but the three insight columns of check-ins
    of the analysed person: persons, work items and skills are left as they
    were, the check-ins keep their keys and order, and each keeps its mood,
    energy, notes and time. It writes only when the oracle's part of the
    result carries a sentiment score; an error result, the no-data result,
    and a combined result without sentiment score (such as the one built from
    a reply that could not be read) leave the store as it was. *)
Theorem analysis_writes_insights_only
    (generate_wellbeing : Gemini.WellbeingPrompt -> option string)
    (json_loads : string -> Json.outcome)
    (json_dumps : Json.value -> string)
    (db : DB.t) (now user_id days : Z) :
  let r := Sentiment.analyze_user_wellbeing generate_wellbeing json_loads
             json_dumps db now user_id days in
  DB.users (snd r) = DB.users db /\
  DB.tasks (snd r) = DB.tasks db /\
  DB.skills (snd r) = DB.skills db /\
  DB.user_skills (snd r) = DB.user_skills db /\
  map WellbeingCheck.id (DB.wellbeing_checks (snd r))
  = map WellbeingCheck.id (DB.wellbeing_checks db) /\
  (forall c, In c (DB.wellbeing_checks (snd r)) ->
     In c (DB.wellbeing_checks db) \/
     exists c0 sentiment risk recommendations,
       In c0 (DB.wellbeing_checks db) /\
       WellbeingCheck.user_id c0 = user_id /\
       c = Sentiment.with_insights c0 sentiment risk recommendations) /\
  match fst r with
  | Sentiment.AnalysisError _ => snd r = db
  | Sentiment.NoWellbeingData _ _ => snd r = db
  | Sentiment.Combined d _ _ _ _ =>
      Json.lookup d "sentiment_score" = None -> snd r = db
  end.
Proof.
  cbv zeta. unfold Sentiment.analyze_user_wellbeing.
  destruct (DB.user_by_id db user_id) as [user|];
    [|cbn [fst snd]; repeat split; auto].
  destruct (Py.sort_desc WellbeingCheck.created_at _) as [|latest rest] eqn:Es;
    [cbn [fst snd]; repeat split; auto|].
  destruct (Gemini.analyze_wellbeing_trend _ _ _ _ _) as [| | | | | | |d];
    try solve [cbn [fst snd]; repeat split; auto].
  destruct (Json.lookup d "sentiment_score") as [v|] eqn:El;
    [|cbn [fst snd]; repeat split; auto].
  destruct (Distribution.column_int _) as [sentiment|];
    [|cbn [fst snd]; repeat split; auto].
  destruct (Distribution.column_int _) as [risk|];
    [|cbn [fst snd]; repeat split; auto].
  cbn [fst snd]. repeat split; try reflexivity.
  - apply update_check_ids.
  - intros c Hc. unfold Sentiment.update_check in Hc.
    cbn [DB.wellbeing_checks] in Hc. apply in_map_iff in Hc.
    destruct Hc as (x & Hx & Hin).
    destruct (WellbeingCheck.id x =? _)%Z; [|left; now subst].
    right. apply sort_desc_head_In in Es.
    apply filter_In in Es. destruct Es as [Hlin Hf].
    apply andb_true_iff in Hf. destruct Hf as [Hu _]. apply Z.eqb_eq in Hu.
    exists latest. do 3 eexists. split; [exact Hlin|]. split; [exact Hu|].
    symmetry. exact Hx.
  - intro H. rewrite H in El. discriminate.
Qed.

(** X26. When the oracle is unavailable the analysis of a person with at least
    one check-in in the window still writes: the newest check-in of the
    window gets sentiment score 0 and burnout risk 0 and the dumped empty
    list of recommendations, whatever it held before, and every other
    check-in is left as it was. A person without check-in in the window gets
    the no-data result. *)
Theorem analysis_oracle_down_resets_scores
    (json_loads : string -> Json.outcome)
    (json_dumps : Json.value -> string)
    (db : DB.t) (now user_id days : Z) (user : User.t) :
  DB.user_by_id db user_id = Some user ->
  let r := Sentiment.analyze_user_wellbeing (fun _ => None) json_loads
             json_dumps db now user_id days in
  match Py.sort_desc WellbeingCheck.created_at
          (Sentiment.checks_since db user_id
             (now - days * Sentiment.seconds_per_day)%Z) with
  | [] => r = (Sentiment.NoWellbeingData user_id (User.full_name user), db)
  | latest :: rest =>
      (exists d,
          Gemini._fallback_wellbeing_analysis = Json.JDict d /\
          fst r = Sentiment.Combined d user_id (User.full_name user) days
                    (S (List.length rest))) /\
      DB.wellbeing_checks (snd r)
      = map (fun c =>
               if (WellbeingCheck.id c =? WellbeingCheck.id latest)%Z
               then Sentiment.with_insights latest (Some 0%Z) (Some 0%Z)
                      (Some (json_dumps (Json.JList [])))
               else c)
            (DB.wellbeing_checks db)
  end.
Proof.
  intro Eu. cbv zeta. unfold Sentiment.analyze_user_wellbeing. rewrite Eu.
  destruct (Py.sort_desc WellbeingCheck.created_at _) as [|latest rest];
    [reflexivity|].
  unfold Gemini.analyze_wellbeing_trend, Gemini._fallback_wellbeing_analysis.
  cbn [Json.lookup Json.get String.eqb Ascii.eqb Bool.eqb].
  change (Distribution.column_int (Json.JNum 0)) with (Some (Some 0%Z)).
  cbn [fst snd List.length]. split.
  - eexists. split; reflexivity.
  - reflexivity.
Qed.

Lemma analysis_oracle_down_resets_scores_witness :
  let r := Sentiment.analyze_user_wellbeing (fun _ => None) loads_default
             (fun _ => "[]") (team_db_checked 50) 100 2 30 in
  match Py.sort_desc WellbeingCheck.created_at
          (Sentiment.checks_since (team_db_checked 50) 2
             (100 - 30 * Sentiment.seconds_per_day)%Z) with
  | [] => r = (Sentiment.NoWellbeingData 2
                 (User.full_name
                    (sample_user 2 "ana" UserRole.COLABORADOR (Some 1%Z) 38)),
               team_db_checked 50)
  | latest :: rest =>
      (exists d,
          Gemini._fallback_wellbeing_analysis = Json.JDict d /\
          fst r = Sentiment.Combined d 2
                    (User.full_name
                       (sample_user 2 "ana" UserRole.COLABORADOR (Some 1%Z) 38))
                    30 (S (List.length rest))) /\
      DB.wellbeing_checks (snd r)
      = map (fun c =>
               if (WellbeingCheck.id c =? WellbeingCheck.id latest)%Z
               then Sentiment.with_insights latest (Some 0%Z) (Some 0%Z)
                      (Some ((fun _ : Json.value => "[]") (Json.JList [])))
               else c)
            (DB.wellbeing_checks (team_db_checked 50))
  end.
Proof.
  apply (analysis_oracle_down_resets_scores loads_default (fun _ => "[]")
           (team_db_checked 50) 100 2 30
           (sample_user 2 "ana" UserRole.COLABORADOR (Some 1%Z) 38)).
  reflexivity.
Defined.

Lemma lastn_cons_full {A} (n : nat) (x : A) (l : list A) :
  (n <= List.length l)%nat -> Py.lastn n (x :: l) = Py.lastn n l.
Proof.
  intro H. unfold Py.lastn. cbn [List.length].
  replace (S (List.length l) - n)%nat with (S (List.length l - n)) by lia.
  reflexivity.
Qed.

(** X27. The analysis is given the history newest first, and its prompt shows the
    last ten entries. So with more than ten check-ins the newest one, whose
    row receives the scores, is not shown to the oracle: whatever the first
    entry is, the prompt and hence the analysis are the same. *)
Theorem newest_entry_unseen_beyond_ten
    (generate_wellbeing : Gemini.WellbeingPrompt -> option string)
    (json_loads : string -> Json.outcome)
    (user_name : string) (newest other : Gemini.WellbeingEntry)
    (older : list Gemini.WellbeingEntry) (tasks : list Gemini.TaskEntry) :
  (10 <= List.length older)%nat ->
  Gemini._build_wellbeing_analysis_prompt user_name (newest :: older) tasks
  = Gemini._build_wellbeing_analysis_prompt user_name (other :: older) tasks /\
  Gemini.analyze_wellbeing_trend generate_wellbeing json_loads user_name
    (newest :: older) tasks
  = Gemini.analyze_wellbeing_trend generate_wellbeing json_loads user_name
      (other :: older) tasks.
Proof.
  intro H.
  assert (E : Gemini._build_wellbeing_analysis_prompt user_name
                (newest :: older) tasks
              = Gemini._build_wellbeing_analysis_prompt user_name
                  (other :: older) tasks).
  { unfold Gemini._build_wellbeing_analysis_prompt.
    now rewrite !lastn_cons_full. }
  split; [exact E|].
  unfold Gemini.analyze_wellbeing_trend. now rewrite E.
Qed.

Lemma newest_entry_unseen_beyond_ten_witness :
  Gemini._build_wellbeing_analysis_prompt "ana"
    (Gemini.mkWellbeingEntry 11 "very_bad" "exhausted" "socorro"
       :: repeat (Gemini.mkWellbeingEntry 1 "good" "high" EmptyString) 10) []
  = Gemini._build_wellbeing_analysis_prompt "ana"
      (Gemini.mkWellbeingEntry 11 "very_good" "very_high" EmptyString
         :: repeat (Gemini.mkWellbeingEntry 1 "good" "high" EmptyString) 10) []
  /\
  Gemini.analyze_wellbeing_trend (fun _ => None) loads_default "ana"
    (Gemini.mkWellbeingEntry 11 "very_bad" "exhausted" "socorro"
       :: repeat (Gemini.mkWellbeingEntry 1 "good" "high" EmptyString) 10) []
  = Gemini.analyze_wellbeing_trend (fun _ => None) loads_default "ana"
      (Gemini.mkWellbeingEntry 11 "very_good" "very_high" EmptyString
         :: repeat (Gemini.mkWellbeingEntry 1 "good" "high" EmptyString) 10) [].
Proof.
  apply (newest_entry_unseen_beyond_ten (fun _ => None) loads_default "ana"
           (Gemini.mkWellbeingEntry 11 "very_bad" "exhausted" "socorro")
           (Gemini.mkWellbeingEntry 11 "very_good" "very_high" EmptyString)
           (repeat (Gemini.mkWellbeingEntry 1 "good" "high" EmptyString) 10)
           []).
  simpl. lia.
Defined.

(** ** The summary after an analysis without oracle *)

Lemma insert_desc_map {A} (key : A -> Z) (g : A -> A) (x : A) (l : list A) :
  (forall y, key (g y) = key y) ->
  Py.insert_desc key (g x) (map g l) = map g (Py.insert_desc key x l).
Proof.
  intro H. induction l as [|y l IH]; simpl; [reflexivity|].
  rewrite !H. destruct (key x <=? key y)%Z; simpl; [now rewrite IH|reflexivity].
Qed.

Lemma sort_desc_map {A} (key : A -> Z) (g : A -> A) (l : list A) :
  (forall y, key (g y) = key y) ->
  Py.sort_desc key (map g l) = map g (Py.sort_desc key l).
Proof.
  intro H. unfold Py.sort_desc.
  change (@nil A) with (map g (@nil A)) at 1. generalize (@nil A) as acc.
  induction l as [|x l IH]; intro acc; simpl; [reflexivity|].
  rewrite (insert_desc_map key g x acc H). apply IH.
Qed.

Lemma filter_map_stable {A} (p : A -> bool) (g : A -> A) (l : list A) :
  (forall y, p (g y) = p y) -> filter p (map g l) = map g (filter p l).
Proof.
  intro H. induction l as [|x l IH]; simpl; [reflexivity|].
  rewrite H. destruct (p x); simpl; now rewrite IH.
Qed.

(** X28. An analysis run while the oracle is unavailable hides a stored burnout
    risk from the team summary. After such a run for a person with a
    check-in in the window, the summary loop (over the same window) finds
    the newest check-in with burnout risk 0, which it reads as no risk at
    all: the person's entry carries no burnout risk, no risk goes into the
    team average, and no burnout-risk alert is raised for the person,
    whatever risk the check-in held before the run. *)
Theorem oracle_down_analysis_hides_risk
    (json_loads : string -> Json.outcome)
    (json_dumps : Json.value -> string) (round1 : Q -> Q)
    (db : DB.t) (now user_id days : Z) (user : User.t)
    (latest : WellbeingCheck.t) (rest : list WellbeingCheck.t) :
  NoDup (map WellbeingCheck.id (DB.wellbeing_checks db)) ->
  DB.user_by_id db user_id = Some user ->
  Py.sort_desc WellbeingCheck.created_at
    (Sentiment.checks_since db user_id
       (now - days * Sentiment.seconds_per_day)%Z)
  = latest :: rest ->
  let since_date := (now - days * Sentiment.seconds_per_day)%Z in
  let db' := snd (Sentiment.analyze_user_wellbeing (fun _ => None) json_loads
                    json_dumps db now user_id days) in
  Sentiment.last_check_since db' user since_date
  = Some (Sentiment.with_insights latest (Some 0%Z) (Some 0%Z)
            (Some (json_dumps (Json.JList [])))) /\
  forall acc,
    let acc' := Sentiment.member_step round1 db' since_date acc user in
    Sentiment.acc_burnout_risks acc' = Sentiment.acc_burnout_risks acc /\
    (exists md,
        Sentiment.acc_members acc' = (Sentiment.acc_members acc ++ [md])%list /\
        Sentiment.md_user_id md = user_id /\
        Sentiment.md_burnout_risk md = None) /\
    (forall a, In a (Sentiment.acc_alerts acc') ->
               Sentiment.alert_type a = "burnout_risk" ->
               In a (Sentiment.acc_alerts acc)).
Proof.
  intros Hnd Eu Es. cbv zeta.
  destruct (user_by_id_id db user_id user Eu) as [_ Hid].
  set (since_date := (now - days * Sentiment.seconds_per_day)%Z) in *.
  set (g := fun c => if (WellbeingCheck.id c =? WellbeingCheck.id latest)%Z
                     then Sentiment.with_insights c (Some 0%Z) (Some 0%Z)
                            (Some (json_dumps (Json.JList [])))
                     else c).
  assert (Hlin : In latest (DB.wellbeing_checks db)).
  { apply sort_desc_head_In in Es. apply filter_In in Es. now destruct Es. }
  assert (Hdb : snd (Sentiment.analyze_user_wellbeing (fun _ => None)
                       json_loads json_dumps db now user_id days)
                = DB.mk (DB.users db) (DB.tasks db) (DB.skills db)
                    (DB.user_skills db) (map g (DB.wellbeing_checks db))).
  { unfold Sentiment.analyze_user_wellbeing. rewrite Eu.
    fold since_date. rewrite Es.
    unfold Gemini.analyze_wellbeing_trend, Gemini._fallback_wellbeing_analysis.
    cbn [Json.lookup Json.get String.eqb Ascii.eqb Bool.eqb].
    change (Distribution.column_int (Json.JNum 0)) with (Some (Some 0%Z)).
    cbn [snd]. unfold Sentiment.update_check. f_equal.
    apply map_ext_in. intros y Hy. unfold g.
    cbn [Sentiment.with_insights WellbeingCheck.id].
    destruct (WellbeingCheck.id y =? WellbeingCheck.id latest)%Z eqn:E;
      [|reflexivity].
    apply Z.eqb_eq in E.
    now rewrite (NoDup_map_inj WellbeingCheck.id _ y latest Hnd Hy Hlin E). }
  rewrite Hdb.
  assert (Hlast : Sentiment.last_check_since
                    (DB.mk (DB.users db) (DB.tasks db) (DB.skills db)
                       (DB.user_skills db) (map g (DB.wellbeing_checks db)))
                    user since_date
                  = Some (Sentiment.with_insights latest (Some 0%Z) (Some 0%Z)
                            (Some (json_dumps (Json.JList []))))).
  { unfold Sentiment.last_check_since, Sentiment.checks_since.
    cbn [DB.wellbeing_checks]. rewrite Hid.
    rewrite filter_map_stable.
    2:{ intro y. unfold g.
        destruct (WellbeingCheck.id y =? WellbeingCheck.id latest)%Z;
          reflexivity. }
    rewrite sort_desc_map.
    2:{ intro y. unfold g.
        destruct (WellbeingCheck.id y =? WellbeingCheck.id latest)%Z;
          reflexivity. }
    fold (Sentiment.checks_since db user_id since_date). rewrite Es.
    cbn [map hd_error]. unfold g. now rewrite Z.eqb_refl. }
  split; [exact Hlast|].
  intro acc. unfold Sentiment.member_step. rewrite Hlast.
  cbn [Sentiment.with_insights WellbeingCheck.ai_burnout_risk Py.truthy_int
       Z.eqb negb andb Sentiment.acc_burnout_risks Sentiment.acc_members
       Sentiment.acc_alerts app].
  split; [apply app_nil_r|]. split.
  - eexists. split; [reflexivity|]. split; [exact Hid|reflexivity].
  - intros a Ha Ht. apply in_app_or in Ha. destruct Ha as [Ha|Ha];
      [exact Ha|]. exfalso.
    apply in_app_or in Ha. destruct Ha as [Ha|Ha].
    + destruct (User.is_overloaded user); [|contradiction].
      destruct Ha as [<-|[]]. discriminate Ht.
    + destruct (WellbeingCheck.is_concerning _); [|contradiction].
      destruct Ha as [<-|[]]. discriminate Ht.
Qed.

Lemma oracle_down_analysis_hides_risk_witness :
  let since_date := (100 - 30 * Sentiment.seconds_per_day)%Z in
  let db' := snd (Sentiment.analyze_user_wellbeing (fun _ => None) loads_default
                    (fun _ => "[]") (risky_checkin 95) 100 2 30) in
  Sentiment.last_check_since db'
    (sample_user 2 "ana" UserRole.COLABORADOR (Some 1%Z) 38) since_date
  = Some (Sentiment.with_insights
            (WellbeingCheck.mk 1 2 MoodLevel.BAD EnergyLevel.LOW None
               (Some 40%Z) (Some 95%Z) None 50)
            (Some 0%Z) (Some 0%Z)
            (Some ((fun _ : Json.value => "[]") (Json.JList [])))) /\
  forall acc,
    let acc' := Sentiment.member_step round1_model db' since_date acc
                  (sample_user 2 "ana" UserRole.COLABORADOR (Some 1%Z) 38) in
    Sentiment.acc_burnout_risks acc' = Sentiment.acc_burnout_risks acc /\
    (exists md,
        Sentiment.acc_members acc' = (Sentiment.acc_members acc ++ [md])%list /\
        Sentiment.md_user_id md = 2%Z /\
        Sentiment.md_burnout_risk md = None) /\
    (forall a, In a (Sentiment.acc_alerts acc') ->
               Sentiment.alert_type a = "burnout_risk" ->
               In a (Sentiment.acc_alerts acc)).
Proof.
  apply (oracle_down_analysis_hides_risk loads_default (fun _ => "[]")
           round1_model (risky_checkin 95) 100 2 30
           (sample_user 2 "ana" UserRole.COLABORADOR (Some 1%Z) 38)
           (WellbeingCheck.mk 1 2 MoodLevel.BAD EnergyLevel.LOW None
              (Some 40%Z) (Some 95%Z) None 50)
           []).
  - repeat constructor. intros [].
  - reflexivity.
  - reflexivity.
Defined.
